(** * Verbotic: document ingestion and retrieval-augmented chat

    A shallow embedding of the Supabase edge functions of the repository
    (process-document, rag-chat, chat-search, gemini-realtime) and of the
    SQL function [match_document_chunks], with the properties the
    specification states about them.

    Conventions of the embedding.
    - A JavaScript string is a [string]; one character stands for one
      UTF-16 code unit, so [String.length] is [.length] and [slice] cuts
      between code units.
    - A database table is the list of its rows in storage order.  A
      supabase-js query never throws: it resolves to data and error, and
      the handlers below ignore the error of every write, so a write is a
      total update of the table.
    - The services outside the repository (environment variables, storage,
      the document parsers, the OpenAI endpoints, pgvector's distance
      operator, IEEE rounding) are the fields of an [Env] record. *)

From Stdlib Require Import List String Ascii Bool Arith ZArith QArith Lia.
From Stdlib Require Import DecimalString.
From Stdlib Require Import Sorted Permutation Lqa.
Import ListNotations.

Open Scope string_scope.
Open Scope nat_scope.

Set Implicit Arguments.

(* ================================================================== *)
(** * JavaScript strings *)

Module Js.

(** [s.slice(a, b)] for indices [0 <= a], [0 <= b]: the code units from
    [a] up to, not including, [b], cut at the end of [s]. *)
Definition slice (s : string) (a b : nat) : string :=
  substring a (b - a) s.

(** [ls.join("")]. *)
Definition concat_all (ls : list string) : string :=
  fold_right append EmptyString ls.

(** [ls.join(sep)]. *)
Definition join (sep : string) (ls : list string) : string :=
  String.concat sep ls.

(** White space as [String.prototype.trim] sees it, on the code units
    below 256: TAB, LF, VT, FF, CR, SPACE and NBSP. *)
Definition is_white_space (c : ascii) : bool :=
  let n := nat_of_ascii c in
  ((9 <=? n) && (n <=? 13)) || (n =? 32) || (n =? 160).

Fixpoint trim_start (s : string) : string :=
  match s with
  | EmptyString => EmptyString
  | String c s' => if is_white_space c then trim_start s' else s
  end.

Fixpoint rev (s : string) : string :=
  match s with
  | EmptyString => EmptyString
  | String c s' => rev s' ++ String c EmptyString
  end.

Definition trim (s : string) : string :=
  rev (trim_start (rev (trim_start s))).

(** [s.includes(c)] for a one-character needle. *)
Fixpoint includes_char (s : string) (c : ascii) : bool :=
  match s with
  | EmptyString => false
  | String d s' => Ascii.eqb c d || includes_char s' c
  end.

(** [s.endsWith(suffix)]. *)
Definition endsWith (s suffix : string) : bool :=
  let n := String.length s in
  let m := String.length suffix in
  (m <=? n) && String.eqb (substring (n - m) m s) suffix.

(** [s.toLowerCase()] on the code units below 256. *)
Definition lower_char (c : ascii) : ascii :=
  let n := nat_of_ascii c in
  if ((65 <=? n) && (n <=? 90))
     || ((192 <=? n) && (n <=? 222) && negb (n =? 215))
  then ascii_of_nat (n + 32) else c.

Fixpoint toLowerCase (s : string) : string :=
  match s with
  | EmptyString => EmptyString
  | String c s' => String (lower_char c) (toLowerCase s')
  end.

(** [s.replace(pattern, replacement)] with a string pattern: the first
    occurrence only. *)
Definition replace (s pattern replacement : string) : string :=
  match index 0 pattern s with
  | Some n =>
      substring 0 n s ++ replacement
      ++ substring (n + String.length pattern)
                   (String.length s - (n + String.length pattern)) s
  | None => s
  end.

(** Truthiness of a possibly undefined string: [undefined], [null] and
    the empty string are falsy. *)
Definition truthy (s : option string) : bool :=
  match s with
  | Some EmptyString | None => false
  | Some _ => true
  end.

(** The string a truthy value holds. *)
Definition value (s : option string) : string :=
  match s with Some v => v | None => EmptyString end.

(** A number in a template literal, for the integers the handlers
    print (HTTP status codes). *)
Definition string_of_Z (z : Z) : string :=
  NilZero.string_of_int (Z.to_int z).

(** What a [throw] carries: an [Error] object with its message, or any
    other value. *)
Inductive Exn : Type :=
| Error (message : string)
| NonError.

(** [error instanceof Error ? error.message : "Unknown error"]. *)
Definition message_of (e : Exn) : string :=
  match e with
  | Error m => m
  | NonError => "Unknown error"
  end.

End Js.

(* ================================================================== *)
(** * The chunker (process-document, "Split text into chunks") *)

Module Chunker.

Definition chunkSize : nat := 1000.

(** The loop of both versions of process-document,
    [for (let i = 0; i < text.length; i += chunkSize)
       chunks.push(text.slice(i, i + chunkSize))]
    from the state [(i, chunks)].  [fuel] bounds the number of
    iterations; [None] means the bound was reached. *)
Fixpoint chunk_loop (size fuel : nat) (text : string) (i : nat)
         (chunks : list string) : option (list string) :=
  match fuel with
  | O => None
  | S fuel' =>
      if i <? String.length text
      then chunk_loop size fuel' text (i + size)
                      (chunks ++ [Js.slice text i (i + size)])
      else Some chunks
  end.

(** The chunker with chunk size [size]: more iterations than the text
    has code units are never needed when [size > 0]. *)
Definition split_with (size : nat) (text : string) : option (list string) :=
  chunk_loop size (S (String.length text)) text 0 [].

Definition split (text : string) : option (list string) :=
  split_with chunkSize text.

(** [ceil(a / b)]. *)
Definition ceil_div (a b : nat) : nat := (a + b - 1) / b.

(** The chunk the specification names: [text[k*C : min((k+1)*C, L)]]. *)
Definition window (size : nat) (text : string) (k : nat) : string :=
  Js.slice text (k * size) (Nat.min ((k + 1) * size) (String.length text)).

End Chunker.

(* ================================================================== *)
(** * The database *)

(** An embedding vector; the components are floating-point numbers in the
    source and rationals here. *)
Definition vector : Type := list Q.

(** A [float8] the database computes from vectors: a number, or NaN
    (pgvector's [<=>] is NaN when one of the vectors is zero).
    PostgreSQL takes NaN as equal to itself and greater than every
    number. *)
Module Float8.

Inductive t : Type :=
| Num (q : Q)
| NaN.

(** [1 - x]. *)
Definition one_minus (x : t) : t :=
  match x with
  | Num q => Num (1 - q)
  | NaN => NaN
  end.

(** [x > y]. *)
Definition gtb (x y : t) : bool :=
  match x, y with
  | Num a, Num b => negb (Qle_bool a b)
  | NaN, Num _ => true
  | _, NaN => false
  end.

(** [x <= y], the order of [ORDER BY ... ASC]. *)
Definition leb (x y : t) : bool :=
  match x, y with
  | Num a, Num b => Qle_bool a b
  | _, NaN => true
  | NaN, Num _ => false
  end.

End Float8.

Module Document.
Record t : Type := {
  id : string;
  user_id : string;
  file_path : string;
  mime_type : option string;
  status : option string;
  processing_progress : option Z;
  error_message : option string;
  created_at : Z
}.

Definition set_progress (p : Z) (d : t) : t :=
  {| id := id d; user_id := user_id d; file_path := file_path d;
     mime_type := mime_type d; status := status d;
     processing_progress := Some p;
     error_message := error_message d; created_at := created_at d |}.

Definition set_completed (d : t) : t :=
  {| id := id d; user_id := user_id d; file_path := file_path d;
     mime_type := mime_type d; status := Some "completed";
     processing_progress := Some 100%Z;
     error_message := error_message d; created_at := created_at d |}.

Definition set_failed (message : string) (d : t) : t :=
  {| id := id d; user_id := user_id d; file_path := file_path d;
     mime_type := mime_type d; status := Some "failed";
     processing_progress := processing_progress d;
     error_message := Some message; created_at := created_at d |}.
End Document.

Module Chunk.
Record Metadata : Type := { chunk_index : nat }.

Record t : Type := {
  id : string;
  document_id : string;
  content : string;
  embedding : option vector;
  metadata : option Metadata
}.
End Chunk.

Module Agent.
Record t : Type := {
  id : string;
  system_prompt : string;
  rag_enabled : bool;
  document_ids : option (list string)
}.
End Agent.

Module Context.
Record t : Type := {
  id : string;
  system_prompt : option string;
  document_ids : option (list string)
}.
End Context.

Module Conversation.
Record t : Type := {
  id : string;
  agent_id : option string;
  context_id : option string;
  rag_enabled : bool
}.
End Conversation.

Module Message.
Record t : Type := {
  conversation_id : string;
  role : string;
  content : string;
  created_at : Z
}.
End Message.

Record Database : Type := {
  logs : list string;
  conversations : list Conversation.t;
  agents : list Agent.t;
  contexts : list Context.t;
  documents : list Document.t;
  document_chunks : list Chunk.t;
  messages : list Message.t
}.

Module Query.

(** [.single()]: the row when the selection has exactly one, [null]
    (with an error the handlers only test for) otherwise. *)
Definition single (A : Type) (rows : list A) : option A :=
  match rows with
  | [row] => Some row
  | _ => None
  end.

(** [.eq(column, value)] on a text column. *)
Definition eq (A : Type) (column : A -> string) (value : string)
           (rows : list A) : list A :=
  filter (fun row => String.eqb (column row) value) rows.

(** [.in(column, values)] and SQL's [column = ANY(values)]. *)
Definition is_in (value : string) (values : list string) : bool :=
  existsb (String.eqb value) values.

(** [.limit(n)]. *)
Definition limit (A : Type) (n : nat) (rows : list A) : list A :=
  firstn n rows.

(** [ORDER BY]: a stable insertion sort by the order [leb].  The order
    the database gives to rows with equal keys is not fixed by SQL;
    here they keep their storage order. *)
Fixpoint insert_by (A : Type) (leb : A -> A -> bool) (x : A)
         (sorted : list A) : list A :=
  match sorted with
  | [] => [x]
  | y :: rest => if leb x y then x :: y :: rest
                 else y :: insert_by leb x rest
  end.

Definition order_by (A : Type) (leb : A -> A -> bool) (rows : list A)
  : list A :=
  fold_right (insert_by leb) [] rows.

(** [.update(change).eq("id", id)] on the documents table. *)
Definition update_document (id : string)
           (change : Document.t -> Document.t)
           (rows : list Document.t) : list Document.t :=
  map (fun d => if String.eqb (Document.id d) id then change d else d) rows.

(** [.from("documents").select("*").eq("id", id).single()]. *)
Definition document (db : Database) (id : string) : option Document.t :=
  single (eq Document.id id (documents db)).

End Query.

Definition with_logs (l : list string) (db : Database) : Database :=
  {| logs := l; conversations := conversations db; agents := agents db;
     contexts := contexts db; documents := documents db;
     document_chunks := document_chunks db; messages := messages db |}.

Definition with_documents (ds : list Document.t) (db : Database) : Database :=
  {| logs := logs db; conversations := conversations db; agents := agents db;
     contexts := contexts db; documents := ds;
     document_chunks := document_chunks db; messages := messages db |}.

Definition with_document_chunks (cs : list Chunk.t) (db : Database)
  : Database :=
  {| logs := logs db; conversations := conversations db; agents := agents db;
     contexts := contexts db; documents := documents db;
     document_chunks := cs; messages := messages db |}.

(* ================================================================== *)
(** * The world outside the handlers *)

(** How a computation ends: with a value, with a thrown exception, or
    not at all ([Diverged], when a loop ran out of its iteration bound). *)
Inductive Outcome (A : Type) : Type :=
| Returned (a : A)
| Thrown (e : Js.Exn)
| Diverged.

Arguments Returned {A} a.
Arguments Thrown {A} e.
Arguments Diverged {A}.

Record ChatMessage : Type := { role : string; content : string }.

(** The requests the handlers send with [fetch]. *)
Inductive HttpRequest : Type :=
| EmbeddingsRequest (authorization model input : string)
| ChatCompletionsRequest (authorization model : string)
                         (messages : list ChatMessage).

(** What the handlers read of a response: [ok], [status], and the two
    paths they follow into the JSON body,
    [data[0].embedding] and [choices[0].message.content], each of which
    may throw. *)
Record HttpResponse : Type := {
  ok : bool;
  http_status : Z;
  json_embedding : Outcome (option vector);
  json_content : Outcome string
}.

Inductive FetchResult : Type :=
| Rejected (e : Js.Exn)
| Resolved (r : HttpResponse).

Record Blob : Type := {
  blob_text : string;            (* await fileData.text() *)
  blob_bytes : list Byte.byte    (* await fileData.arrayBuffer() *)
}.

(** [{ data, error }] of [storage.download]. *)
Record Download : Type := {
  download_data : option Blob;
  download_error : option string   (* downloadError.message *)
}.

(** [text] of unpdf's [extractText]: one string, or one per page. *)
Inductive PdfText : Type :=
| Pages (pages : list string)
| Whole (text : string).

Record Env : Type := {
  (** [Deno.env.get("OPENAI_API_KEY")] *)
  OPENAI_API_KEY : option string;
  (** [supabase.auth.getUser(token)]: the user's id *)
  getUser : string -> option string;
  (** [supabase.storage.from("documents").download(path)] *)
  download : string -> Download;
  (** mammoth's [extractRawText(...).value] *)
  mammoth_extractRawText : list Byte.byte -> Outcome string;
  (** unpdf's [extractText(...).text] *)
  unpdf_extractText : list Byte.byte -> Outcome PdfText;
  (** [fetch]: the answer to a request, given how many requests this
      world has seen before it *)
  http : nat -> HttpRequest -> FetchResult;
  (** [gen_random_uuid()], the default of [document_chunks.id], given the
      number of rows already in the table *)
  gen_random_uuid : nat -> string;
  (** pgvector's [<=>] *)
  cosine_distance : vector -> vector -> Float8.t;
  (** [error] of [supabase.from("document_chunks").insert(row)]: whether
      the table refuses the row (a vector of another dimension than the
      column's, a violated constraint) *)
  insert_error : Chunk.t -> bool;
  (** [Math.round((processedChunks / chunks.length) * 100)] in IEEE
      double arithmetic *)
  round_percent : nat -> nat -> Z;
  (** the TypeError the runtime throws when a method is called on
      [null] *)
  null_dereference : Js.Exn
}.

Record World : Type := {
  db : Database;
  calls : list HttpRequest     (* the requests sent so far, oldest first *)
}.

(** ** The state-and-exception monad of a handler *)

Definition M (A : Type) : Type := World -> Outcome A * World.

Definition ret (A : Type) (a : A) : M A := fun w => (Returned a, w).

Definition bind (A B : Type) (m : M A) (k : A -> M B) : M B :=
  fun w =>
    match m w with
    | (Returned a, w') => k a w'
    | (Thrown e, w') => (Thrown e, w')
    | (Diverged, w') => (Diverged, w')
    end.

Definition throw (A : Type) (e : Js.Exn) : M A := fun w => (Thrown e, w).
Arguments throw {A} e.

Definition try_catch (A : Type) (m : M A) (handler : Js.Exn -> M A) : M A :=
  fun w =>
    match m w with
    | (Thrown e, w') => handler e w'
    | r => r
    end.

Definition lift (A : Type) (o : Outcome A) : M A := fun w => (o, w).

Definition get_db : M Database := fun w => (Returned (db w), w).

Definition modify_db (f : Database -> Database) : M unit :=
  fun w => (Returned tt, {| db := f (db w); calls := calls w |}).

Declare Scope monad_scope.
Delimit Scope monad_scope with monad.
Notation "x <- m ;; k" := (bind m (fun x => k))
  (at level 100, m at next level, right associativity) : monad_scope.
Notation "m ;;; k" := (bind m (fun _ => k))
  (at level 100, right associativity) : monad_scope.
Open Scope monad_scope.

(** [await fetch(...)]: the request is recorded and answered. *)
Definition fetch (env : Env) (request : HttpRequest) : M HttpResponse :=
  fun w =>
    let w' := {| db := db w; calls := calls w ++ [request] |} in
    match http env (List.length (calls w)) request with
    | Rejected e => (Thrown e, w')
    | Resolved r => (Returned r, w')
    end.

(** What a handler answers: the status and the JSON body (the CORS
    headers, the same on every response, are left out). *)
Inductive Body : Type :=
| NoBody
| Ingested (success : bool) (chunks_processed : nat)
| Failed (error : string)
| Answer (response : string) (rag_used : bool)
| Results (results : list (string * Float8.t))
| FailedResults (error : string) (results : list (string * Float8.t)).

Record Response : Type := { status : Z; body : Body }.

(** A request as a handler reads it; [json] is the outcome of
    [await req.json()], which throws on a body that is not JSON. *)
Record Request (B : Type) : Type := {
  method : string;
  authorization : option string;
  json : Outcome B
}.

Definition nl : string := String (ascii_of_nat 10) EmptyString.
Definition cr : string := String (ascii_of_nat 13) EmptyString.
Definition dquote : string := String (ascii_of_nat 34) EmptyString.

(* ================================================================== *)
(** * process-document: the ingestion pipeline *)

Module ProcessDocument.

Record Json : Type := { document_id : option string }.

Definition docx_mime : string :=
  "application/vnd.openxmlformats-officedocument.wordprocessingml.document".

Definition no_docx_text : string := "No text could be extracted from DOCX".
Definition no_pdf_text : string :=
  "No text could be extracted from PDF - the document may be image-based or encrypted".
Definition key_missing : string :=
  "OPENAI_API_KEY is not configured or is empty".
Definition key_invalid : string :=
  "OPENAI_API_KEY contains invalid characters".

Section Handler.

Variable env : Env.

(** "Extract text based on file type".  A [throw] inside the DOCX or
    PDF branch is caught by that branch's own [catch] and thrown
    again with the prefix. *)
Definition extract_text (document : Document.t) (fileData : Blob)
  : Outcome string :=
  let mime := Document.mime_type document in
  let fileName := Js.toLowerCase (Document.file_path document) in
  let mime_is (m : string) :=
    match mime with Some m' => String.eqb m' m | None => false end in
  if mime_is "text/plain" then Returned (blob_text fileData)
  else if mime_is "text/csv" || Js.endsWith fileName ".csv"
  then Returned (blob_text fileData)
  else if mime_is docx_mime || Js.endsWith fileName ".docx"
  then
    let rethrow (e : Js.Exn) : Outcome string :=
      Thrown (Js.Error ("Failed to parse DOCX: " ++ Js.message_of e)) in
    match mammoth_extractRawText env (blob_bytes fileData) with
    | Returned value =>
        let text := Js.trim value in
        if String.eqb text "" then rethrow (Js.Error no_docx_text)
        else Returned text
    | Thrown e => rethrow e
    | Diverged => Diverged
    end
  else if mime_is "application/pdf" || Js.endsWith fileName ".pdf"
  then
    let rethrow (e : Js.Exn) : Outcome string :=
      Thrown (Js.Error ("Failed to parse PDF: " ++ Js.message_of e)) in
    match unpdf_extractText env (blob_bytes fileData) with
    | Returned extractedText =>
        let text :=
          match extractedText with
          | Pages pages => Js.join (nl ++ nl) pages
          | Whole s => Js.trim s
          end in
        if String.eqb text "" then rethrow (Js.Error no_pdf_text)
        else Returned text
    | Thrown e => rethrow e
    | Diverged => Diverged
    end
  else Returned (blob_text fileData).

(** The row [insert] adds to [document_chunks]. *)
Definition new_chunk (rows : nat) (document_id chunk : string)
           (embedding : option vector) (processedChunks : nat) : Chunk.t :=
  {| Chunk.id := gen_random_uuid env rows;
     Chunk.document_id := document_id;
     Chunk.content := chunk;
     Chunk.embedding := embedding;
     Chunk.metadata := Some {| Chunk.chunk_index := processedChunks |} |}.

(** [await supabase.from("document_chunks").insert({...})]: the row is
    appended unless the table refuses it; the handler does not look at
    the [error] the call returns. *)
Definition insert_chunk (document_id chunk : string)
           (embedding : option vector) (processedChunks : nat) : M unit :=
  modify_db (fun db =>
    let row := new_chunk (List.length (document_chunks db)) document_id
                         chunk embedding processedChunks in
    if insert_error env row then db
    else with_document_chunks (document_chunks db ++ [row]) db).

Definition update_document (document_id : string)
           (change : Document.t -> Document.t) : M unit :=
  modify_db (fun db =>
    with_documents
      (Query.update_document document_id change (documents db)) db).

(** "Generate embeddings and store chunks": the loop
    [for (const chunk of chunks)] from the chunks still to visit and
    the current [processedChunks]; [total] is [chunks.length]. *)
Fixpoint embed_chunks (document_id authorization : string) (total : nat)
         (chunks : list string) (processedChunks : nat) : M nat :=
  match chunks with
  | [] => ret processedChunks
  | chunk :: rest =>
      embeddingResponse <-
        fetch env (EmbeddingsRequest authorization
                                     "text-embedding-3-small" chunk) ;;
      if negb (ok embeddingResponse)
      then (* continue *)
        embed_chunks document_id authorization total rest processedChunks
      else
        embedding <- lift (json_embedding embeddingResponse) ;;
        insert_chunk document_id chunk embedding processedChunks ;;;
        let processedChunks := S processedChunks in
        let progress := round_percent env processedChunks total in
        update_document document_id (Document.set_progress progress) ;;;
        embed_chunks document_id authorization total rest processedChunks
  end.

(** [!OPENAI_API_KEY || OPENAI_API_KEY.trim() === ""]. *)
Definition key_is_missing (key : option string) : bool :=
  match key with
  | None => true
  | Some key => String.eqb key "" || String.eqb (Js.trim key) ""
  end.

(** "Validate API key format". *)
Definition key_is_invalid (key : string) : bool :=
  Js.includes_char key (ascii_of_nat 10)
  || Js.includes_char key (ascii_of_nat 13).

(** The [try] block from "Generate embeddings and store chunks" to
    its [return]. *)
Definition store_chunks (id : string) (chunks : list string)
  : M Response :=
  if key_is_missing (OPENAI_API_KEY env)
  then throw (Js.Error key_missing)
  else
  let key := Js.value (OPENAI_API_KEY env) in
  if key_is_invalid key
  then throw (Js.Error key_invalid)
  else
  processedChunks <-
    embed_chunks id ("Bearer " ++ Js.trim key) (List.length chunks)
                 chunks 0 ;;
  update_document id Document.set_completed ;;;
  ret {| status := 200;
         body := Ingested true processedChunks |}.

(** The body of the [try] block, after [document_id] was read. *)
Definition try_block (document_id : option string) : M Response :=
  if negb (Js.truthy document_id)
  then throw (Js.Error "document_id is required")
  else
  let id := Js.value document_id in
  db0 <- get_db ;;
  match Query.document db0 id with
  | None => throw (Js.Error "Document not found")
  | Some document =>
  let file := download env (Document.file_path document) in
  match download_error file with
  | Some message =>
      throw (Js.Error ("Failed to download document: " ++ message))
  | None =>
  match download_data file with
  | None => throw (Js.Error "File data is empty")
  | Some fileData =>
  text <- lift (extract_text document fileData) ;;
  match Chunker.split text with
  | None => lift Diverged
  | Some chunks => store_chunks id chunks
  end end end end.

(** The [catch] block: record the failure on the document, answer
    500.  The inner [try] around the update guards a write that does
    not throw. *)
Definition catch_block (document_id : option string) (error : Js.Exn)
  : M Response :=
  (if Js.truthy document_id
   then
     update_document (Js.value document_id)
                     (Document.set_failed (Js.message_of error))
   else ret tt) ;;;
  ret {| status := 500; body := Failed (Js.message_of error) |}.

Definition serve (req : Request Json) : M Response :=
  if String.eqb (method req) "OPTIONS"
  then ret {| status := 200; body := NoBody |}
  else
    match json req with
    | Returned body =>
        try_catch (try_block (document_id body))
                  (catch_block (document_id body))
    | Thrown e =>
        (* [req.json()] rejects before [document_id] is assigned *)
        catch_block None e
    | Diverged => lift Diverged
    end.

End Handler.

End ProcessDocument.

(* ================================================================== *)
(** * match_document_chunks: the similarity search (SQL) *)

Module Search.

(** A row of the function's result table. *)
Record Match : Type := {
  id : string;
  document_id : string;
  content : string;
  similarity : Float8.t
}.

Section Function.

Variable env : Env.

(** [document_chunks.embedding <=> query_embedding]; NULL when either
    side is NULL. *)
Definition distance (query_embedding : option vector) (c : Chunk.t)
  : option Float8.t :=
  match Chunk.embedding c, query_embedding with
  | Some e, Some q => Some (cosine_distance env e q)
  | _, _ => None
  end.

(** The WHERE clause; a comparison with NULL does not select, a NaN
    similarity is above every threshold. *)
Definition selected (query_embedding : option vector)
           (match_threshold : Q) (filter_document_ids : list string)
           (c : Chunk.t) : bool :=
  Query.is_in (Chunk.document_id c) filter_document_ids
  && match distance query_embedding c with
     | Some d => Float8.gtb (Float8.one_minus d) (Float8.Num match_threshold)
     | None => false
     end.

(** The ORDER BY clause: ascending distance, NaN after the numbers. *)
Definition closer (query_embedding : option vector) (c1 c2 : Chunk.t)
  : bool :=
  match distance query_embedding c1, distance query_embedding c2 with
  | Some d1, Some d2 => Float8.leb d1 d2
  | Some _, None => true
  | None, _ => false
  end.

(** The SELECT list. *)
Definition to_match (query_embedding : option vector) (c : Chunk.t)
  : Match :=
  {| id := Chunk.id c;
     document_id := Chunk.document_id c;
     content := Chunk.content c;
     similarity :=
       match distance query_embedding c with
       | Some d => Float8.one_minus d
       | None => Float8.Num 0
       end |}.

Definition match_document_chunks (table : list Chunk.t)
           (query_embedding : option vector) (match_threshold : Q)
           (match_count : nat) (filter_document_ids : list string)
  : list Match :=
  map (to_match query_embedding)
      (Query.limit match_count
         (Query.order_by (closer query_embedding)
            (filter (selected query_embedding match_threshold
                              filter_document_ids) table))).

End Function.

(** Similarity [a] ranks at least as high as [b] in the result: both
    are numbers and [b <= a], or [b] is NaN (the rows without a number
    come last). *)
Definition ranks_above (a b : Float8.t) : Prop :=
  match a, b with
  | Float8.Num x, Float8.Num y => (y <= x)%Q
  | _, Float8.NaN => True
  | Float8.NaN, Float8.Num _ => False
  end.

End Search.

(* ================================================================== *)
(** * rag-chat: resolution, retrieval, prompt assembly *)

Module RagChat.

Record Json : Type := {
  message : option string;
  conversation_id : option string;
  rag_enabled : option bool
}.

(** The three variables the resolution block assigns. *)
Record Knowledge : Type := {
  systemPrompt : string;
  ragEnabledForConversation : bool;
  documentIds : list string
}.

Definition not_found : string :=
  "Die angefragte Information ist in den bereitgestellten Dokumenten nicht enthalten.".

Definition answer_only_from_documents : string :=
  nl ++ nl ++ "WICHTIG: Beantworte die Frage ausschließlich basierend auf den bereitgestellten Dokumenteninformationen. Wenn die Information nicht in den Dokumenten enthalten ist, antworte mit: "
  ++ dquote ++ not_found ++ dquote.

Definition no_documents_available : string :=
  nl ++ nl ++ "RAG is enabled but no documents are available.".

Definition rag_disabled : string :=
  nl ++ nl ++ "RAG is disabled. Answer based on your general knowledge.".

Definition is_empty (A : Type) (l : list A) : bool := List.length l =? 0.

(** [ids || []]. *)
Definition or_empty (ids : option (list string)) : list string :=
  match ids with Some l => l | None => [] end.

(** "Get agent if specified - agent documents have priority". *)
Definition with_agent (db : Database) (conversation : Conversation.t)
           (k : Knowledge) : Knowledge :=
  if Js.truthy (Conversation.agent_id conversation)
  then
    match Query.single
            (Query.eq Agent.id
                      (Js.value (Conversation.agent_id conversation))
                      (agents db)) with
    | Some agent =>
        {| systemPrompt := Agent.system_prompt agent;
           ragEnabledForConversation := Agent.rag_enabled agent;
           documentIds := or_empty (Agent.document_ids agent) |}
    | None => k
    end
  else k.

(** "If no agent documents, use context documents". *)
Definition with_context (db : Database) (conversation : Conversation.t)
           (k : Knowledge) : Knowledge :=
  if is_empty (documentIds k) && ragEnabledForConversation k
     && Js.truthy (Conversation.context_id conversation)
  then
    match Query.single
            (Query.eq Context.id
                      (Js.value (Conversation.context_id conversation))
                      (contexts db)) with
    | Some context =>
        {| systemPrompt :=
             if Js.truthy (Context.system_prompt context)
             then Js.value (Context.system_prompt context)
             else systemPrompt k;
           ragEnabledForConversation := ragEnabledForConversation k;
           documentIds := or_empty (Context.document_ids context) |}
    | None => k
    end
  else k.

(** "Fallback: if no agent/context docs, use user's completed
    documents". *)
Definition with_user_documents (db : Database) (user_id : string)
           (k : Knowledge) : Knowledge :=
  if ragEnabledForConversation k && is_empty (documentIds k)
  then
    let userDocs :=
      Query.limit 100
        (Query.eq (fun d => Js.value (Document.status d)) "completed"
           (Query.eq Document.user_id user_id (documents db))) in
    if 0 <? List.length userDocs
    then {| systemPrompt := systemPrompt k;
            ragEnabledForConversation := ragEnabledForConversation k;
            documentIds := map Document.id userDocs |}
    else k
  else k.

(** "Get conversation and agent details" down to the fallback: the
    knowledge sources of a request from [user_id]. *)
Definition resolve (db : Database) (body : Json) (user_id : string)
  : Knowledge :=
  let k0 :=
    {| systemPrompt := "You are a helpful AI assistant.";
       ragEnabledForConversation :=
         match rag_enabled body with Some b => b | None => true end;
       documentIds := [] |} in
  let k1 :=
    if Js.truthy (conversation_id body)
    then
      match Query.single
              (Query.eq Conversation.id (Js.value (conversation_id body))
                        (conversations db)) with
      | Some conversation =>
          let k :=
            {| systemPrompt := systemPrompt k0;
               ragEnabledForConversation :=
                 Conversation.rag_enabled conversation;
               documentIds := documentIds k0 |} in
          with_context db conversation (with_agent db conversation k)
      | None => k0
      end
    else k0 in
  with_user_documents db user_id k1.

(** [.order("created_at", { ascending: true })]. *)
Definition older (m1 m2 : Message.t) : bool :=
  (Message.created_at m1 <=? Message.created_at m2)%Z.

(** "Get conversation history". *)
Definition conversationHistory (db : Database) (body : Json)
  : list Message.t :=
  if Js.truthy (conversation_id body)
  then
    Query.limit 10
      (Query.order_by older
         (Query.eq Message.conversation_id (Js.value (conversation_id body))
                   (messages db)))
  else [].

Definition match_threshold : Q := 3 # 10.
Definition match_count : nat := 5.

(** [supabase.from("logs").insert([{ value: ... }])]. *)
Definition log_attempt (db : Database) : Database :=
  with_logs (logs db ++ ["WebSocket connection attempt222"]) db.

(** The world after the log line. *)
Definition logged (w : World) : World :=
  {| db := log_attempt (db w); calls := calls w |}.

Section Handler.

Variable env : Env.

(** "If RAG is enabled and we have documents, perform vector search":
    the final values of [hasRelevantDocuments] and
    [relevantContext]. *)
Definition retrieve (k : Knowledge) (message : string)
  : M (bool * string) :=
  if ragEnabledForConversation k && (0 <? List.length (documentIds k))
  then
    if Js.truthy (OPENAI_API_KEY env)
    then
      embeddingResponse <-
        fetch env
          (EmbeddingsRequest
             ("Bearer " ++ Js.trim (Js.value (OPENAI_API_KEY env)))
             "text-embedding-3-small" message) ;;
      if ok embeddingResponse
      then
        embedding <- lift (json_embedding embeddingResponse) ;;
        db <- get_db ;;
        let chunks :=
          Search.match_document_chunks env (document_chunks db) embedding
            match_threshold match_count (documentIds k) in
        if 0 <? List.length chunks
        then ret (true,
                  nl ++ nl ++ "Relevant information from documents:" ++ nl
                  ++ Js.join (nl ++ nl) (map Search.content chunks))
        else ret (false, "")
      else ret (false, "")
    else ret (false, "")
  else ret (false, "").

(** "Call OpenAI API": the messages, the request, the answer. *)
Definition complete (k : Knowledge) (history : list Message.t)
           (message finalSystemPrompt relevantContext : string)
  : M Response :=
  if negb (Js.truthy (OPENAI_API_KEY env))
  then throw (Js.Error "OPENAI_API_KEY is not configured")
  else
    let messages :=
      ([{| role := "system"; content := finalSystemPrompt |}]
       ++ map (fun msg => {| role := Message.role msg;
                             content := Message.content msg |}) history
       ++ [{| role := "user"; content := message |}])%list in
    response <-
      fetch env
        (ChatCompletionsRequest
           ("Bearer " ++ Js.trim (Js.value (OPENAI_API_KEY env)))
           "gpt-4o-mini" messages) ;;
    if negb (ok response)
    then throw (Js.Error ("OpenAI API error: "
                          ++ Js.string_of_Z (http_status response)))
    else
      assistantMessage <- lift (json_content response) ;;
      ret {| status := 200;
             body := Answer assistantMessage
                       (ragEnabledForConversation k
                        && negb (String.eqb relevantContext "")) |}.

(** From the vector search to the answer: "Build the final system
    prompt", with its early [return] when RAG is on, documents are
    bound and nothing relevant was found. *)
Definition respond (k : Knowledge) (history : list Message.t)
           (message : string) : M Response :=
  found <- retrieve k message ;;
  let hasRelevantDocuments := fst found in
  let relevantContext := snd found in
  if ragEnabledForConversation k
  then
    if hasRelevantDocuments
    then complete k history message
           (systemPrompt k ++ relevantContext ++ answer_only_from_documents)
           relevantContext
    else if 0 <? List.length (documentIds k)
    then ret {| status := 200; body := Answer not_found true |}
    else complete k history message
           (systemPrompt k ++ no_documents_available) relevantContext
  else complete k history message
         (systemPrompt k ++ rag_disabled) relevantContext.

Definition try_block (req : Request Json) : M Response :=
  body <- lift (json req) ;;
  if negb (Js.truthy (message body))
  then throw (Js.Error "Message is required")
  else
  modify_db log_attempt ;;;
  match authorization req with
  | None =>
      (* [authHeader.replace] on [null] *)
      throw (null_dereference env)
  | Some authHeader =>
  let token := Js.replace authHeader "Bearer " "" in
  match getUser env token with
  | None => throw (Js.Error "Unauthorized")
  | Some user_id =>
  db <- get_db ;;
  let k := resolve db body user_id in
  let history := conversationHistory db body in
  respond k history (Js.value (message body))
  end end.

Definition catch_block (error : Js.Exn) : M Response :=
  ret {| status := 500; body := Failed (Js.message_of error) |}.

Definition serve (req : Request Json) : M Response :=
  if String.eqb (method req) "OPTIONS"
  then ret {| status := 200; body := NoBody |}
  else try_catch (try_block req) catch_block.

End Handler.

End RagChat.

(* ================================================================== *)
(** * chat-search: vector search over a user's documents *)

Module ChatSearch.

Record Json : Type := {
  user_id : option string;
  search_query : option string
}.

(** The [error] the two reads of the handler may report: the select
    on [documents] for a user id ([docsError]) and the call of
    [match_document_chunks] for a query embedding and a list of
    documents ([searchError]). *)
Record Faults : Type := {
  docsError : string -> bool;
  searchError : option vector -> list string -> bool
}.

Section Handler.

Variable env : Env.
Variable faults : Faults.

Definition try_block (req : Request Json) : M Response :=
  body <- lift (json req) ;;
  if negb (Js.truthy (user_id body))
     || negb (Js.truthy (search_query body))
  then throw (Js.Error "user_id and search_query are required")
  else
  db <- get_db ;;
  if docsError faults (Js.value (user_id body))
  then throw (Js.Error "Failed to fetch user documents")
  else
  let documents :=
    Query.eq (fun d => Js.value (Document.status d)) "completed"
      (Query.eq Document.user_id (Js.value (user_id body))
                (documents db)) in
  if List.length documents =? 0
  then ret {| status := 200; body := Results [] |}
  else
  let documentIds := map Document.id documents in
  if negb (Js.truthy (OPENAI_API_KEY env))
  then throw (Js.Error "OPENAI_API_KEY is not configured")
  else
  embeddingResponse <-
    fetch env
      (EmbeddingsRequest ("Bearer " ++ Js.value (OPENAI_API_KEY env))
                         "text-embedding-3-small"
                         (Js.value (search_query body))) ;;
  if negb (ok embeddingResponse)
  then throw (Js.Error ("Failed to generate embedding: "
                        ++ Js.string_of_Z (http_status embeddingResponse)))
  else
  embedding <- lift (json_embedding embeddingResponse) ;;
  if searchError faults embedding documentIds
  then throw (Js.Error "Vector search failed")
  else
  let chunks :=
    Search.match_document_chunks env (document_chunks db) embedding
      (3 # 10) 5 documentIds in
  ret {| status := 200;
         body := Results (map (fun chunk => (Search.content chunk,
                                             Search.similarity chunk))
                              chunks) |}.

Definition catch_block (error : Js.Exn) : M Response :=
  ret {| status := 500;
         body := FailedResults (Js.message_of error) [] |}.

Definition serve (req : Request Json) : M Response :=
  if String.eqb (method req) "OPTIONS"
  then ret {| status := 200; body := NoBody |}
  else try_catch (try_block req) catch_block.

End Handler.

End ChatSearch.

(* ================================================================== *)
(** * gemini-realtime: the "Fetch RAG context" block of the voice session *)

Module GeminiRealtime.

Record Json : Type := {
  conversation_id : option string;
  rag_enabled : option bool
}.

Definition non_empty (ids : option (list string)) : bool :=
  match ids with
  | Some l => 0 <? List.length l
  | None => false
  end.

(** "Fetch agent context if exists": [documentIds] after the block. *)
Definition add_agent_documents (db : Database)
           (conversation : option Conversation.t)
           (documentIds : list string) : list string :=
  match conversation with
  | Some conversation =>
      if Js.truthy (Conversation.agent_id conversation)
      then
        match Query.single
                (Query.eq Agent.id
                          (Js.value (Conversation.agent_id conversation))
                          (agents db)) with
        | Some agent =>
            if non_empty (Agent.document_ids agent)
            then documentIds ++ RagChat.or_empty (Agent.document_ids agent)
            else documentIds
        | None => documentIds
        end
      else documentIds
  | None => documentIds
  end%list.

(** "Fetch context documents if exists". *)
Definition add_context_documents (db : Database)
           (conversation : option Conversation.t)
           (documentIds : list string) : list string :=
  match conversation with
  | Some conversation =>
      if Js.truthy (Conversation.context_id conversation)
      then
        match Query.single
                (Query.eq Context.id
                          (Js.value (Conversation.context_id conversation))
                          (contexts db)) with
        | Some context =>
            if non_empty (Context.document_ids context)
            then documentIds
                 ++ RagChat.or_empty (Context.document_ids context)
            else documentIds
        | None => documentIds
        end
      else documentIds
  | None => documentIds
  end%list.

(** [.order("created_at", { ascending: false })]. *)
Definition newer (d1 d2 : Document.t) : bool :=
  (Document.created_at d2 <=? Document.created_at d1)%Z.

(** "If no specific documents, get user's completed documents". *)
Definition with_user_documents (db : Database) (userId : string)
           (documentIds : list string) : list string :=
  if List.length documentIds =? 0
  then
    let userDocs :=
      Query.limit 5
        (Query.order_by newer
           (Query.eq (fun d => Js.value (Document.status d)) "completed"
              (Query.eq Document.user_id userId (documents db)))) in
    if 0 <? List.length userDocs then map Document.id userDocs
    else documentIds
  else documentIds.

(** [documentIds] when the chunks are fetched. *)
Definition resolve (db : Database) (body : Json) (userId : string)
  : list string :=
  let documentIds :=
    if Js.truthy (conversation_id body)
    then
      let conversation :=
        Query.single
          (Query.eq Conversation.id (Js.value (conversation_id body))
                    (conversations db)) in
      add_context_documents db conversation
        (add_agent_documents db conversation [])
    else [] in
  with_user_documents db userId documentIds.

(** "Fetch document chunks from the selected documents". *)
Definition fetch_chunks (db : Database) (documentIds : list string)
  : list Chunk.t :=
  Query.limit 100
    (filter (fun c => Query.is_in (Chunk.document_id c) documentIds)
            (document_chunks db)).

(** Whether the block runs: [rag_enabled && userId]. *)
Definition rag_active (body : Json) (userId : option string) : bool :=
  match rag_enabled body with Some true => Js.truthy userId | _ => false end.

(** The chunks that go into the system instruction. *)
Definition rag_chunks (db : Database) (body : Json) (userId : option string)
  : list Chunk.t :=
  if rag_active body userId
  then
    let documentIds := resolve db body (Js.value userId) in
    if 0 <? List.length documentIds then fetch_chunks db documentIds
    else []
  else [].

End GeminiRealtime.

(* ================================================================== *)
(** * The embedding loop as a result accumulator *)

(** A pure account of [ProcessDocument.embed_chunks], used to say what
    the loop leaves behind: what the embedding service does with each
    chunk, and the rows that are stored. *)
Module Accumulator.

Inductive Step : Type :=
| Skipped                                (* the response is not [ok] *)
| Embedded (embedding : option vector)   (* the response is [ok] and read *)
| Aborted.                               (* [fetch] or the body throws *)

Section Plan.

Variable env : Env.
Variables document_id authorization : string.

Definition request (chunk : string) : HttpRequest :=
  EmbeddingsRequest authorization "text-embedding-3-small" chunk.

(** The step for [chunk] when it is the request number [callno]. *)
Definition step (callno : nat) (chunk : string) : Step :=
  match http env callno (request chunk) with
  | Rejected _ => Aborted
  | Resolved r =>
      if ok r
      then match json_embedding r with
           | Returned e => Embedded e
           | _ => Aborted
           end
      else Skipped
  end.

(** No chunk of the run makes the loop throw. *)
Fixpoint clean (callno : nat) (chunks : list string) : bool :=
  match chunks with
  | [] => true
  | chunk :: rest =>
      match step callno chunk with
      | Aborted => false
      | _ => clean (S callno) rest
      end
  end.

(** [processedChunks] when the loop ends or throws, from request number
    [callno] and the counter [processedChunks]: one more for every
    chunk embedded, whether the table took its row or not. *)
Fixpoint processed (callno processedChunks : nat) (chunks : list string)
  : nat :=
  match chunks with
  | [] => processedChunks
  | chunk :: rest =>
      match step callno chunk with
      | Embedded _ => processed (S callno) (S processedChunks) rest
      | Skipped => processed (S callno) processedChunks rest
      | Aborted => processedChunks
      end
  end.

(** The rows a run stores, from request number [callno], a table of
    [table_rows] rows and the counter [processedChunks]. *)
Fixpoint rows (callno table_rows processedChunks : nat)
         (chunks : list string) : list Chunk.t :=
  match chunks with
  | [] => []
  | chunk :: rest =>
      match step callno chunk with
      | Embedded e =>
          let row := ProcessDocument.new_chunk env table_rows document_id
                                               chunk e processedChunks in
          if insert_error env row
          then rows (S callno) table_rows (S processedChunks) rest
          else row :: rows (S callno) (S table_rows) (S processedChunks) rest
      | Skipped => rows (S callno) table_rows processedChunks rest
      | Aborted => []
      end
  end.

(** The table takes the row of every chunk of the run that is
    embedded. *)
Fixpoint accepted (callno table_rows processedChunks : nat)
         (chunks : list string) : bool :=
  match chunks with
  | [] => true
  | chunk :: rest =>
      match step callno chunk with
      | Embedded e =>
          negb (insert_error env
                  (ProcessDocument.new_chunk env table_rows document_id
                                             chunk e processedChunks))
          && accepted (S callno) (S table_rows) (S processedChunks) rest
      | Skipped => accepted (S callno) table_rows processedChunks rest
      | Aborted => true
      end
  end.

End Plan.

End Accumulator.

(* ================================================================== *)
(** * A small deployment, for running the handlers *)

Module Example.

Fixpoint repeat_char (c : ascii) (n : nat) : string :=
  match n with
  | O => EmptyString
  | S n' => String c (repeat_char c n')
  end.

(** 1001 code units: two chunks. *)
Definition notes : string :=
  repeat_char (ascii_of_nat 97) 1000 ++ "b".

Definition document (mime : string) : Document.t :=
  {| Document.id := "doc-1";
     Document.user_id := "user-1";
     Document.file_path := "user-1/notes.txt";
     Document.mime_type := Some mime;
     Document.status := Some "processing";
     Document.processing_progress := Some 0%Z;
     Document.error_message := None;
     Document.created_at := 1%Z |}.

Definition file (text : string) : Blob :=
  {| blob_text := text; blob_bytes := [] |}.

Definition embedded (v : vector) : FetchResult :=
  Resolved {| ok := true; http_status := 200;
              json_embedding := Returned (Some v);
              json_content := Thrown Js.NonError |}.

Definition completed (content : string) : FetchResult :=
  Resolved {| ok := true; http_status := 200;
              json_embedding := Thrown Js.NonError;
              json_content := Returned content |}.

Definition unavailable : FetchResult :=
  Resolved {| ok := false; http_status := 503;
              json_embedding := Thrown Js.NonError;
              json_content := Thrown Js.NonError |}.

(** An embedding service that fails on its request number [bad] only;
    a chat model that answers "ok". *)
Definition failing_at (bad : nat) (callno : nat) (request : HttpRequest)
  : FetchResult :=
  match request with
  | EmbeddingsRequest _ _ _ =>
      if callno =? bad then unavailable else embedded [1%Q; 0%Q]
  | ChatCompletionsRequest _ _ _ => completed "ok"
  end.

(** An embedding service that is down; a chat model that answers. *)
Definition embeddings_down (callno : nat) (request : HttpRequest)
  : FetchResult :=
  match request with
  | EmbeddingsRequest _ _ _ => unavailable
  | ChatCompletionsRequest _ _ _ => completed "ok"
  end.

Definition dot (u v : vector) : Q :=
  fold_right Qplus 0%Q (map (fun p => (fst p * snd p)%Q) (combine u v)).

Definition is_zero (v : vector) : bool := forallb (Qeq_bool 0) v.

Definition env (key : option string) (text : string)
           (answers : nat -> HttpRequest -> FetchResult) : Env :=
  {| OPENAI_API_KEY := key;
     getUser := fun token =>
       if String.eqb token "token-1" then Some "user-1" else None;
     download := fun _ =>
       {| download_data := Some (file text); download_error := None |};
     mammoth_extractRawText := fun _ => Returned "";
     unpdf_extractText := fun _ => Returned (Whole "");
     http := answers;
     gen_random_uuid := fun n => "chunk-" ++ Js.string_of_Z (Z.of_nat n);
     (* the cosine distance of vectors of length one; NaN when a
        vector is zero *)
     cosine_distance := fun u v =>
       if is_zero u || is_zero v then Float8.NaN
       else Float8.Num (1 - dot u v);
     (* an embedding column of type vector(2) *)
     insert_error := fun row =>
       match Chunk.embedding row with
       | Some v => negb (List.length v =? 2)
       | None => false
       end;
     (* the rounding in exact arithmetic *)
     round_percent := fun p n =>
       ((200 * Z.of_nat p + Z.of_nat n) / (2 * Z.of_nat n))%Z;
     null_dereference := Js.Error "Cannot read properties of null" |}.

Definition database (mime : string) : Database :=
  {| logs := []; conversations := []; agents := []; contexts := [];
     documents := [document mime]; document_chunks := []; messages := [] |}.

Definition world (mime : string) : World :=
  {| db := database mime; calls := [] |}.

Definition ingest : Request ProcessDocument.Json :=
  {| method := "POST"; authorization := None;
     json := Returned {| ProcessDocument.document_id := Some "doc-1" |} |}.

(** ** A conversation bound to an agent and to a context *)

Definition agent : Agent.t :=
  {| Agent.id := "agent-1";
     Agent.system_prompt := "You are a tax assistant.";
     Agent.rag_enabled := true;
     Agent.document_ids := Some ["doc-a"] |}.

Definition context : Context.t :=
  {| Context.id := "ctx-1";
     Context.system_prompt := None;
     Context.document_ids := Some ["doc-c"] |}.

Definition conversation : Conversation.t :=
  {| Conversation.id := "conv-1";
     Conversation.agent_id := Some "agent-1";
     Conversation.context_id := Some "ctx-1";
     Conversation.rag_enabled := true |}.

Definition completed_document (id : string) (created_at : Z) : Document.t :=
  {| Document.id := id;
     Document.user_id := "user-1";
     Document.file_path := "user-1/" ++ id;
     Document.mime_type := Some "text/plain";
     Document.status := Some "completed";
     Document.processing_progress := Some 100%Z;
     Document.error_message := None;
     Document.created_at := created_at |}.

Definition chunk (id document_id content : string) (v : vector) : Chunk.t :=
  {| Chunk.id := id;
     Chunk.document_id := document_id;
     Chunk.content := content;
     Chunk.embedding := Some v;
     Chunk.metadata := Some {| Chunk.chunk_index := 0 |} |}.

Definition said (role content : string) (created_at : Z) : Message.t :=
  {| Message.conversation_id := "conv-1";
     Message.role := role;
     Message.content := content;
     Message.created_at := created_at |}.

(** Eleven messages, the oldest first. *)
Definition eleven_messages : list Message.t :=
  [said "user" "m1" 1; said "assistant" "m2" 2; said "user" "m3" 3;
   said "assistant" "m4" 4; said "user" "m5" 5; said "assistant" "m6" 6;
   said "user" "m7" 7; said "assistant" "m8" 8; said "user" "m9" 9;
   said "assistant" "m10" 10; said "user" "m11" 11].

Definition bound_database : Database :=
  {| logs := [];
     conversations := [conversation];
     agents := [agent];
     contexts := [context];
     documents := [completed_document "doc-a" 1;
                   completed_document "doc-c" 2];
     document_chunks := [chunk "chunk-a" "doc-a" "Alpha" [1%Q; 0%Q];
                         chunk "chunk-c" "doc-c" "Gamma" [0%Q; 1%Q]];
     messages := eleven_messages |}.

Definition bound_world : World :=
  {| db := bound_database; calls := [] |}.

(** An embedding service that answers every text with [v]; a chat
    model that answers "ok". *)
Definition embedding_is (v : vector) (callno : nat) (request : HttpRequest)
  : FetchResult :=
  match request with
  | EmbeddingsRequest _ _ _ => embedded v
  | ChatCompletionsRequest _ _ _ => completed "ok"
  end.

Definition ask : Request RagChat.Json :=
  {| method := "POST"; authorization := Some "Bearer token-1";
     json := Returned {| RagChat.message := Some "What is alpha?";
                         RagChat.conversation_id := Some "conv-1";
                         RagChat.rag_enabled := None |} |}.

End Example.

(* ================================================================== *)
(** * More of the small deployment *)

Module Scenario.

(** An embedding service whose second request is rejected. *)
Definition rejecting_second (callno : nat) (request : HttpRequest)
  : FetchResult :=
  match request with
  | EmbeddingsRequest _ _ _ =>
      if callno =? 1 then Rejected (Js.Error "connection reset")
      else Example.embedded [1%Q; 0%Q]
  | ChatCompletionsRequest _ _ _ => Example.completed "ok"
  end.

(** [env] with another storage. *)
Definition with_download (env : Env) (file : Download) : Env :=
  {| OPENAI_API_KEY := OPENAI_API_KEY env;
     getUser := getUser env;
     download := fun _ => file;
     mammoth_extractRawText := mammoth_extractRawText env;
     unpdf_extractText := unpdf_extractText env;
     http := http env;
     gen_random_uuid := gen_random_uuid env;
     cosine_distance := cosine_distance env;
     insert_error := insert_error env;
     round_percent := round_percent env;
     null_dereference := null_dereference env |}.

(** A question to rag-chat from the signed-in user. *)
Definition question (conversation_id : option string)
           (rag_enabled : option bool) : Request RagChat.Json :=
  {| method := "POST"; authorization := Some "Bearer token-1";
     json := Returned {| RagChat.message := Some "What is alpha?";
                         RagChat.conversation_id := conversation_id;
                         RagChat.rag_enabled := rag_enabled |} |}.

(** An embedding service that answers; a chat model that is down. *)
Definition chat_down (callno : nat) (request : HttpRequest) : FetchResult :=
  match request with
  | EmbeddingsRequest _ _ _ => Example.embedded [1%Q; 0%Q]
  | ChatCompletionsRequest _ _ _ => Example.unavailable
  end.

(** A search of chat-search on behalf of [user_id]. *)
Definition search (user_id : string) : Request ChatSearch.Json :=
  {| method := "POST"; authorization := None;
     json := Returned {| ChatSearch.user_id := Some user_id;
                         ChatSearch.search_query := Some "alpha" |} |}.

(** 1000 times "a", 1000 times "b", then "c": three chunks. *)
Definition report : string :=
  Example.repeat_char (ascii_of_nat 97) 1000
  ++ Example.repeat_char (ascii_of_nat 98) 1000 ++ "c".

(** An answer [ok] whose body is not JSON. *)
Definition unreadable : FetchResult :=
  Resolved {| ok := true; http_status := 200;
              json_embedding :=
                Thrown (Js.Error "Unexpected end of JSON input");
              json_content :=
                Thrown (Js.Error "Unexpected end of JSON input") |}.

(** An embedding service that answers its requests in turn with
    [answers], and every later one with an embedding; a chat model that
    answers "ok". *)
Definition answering (answers : list FetchResult) (callno : nat)
           (request : HttpRequest) : FetchResult :=
  match request with
  | EmbeddingsRequest _ _ _ =>
      nth callno answers (Example.embedded [1%Q; 0%Q])
  | ChatCompletionsRequest _ _ _ => Example.completed "ok"
  end.

(** Reads that report no error. *)
Definition no_faults : ChatSearch.Faults :=
  {| ChatSearch.docsError := fun _ => false;
     ChatSearch.searchError := fun _ _ => false |}.

(** The bound database with one more chunk of [doc-a], stored with
    the zero vector. *)
Definition zero_database : Database :=
  with_document_chunks
    (document_chunks Example.bound_database
     ++ [Example.chunk "chunk-z" "doc-a" "Null" [0%Q; 0%Q]])
    Example.bound_database.

(** A voice session that asks for RAG on the bound conversation. *)
Definition voice_with_rag : GeminiRealtime.Json :=
  {| GeminiRealtime.conversation_id := Some "conv-1";
     GeminiRealtime.rag_enabled := Some true |}.

(** Seven completed documents of the user, stored in no order of
    age. *)
Definition library : Database :=
  {| logs := []; conversations := []; agents := []; contexts := [];
     documents := [Example.completed_document "doc-3" 3;
                   Example.completed_document "doc-7" 7;
                   Example.completed_document "doc-1" 1;
                   Example.completed_document "doc-5" 5;
                   Example.completed_document "doc-2" 2;
                   Example.completed_document "doc-6" 6;
                   Example.completed_document "doc-4" 4];
     document_chunks := []; messages := [] |}.

End Scenario.

(* ================================================================== *)
(** * Services that answer *)

Module Service.

(** No parser and no response body keeps a handler waiting for ever. *)
Definition settles (env : Env) : Prop :=
  (forall bytes, mammoth_extractRawText env bytes <> Diverged)
  /\ (forall bytes, unpdf_extractText env bytes <> Diverged)
  /\ (forall callno request response,
         http env callno request = Resolved response ->
         json_embedding response <> Diverged
         /\ json_content response <> Diverged).

End Service.

(* ================================================================== *)
(** * The requests a query may send *)

Module Traffic.

(** At most one embedding request, then at most one chat request. *)
Definition embedding_then_chat (sent : list HttpRequest) : Prop :=
  match sent with
  | [] => True
  | [EmbeddingsRequest _ _ _] => True
  | [ChatCompletionsRequest _ _ _] => True
  | [EmbeddingsRequest _ _ _; ChatCompletionsRequest _ _ _] => True
  | _ => False
  end.

(** The tables a query reads. *)
Definition same_tables_but_logs (db db' : Database) : Prop :=
  conversations db' = conversations db
  /\ agents db' = agents db
  /\ contexts db' = contexts db
  /\ documents db' = documents db
  /\ document_chunks db' = document_chunks db
  /\ messages db' = messages db.

(** The request that embeds a query of rag-chat. *)
Definition embedding_request (env : Env) (message : string) : HttpRequest :=
  EmbeddingsRequest ("Bearer " ++ Js.trim (Js.value (OPENAI_API_KEY env)))
                    "text-embedding-3-small" message.

(** The request rag-chat sends to the chat model: the system prompt,
    the history, the user's message. *)
Definition chat_request (env : Env) (history : list Message.t)
           (message finalSystemPrompt : string) : HttpRequest :=
  ChatCompletionsRequest
    ("Bearer " ++ Js.trim (Js.value (OPENAI_API_KEY env)))
    "gpt-4o-mini"
    ([{| role := "system"; content := finalSystemPrompt |}]
     ++ map (fun msg => {| role := Message.role msg;
                           content := Message.content msg |}) history
     ++ [{| role := "user"; content := message |}])%list.

(** No request to the chat model. *)
Definition no_chat (sent : list HttpRequest) : Prop :=
  Forall (fun call =>
            match call with
            | ChatCompletionsRequest _ _ _ => False
            | EmbeddingsRequest _ _ _ => True
            end) sent.

End Traffic.

(* ================================================================== *)
(** * Where the documents of a query come from *)

Module Origin.

(** Document [id] is listed by the agent or by the context of the
    stored conversation [conversation_id]. *)
Definition bound (db : Database) (conversation_id : option string)
           (id : string) : Prop :=
  exists conversation : Conversation.t,
    In conversation (conversations db)
    /\ conversation_id = Some (Conversation.id conversation)
    /\ ((exists agent : Agent.t,
            In agent (agents db)
            /\ Conversation.agent_id conversation = Some (Agent.id agent)
            /\ In id (RagChat.or_empty (Agent.document_ids agent)))
        \/ (exists context : Context.t,
               In context (contexts db)
               /\ Conversation.context_id conversation
                  = Some (Context.id context)
               /\ In id (RagChat.or_empty (Context.document_ids context)))).

(** Document [id] is a completed document of [user]. *)
Definition owned (db : Database) (user : string) (id : string) : Prop :=
  exists d : Document.t,
    In d (documents db)
    /\ Document.id d = id
    /\ Document.user_id d = user
    /\ Document.status d = Some "completed".

End Origin.

(* ================================================================== *)
(** * gemini-realtime: the whole handler *)

(** The handler reads the database and the environment and sends no
    request; the Gemini credential is a parameter.  As elsewhere, the
    queries themselves do not fail. *)
Module VoiceSession.

Inductive Reply : Type :=
| Preflight
| Session (api_key system_instruction model : string)
| Refused (error : string).

Record Answer : Type := { code : Z; reply : Reply }.

Definition base_instruction : string :=
  "You are a helpful assistant and answer in a friendly tone.".

Definition model_name : string :=
  "gemini-2.5-flash-native-audio-preview-09-2025".

(** "Get user from auth header": [user?.id || null]. *)
Definition userId (env : Env) (req : Request GeminiRealtime.Json)
  : option string :=
  match authorization req with
  | Some authHeader =>
      if Js.truthy (Some authHeader)
      then
        match getUser env (Js.replace authHeader "Bearer " "") with
        | Some id => if Js.truthy (Some id) then Some id else None
        | None => None
        end
      else None
  | None => None
  end.

(** [agentSystemPrompt] after the conversation block. *)
Definition agentSystemPrompt (db : Database) (body : GeminiRealtime.Json)
  : option string :=
  if Js.truthy (GeminiRealtime.conversation_id body)
  then
    match Query.single
            (Query.eq Conversation.id
                      (Js.value (GeminiRealtime.conversation_id body))
                      (conversations db)) with
    | Some conversation =>
        if Js.truthy (Conversation.agent_id conversation)
        then
          match Query.single
                  (Query.eq Agent.id
                            (Js.value (Conversation.agent_id conversation))
                            (agents db)) with
          | Some agent =>
              if Js.truthy (Some (Agent.system_prompt agent))
              then Some (Agent.system_prompt agent)
              else None
          | None => None
          end
        else None
    | None => None
    end
  else None.

(** "Build RAG context with clear instructions for Gemini". *)
Definition ragContext (allContent : string) : string :=
  nl ++ nl ++ "=== WISSENSDATENBANK ===" ++ nl
  ++ "Du hast Zugriff auf folgende Informationen aus hochgeladenen Dokumenten. Nutze dieses Wissen, um Fragen präzise zu beantworten:"
  ++ nl ++ nl
  ++ allContent
  ++ nl ++ nl ++ "=== ENDE WISSENSDATENBANK ===" ++ nl ++ nl
  ++ "WICHTIGE ANWEISUNGEN:" ++ nl
  ++ "- Nutze die Informationen aus der Wissensdatenbank, um Fragen zu beantworten" ++ nl
  ++ "- Wenn die Antwort in der Wissensdatenbank zu finden ist, beziehe dich explizit darauf" ++ nl
  ++ "- Wenn die Information nicht in der Wissensdatenbank enthalten ist, sage das klar und deutlich" ++ nl
  ++ "- Antworte immer auf Deutsch, präzise und hilfreich" ++ nl.

Definition knowledge_base_empty : string :=
  nl ++ nl
  ++ "Hinweis: Die Wissensdatenbank ist verfügbar, aber momentan leer.".

(** [systemInstruction] when the response is built. *)
Definition systemInstruction (db : Database) (body : GeminiRealtime.Json)
           (userId : option string) : string :=
  if GeminiRealtime.rag_active body userId
  then
    let documentIds := GeminiRealtime.resolve db body (Js.value userId) in
    base_instruction
    ++ match agentSystemPrompt db body with
       | Some prompt => nl ++ nl ++ "Agent Instructions: " ++ prompt
       | None => ""
       end
    ++ (if 0 <? List.length documentIds
        then
          let chunks := GeminiRealtime.fetch_chunks db documentIds in
          if 0 <? List.length chunks
          then ragContext (Js.join (nl ++ nl) (map Chunk.content chunks))
          else knowledge_base_empty
        else "")
  else base_instruction.

Definition serve (env : Env) (GEMINI_API_KEY : option string)
           (req : Request GeminiRealtime.Json) (db : Database)
  : Outcome Answer :=
  if String.eqb (method req) "OPTIONS"
  then Returned {| code := 200; reply := Preflight |}
  else
    let user := userId env req in
    match json req with
    | Returned body =>
        let instruction := systemInstruction db body user in
        if negb (Js.truthy GEMINI_API_KEY)
        then Returned {| code := 500;
                         reply := Refused "GEMINI_API_KEY not configured" |}
        else Returned {| code := 200;
                         reply := Session (Js.value GEMINI_API_KEY)
                                          instruction model_name |}
    | Thrown error =>
        Returned {| code := 500; reply := Refused (Js.message_of error) |}
    | Diverged => Diverged
    end.

End VoiceSession.

(* ================================================================== *)
(** * What a run of process-document may change *)

(** Vocabulary for the frame properties of the ingestion handler. *)
Module Effect.

(** A change of a document row that touches nothing but
    [processing_progress]. *)
Definition progress_only (f : Document.t -> Document.t) : Prop :=
  (forall d, f d = d)
  \/ exists p : Z, forall d, f d = Document.set_progress p d.

(** A change of a document row that keeps what identifies the document
    and its file. *)
Definition keeps_identity (f : Document.t -> Document.t) : Prop :=
  forall d,
    Document.id (f d) = Document.id d
    /\ Document.user_id (f d) = Document.user_id d
    /\ Document.file_path (f d) = Document.file_path d
    /\ Document.mime_type (f d) = Document.mime_type d
    /\ Document.created_at (f d) = Document.created_at d.

(** The tables the handler does not write. *)
Definition same_other_tables (db db' : Database) : Prop :=
  logs db' = logs db
  /\ conversations db' = conversations db
  /\ agents db' = agents db
  /\ contexts db' = contexts db
  /\ messages db' = messages db.

(** Rows whose [chunk_index] values are strictly increasing, from
    [first] on and below [bound]. *)
Definition numbered (first bound : nat) (rows : list Chunk.t) : Prop :=
  exists indices : list nat,
    map Chunk.metadata rows
    = map (fun i => Some {| Chunk.chunk_index := i |}) indices
    /\ StronglySorted lt indices
    /\ Forall (fun i => first <= i < bound) indices.

(** The stored [chunk_index] values [first, first + 1, ...]. *)
Definition indexed_from (first : nat) (rows : list Chunk.t) : Prop :=
  map Chunk.metadata rows
  = map (fun i => Some {| Chunk.chunk_index := i |})
        (seq first (List.length rows)).

(** What the counter [processed] of a run on document [id] says about
    the [rows] the run stored: their [chunk_index] values are values
    the counter took, in order; and when the table refuses no row of
    the document they are [0, 1, 2, ...] and as many as the counter
    says. *)
Definition counted (env : Env) (id : string) (processed : nat)
           (rows : list Chunk.t) : Prop :=
  numbered 0 processed rows
  /\ ((forall row, Chunk.document_id row = id ->
                   insert_error env row = false) ->
      indexed_from 0 rows /\ List.length rows = processed).

(** The world [w'] a run on document [id] leaves from [w]: [rows] were
    appended to [document_chunks], the rows of [documents] with that id
    were changed by [f], an embedding request was sent for each of
    [inputs]. *)
Definition ingest (env : Env) (id : string) (w w' : World)
           (rows : list Chunk.t) (f : Document.t -> Document.t)
           (inputs : list string) : Prop :=
  document_chunks (db w') = (document_chunks (db w) ++ rows)%list
  /\ Forall (fun c => Chunk.document_id c = id) rows
  /\ documents (db w') = Query.update_document id f (documents (db w))
  /\ same_other_tables (db w) (db w')
  /\ calls w'
     = (calls w
        ++ map (Accumulator.request
                  ("Bearer " ++ Js.trim (Js.value (OPENAI_API_KEY env))))
               inputs)%list.

(** How the [try] block ends, with the counter [processed] and the
    change [f] of the document's row: it returns only after marking the
    document completed; otherwise only the progress was touched. *)
Definition try_ending (o : Outcome Response) (processed : nat)
           (f : Document.t -> Document.t) : Prop :=
  match o with
  | Returned r =>
      r = {| status := 200; body := Ingested true processed |}
      /\ forall d, f d = Document.set_completed d
  | _ => progress_only f
  end.

(** The document id a request names. *)
Definition named (req : Request ProcessDocument.Json) : option string :=
  match json req with
  | Returned body => ProcessDocument.document_id body
  | _ => None
  end.

(** How the handler ends, and with which change [f] of the rows of the
    named document. *)
Definition ending (req : Request ProcessDocument.Json)
           (o : Outcome Response) (rows : list Chunk.t) (processed : nat)
           (f : Document.t -> Document.t) : Prop :=
  match o with
  | Returned r =>
      (r = {| status := 200; body := NoBody |}
       /\ rows = [] /\ forall d, f d = d)
      \/ (r = {| status := 200; body := Ingested true processed |}
          /\ Js.truthy (named req) = true
          /\ forall d, f d = Document.set_completed d)
      \/ (exists message : string,
             r = {| status := 500; body := Failed message |}
             /\ if Js.truthy (named req)
                then exists g, progress_only g
                               /\ forall d,
                                   f d = Document.set_failed message (g d)
                else rows = [] /\ forall d, f d = d)
  | Thrown _ => False
  | Diverged => progress_only f
  end.

End Effect.

(* ================================================================== *)
(** * Facts about strings *)

Unset Implicit Arguments.

Module StringFacts.

Lemma append_nil_r (s : string) : s ++ "" = s.
Proof. induction s as [|c s IH]; simpl; [reflexivity | now rewrite IH]. Qed.

Lemma append_assoc (s1 s2 s3 : string) : (s1 ++ s2) ++ s3 = s1 ++ (s2 ++ s3).
Proof. induction s1 as [|c s1 IH]; simpl; [reflexivity | now rewrite IH]. Qed.

Lemma substring_zero_length (s : string) (n : nat) : substring n 0 s = "".
Proof.
  revert n; induction s as [|c s IH]; intros [|n]; simpl; auto.
Qed.

Lemma substring_whole (s : string) : substring 0 (String.length s) s = s.
Proof. induction s as [|c s IH]; simpl; [reflexivity | now rewrite IH]. Qed.

(** A substring never reaches past the end of the string. *)
Lemma substring_cut (s : string) (n m : nat) :
  substring n m s = substring n (Nat.min m (String.length s - n)) s.
Proof.
  revert n m; induction s as [|c s IH]; intros n m.
  - destruct n, m; reflexivity.
  - destruct n as [|n].
    + destruct m as [|m]; simpl; [reflexivity|].
      rewrite (IH 0 m). now rewrite Nat.sub_0_r.
    + simpl. apply IH.
Qed.

Lemma substring_split (s : string) (a m k : nat) :
  substring a m s ++ substring (a + m) k s = substring a (m + k) s.
Proof.
  revert a m k; induction s as [|c s IH]; intros a m k.
  - destruct a, m, k; reflexivity.
  - destruct a as [|a].
    + destruct m as [|m]; simpl.
      * reflexivity.
      * f_equal. apply (IH 0 m k).
    + simpl. apply IH.
Qed.

Lemma slice_cut (s : string) (a b : nat) :
  Js.slice s a b = Js.slice s a (Nat.min b (String.length s)).
Proof.
  unfold Js.slice.
  rewrite (substring_cut s a (b - a)).
  rewrite (substring_cut s a (Nat.min b (String.length s) - a)).
  f_equal. lia.
Qed.

Lemma prefix_then_slice (s : string) (a b : nat) :
  a <= b -> substring 0 a s ++ Js.slice s a b = substring 0 b s.
Proof.
  intros Hab. unfold Js.slice.
  pose proof (substring_split s 0 a (b - a)) as H. simpl in H.
  rewrite H. f_equal. lia.
Qed.

Lemma concat_all_snoc (l : list string) (x : string) :
  Js.concat_all (l ++ [x]) = Js.concat_all l ++ x.
Proof.
  induction l as [|y l IH]; simpl.
  - apply append_nil_r.
  - rewrite IH. symmetry. apply append_assoc.
Qed.

End StringFacts.

(* ================================================================== *)
(** * The chunker is fixed-size windowing *)

Module ChunkerFacts.

Import StringFacts.

Section Windows.

Variable size : nat.
Hypothesis size_positive : 0 < size.
Variable text : string.

Let L := String.length text.
Let n := Chunker.ceil_div L size.

Lemma below_count (k : nat) : k * size < L <-> k < n.
Proof.
  unfold n, Chunker.ceil_div. split; intros H.
  - apply Nat.lt_le_trans with (m := S k); [lia|].
    apply Nat.div_le_lower_bound; lia.
  - destruct (Nat.lt_ge_cases (k * size) L) as [Hlt|Hge]; [exact Hlt|].
    exfalso.
    assert ((L + size - 1) / size < S k); [|lia].
    apply Nat.Div0.div_lt_upper_bound; lia.
Qed.

(** [n] is the ceiling of [L / size]: the least number of windows of
    [size] code units that cover [L] code units. *)
Lemma ceil_div_least (q : nat) : L <= q * size <-> n <= q.
Proof. pose proof (below_count q). lia. Qed.

(** The loop started at the [k]-th window appends the windows
    [k .. n-1] and stops. *)
Lemma chunk_loop_windows (fuel k : nat) (acc : list string) :
  n - k < fuel -> k <= n ->
  Chunker.chunk_loop size fuel text (k * size) acc
  = Some (acc ++ map (Chunker.window size text) (seq k (n - k)))%list.
Proof.
  revert k acc; induction fuel as [|fuel IH]; intros k acc Hfuel Hk.
  - lia.
  - simpl. fold L.
    destruct (k * size <? L) eqn:Hlt.
    + apply Nat.ltb_lt, below_count in Hlt.
      replace (k * size + size) with (S k * size) by lia.
      rewrite IH by lia.
      replace (n - k) with (S (n - S k)) by lia.
      simpl. rewrite <- app_assoc. simpl.
      do 3 f_equal.
      unfold Chunker.window.
      rewrite slice_cut. fold L. do 2 f_equal. lia.
    + apply Nat.ltb_ge in Hlt.
      assert (~ k < n) by (rewrite <- below_count; lia).
      replace (n - k) with 0 by lia. simpl.
      now rewrite app_nil_r.
Qed.

Lemma split_with_windows :
  Chunker.split_with size text
  = Some (map (Chunker.window size text) (seq 0 n)).
Proof.
  unfold Chunker.split_with.
  change 0 with (0 * size) at 1.
  rewrite chunk_loop_windows.
  - now rewrite Nat.sub_0_r.
  - assert (n <= L); [|fold L; lia].
    destruct (Nat.eq_dec n 0) as [->|Hn]; [lia|].
    assert (Hp : n - 1 < n) by lia.
    apply below_count in Hp. nia.
  - lia.
Qed.

Lemma windows_prefix (k : nat) :
  Js.concat_all (map (Chunker.window size text) (seq 0 k))
  = substring 0 (Nat.min (k * size) L) text.
Proof.
  induction k as [|k IH].
  - simpl. now rewrite substring_zero_length.
  - rewrite seq_S, map_app. simpl map.
    rewrite concat_all_snoc, IH.
    unfold Chunker.window. fold L.
    replace ((k + 1) * size) with (S k * size) by lia.
    destruct (Nat.le_gt_cases (k * size) L) as [Hle|Hgt].
    + rewrite (Nat.min_l (k * size) L) by exact Hle.
      apply prefix_then_slice. lia.
    + rewrite (Nat.min_r (k * size) L) by lia.
      rewrite (Nat.min_r (S k * size) L) by lia.
      unfold Js.slice.
      replace (L - k * size) with 0 by lia.
      rewrite substring_zero_length. apply append_nil_r.
Qed.

Lemma windows_cover :
  Js.concat_all (map (Chunker.window size text) (seq 0 n)) = text.
Proof.
  rewrite windows_prefix.
  assert (L <= n * size).
  { destruct (Nat.le_gt_cases L (n * size)) as [H|H]; [exact H|].
    apply below_count in H. lia. }
  rewrite Nat.min_r by assumption.
  apply substring_whole.
Qed.

End Windows.

Lemma chunkSize_positive : 0 < Chunker.chunkSize.
Proof. unfold Chunker.chunkSize. lia. Qed.

(** The chunker returns: the iteration bound is never reached. *)
Lemma split_total (text : string) : Chunker.split text <> None.
Proof.
  unfold Chunker.split.
  rewrite (split_with_windows _ chunkSize_positive text). discriminate.
Qed.

Lemma split_some (text : string) :
  exists chunks, Chunker.split text = Some chunks.
Proof.
  eexists. apply (split_with_windows _ chunkSize_positive text).
Qed.

(** The [i]-th chunk, read off the list. *)
Lemma split_nth (text : string) (chunks : list string) (i : nat) :
  Chunker.split text = Some chunks ->
  i < List.length chunks ->
  nth i chunks "" = Chunker.window Chunker.chunkSize text i.
Proof.
  unfold Chunker.split.
  rewrite (split_with_windows _ chunkSize_positive text).
  intros [= <-]. rewrite length_map, length_seq. intros Hi.
  rewrite nth_indep with (d' := Chunker.window Chunker.chunkSize text 0)
    by (rewrite length_map, length_seq; exact Hi).
  rewrite map_nth. now rewrite seq_nth.
Qed.

(** C2.  For every text of length [L], the chunker (chunk size
    [C = 1000]) returns [ceil(L/C)] chunks, the [i]-th of which is
    [text[i*C : min((i+1)*C, L)]]; the chunks concatenated in order are
    the text; and the empty text yields no chunk. *)
Theorem split_is_windowing (text : string) :
  let L := String.length text in
  let C := Chunker.chunkSize in
  exists chunks : list string,
    Chunker.split text = Some chunks
    /\ List.length chunks = Chunker.ceil_div L C
    /\ chunks
       = map (fun i => Js.slice text (i * C) (Nat.min ((i + 1) * C) L))
             (seq 0 (Chunker.ceil_div L C))
    /\ Js.concat_all chunks = text
    /\ Chunker.split "" = Some [].
Proof.
  intros L C.
  exists (map (Chunker.window C text) (seq 0 (Chunker.ceil_div L C))).
  split; [apply (split_with_windows _ chunkSize_positive text)|].
  split; [now rewrite length_map, length_seq|].
  split; [reflexivity|].
  split; [apply (windows_cover _ chunkSize_positive text)|].
  reflexivity.
Qed.

End ChunkerFacts.

(* ================================================================== *)
(** * Queries keep to the rows they are given *)

Module QueryFacts.

Lemma is_in_spec (value : string) (values : list string) :
  Query.is_in value values = true <-> In value values.
Proof.
  unfold Query.is_in. rewrite existsb_exists. split.
  - intros (x & Hx & Heq). apply String.eqb_eq in Heq. now subst.
  - intros H. exists value. split; [exact H | apply String.eqb_refl].
Qed.

Section Rows.

Variable A : Type.
Variable P : A -> Prop.

Lemma Forall_limit (n : nat) (rows : list A) :
  Forall P rows -> Forall P (Query.limit n rows).
Proof.
  unfold Query.limit. intros H; revert n.
  induction H as [|x l Hx Hl IH]; intros [|n]; simpl; auto.
Qed.

Lemma Forall_insert_by (leb : A -> A -> bool) (x : A) (rows : list A) :
  P x -> Forall P rows -> Forall P (Query.insert_by leb x rows).
Proof.
  intros Hx H. induction H as [|y l Hy Hl IH]; simpl.
  - auto.
  - destruct (leb x y); auto.
Qed.

Lemma Forall_order_by (leb : A -> A -> bool) (rows : list A) :
  Forall P rows -> Forall P (Query.order_by leb rows).
Proof.
  unfold Query.order_by.
  induction 1 as [|x l Hx Hl IH]; simpl; [constructor|].
  now apply Forall_insert_by.
Qed.

Lemma Forall_filter (keep : A -> bool) (rows : list A) :
  (forall row, In row rows -> keep row = true -> P row) ->
  Forall P (filter keep rows).
Proof.
  intros H. apply Forall_forall. intros row Hrow.
  apply filter_In in Hrow. destruct Hrow. auto.
Qed.

End Rows.

Lemma length_insert_by (A : Type) (leb : A -> A -> bool) (x : A)
      (rows : list A) :
  List.length (Query.insert_by leb x rows) = S (List.length rows).
Proof.
  induction rows as [|y l IH]; simpl; [reflexivity|].
  destruct (leb x y); simpl; [reflexivity | now rewrite IH].
Qed.

Lemma length_order_by (A : Type) (leb : A -> A -> bool) (rows : list A) :
  List.length (Query.order_by leb rows) = List.length rows.
Proof.
  unfold Query.order_by. induction rows as [|x l IH]; simpl; [reflexivity|].
  now rewrite length_insert_by, IH.
Qed.

End QueryFacts.

(* ================================================================== *)
(** * The similarity search stays inside the allowed documents *)

Module SearchFacts.

Import QueryFacts.

Lemma selected_allowed (env : Env) (query : option vector) (threshold : Q)
      (ids : list string) (c : Chunk.t) :
  Search.selected env query threshold ids c = true ->
  In (Chunk.document_id c) ids.
Proof.
  unfold Search.selected. intros H.
  apply andb_true_iff in H. destruct H as [H _].
  now apply is_in_spec.
Qed.

(** C1.  Whatever the query, the threshold and the cap, every row the
    similarity search [match_document_chunks] returns is the projection
    of a stored chunk whose [document_id] is one of
    [filter_document_ids]; and every chunk the voice session reads with
    [.in("document_id", documentIds)] belongs to one of [documentIds].
    A chunk of a document outside the set is never returned. *)
Theorem search_within_allowed_documents
        (env : Env) (db : Database) (query_embedding : option vector)
        (match_threshold : Q) (match_count : nat)
        (filter_document_ids : list string) :
  Forall (fun m : Search.Match =>
            In (Search.document_id m) filter_document_ids
            /\ exists c : Chunk.t,
                 In c (document_chunks db)
                 /\ Chunk.document_id c = Search.document_id m
                 /\ Chunk.content c = Search.content m)
         (Search.match_document_chunks env (document_chunks db)
            query_embedding match_threshold match_count
            filter_document_ids)
  /\ Forall (fun c : Chunk.t =>
               In (Chunk.document_id c) filter_document_ids
               /\ In c (document_chunks db))
            (GeminiRealtime.fetch_chunks db filter_document_ids).
Proof.
  split.
  - unfold Search.match_document_chunks.
    apply Forall_map.
    apply Forall_limit, Forall_order_by, Forall_filter.
    intros c Hc Hsel. simpl. split.
    + now apply selected_allowed in Hsel.
    + exists c. auto.
  - unfold GeminiRealtime.fetch_chunks.
    apply Forall_limit, Forall_filter.
    intros c Hc Hsel. split; [now apply is_in_spec | exact Hc].
Qed.

End SearchFacts.

(* ================================================================== *)
(** * The ingestion pipeline *)

Module ProcessDocumentFacts.

Import QueryFacts ChunkerFacts.

(** ** Updates of the documents table *)

Lemma update_document_twice (id : string) (f g : Document.t -> Document.t)
      (rows : list Document.t) :
  (forall d, Document.id (g d) = Document.id d) ->
  Query.update_document id f (Query.update_document id g rows)
  = Query.update_document id (fun d => f (g d)) rows.
Proof.
  intros Hg. unfold Query.update_document. rewrite map_map.
  apply map_ext. intros d.
  destruct (Document.id d =? id)%string eqn:E.
  - now rewrite Hg, E.
  - now rewrite E.
Qed.

Lemma completed_after_progress (id : string) (p : Z)
      (rows : list Document.t) :
  Query.update_document id Document.set_completed
    (Query.update_document id (Document.set_progress p) rows)
  = Query.update_document id Document.set_completed rows.
Proof.
  rewrite update_document_twice by reflexivity. reflexivity.
Qed.

Lemma eq_update_document (id : string) (f : Document.t -> Document.t)
      (rows : list Document.t) :
  (forall d, Document.id (f d) = Document.id d) ->
  Query.eq Document.id id (Query.update_document id f rows)
  = map f (Query.eq Document.id id rows).
Proof.
  intros Hf. unfold Query.eq, Query.update_document.
  induction rows as [|d rows IH]; simpl; [reflexivity|].
  destruct (Document.id d =? id)%string eqn:E; simpl.
  - now rewrite Hf, E, IH.
  - now rewrite E, IH.
Qed.

(** The selected document after an update of that document. *)
Lemma document_after_update (db : Database) (id : string)
      (f : Document.t -> Document.t) (document : Document.t)
      (rows : list Document.t) :
  (forall d, Document.id (f d) = Document.id d) ->
  Query.single (Query.eq Document.id id rows) = Some document ->
  Query.single (Query.eq Document.id id (Query.update_document id f rows))
  = Some (f document).
Proof.
  intros Hf Hdoc. rewrite eq_update_document by exact Hf.
  destruct (Query.eq Document.id id rows) as [|d [|d' l]];
    simpl in *; try discriminate.
  now injection Hdoc as ->.
Qed.

(** ** The embedding loop *)

Section Loop.

Variable env : Env.
Variables id authorization : string.
Variable total : nat.

Lemma embed_chunks_clean (chunks : list string) :
  forall (w : World) (p callno table_rows : nat),
    callno = List.length (calls w) ->
    table_rows = List.length (document_chunks (db w)) ->
    Accumulator.clean env authorization callno chunks = true ->
    let rows := Accumulator.rows env id authorization callno table_rows
                                 p chunks in
    exists w' : World,
      ProcessDocument.embed_chunks env id authorization total chunks p w
      = (Returned (Accumulator.processed env authorization callno p chunks),
         w')
      /\ calls w'
         = (calls w ++ map (Accumulator.request authorization) chunks)%list
      /\ document_chunks (db w') = (document_chunks (db w) ++ rows)%list
      /\ Query.update_document id Document.set_completed
           (documents (db w'))
         = Query.update_document id Document.set_completed
             (documents (db w)).
Proof.
  induction chunks as [|chunk rest IH];
    intros w p callno table_rows Hc Hr Hclean rows.
  - exists w. subst rows. simpl. rewrite !app_nil_r. auto.
  - subst rows. simpl in Hclean |- *.
    unfold bind at 1. unfold fetch at 1.
    unfold Accumulator.step in *.
    fold (Accumulator.request authorization chunk).
    rewrite <- Hc.
    destruct (http env callno (Accumulator.request authorization chunk))
      as [e|r]; [discriminate|].
    destruct (ok r) eqn:Hok; simpl.
    + destruct (json_embedding r) as [e| |] eqn:Hjson; try discriminate.
      unfold bind at 1. unfold lift at 1.
      unfold bind at 1. unfold ProcessDocument.insert_chunk, modify_db at 1.
      unfold bind at 1.
      unfold ProcessDocument.update_document at 1. unfold modify_db at 1.
      cbn [db calls]. cbv zeta. rewrite <- Hr.
      destruct (insert_error env
                  (ProcessDocument.new_chunk env table_rows id chunk e p))
        eqn:Hrefused.
      * match goal with
        | |- context [ProcessDocument.embed_chunks _ _ _ _ rest (S p) ?w1] =>
            destruct (IH w1 (S p) (S callno) table_rows)
              as (w' & Hrun & Hcalls & Hchunks & Hdocs)
        end.
        { cbn [calls]. rewrite length_app. simpl. lia. }
        { cbn [db document_chunks with_documents]. exact Hr. }
        { exact Hclean. }
        exists w'. rewrite Hrun. cbn [calls db document_chunks documents
            with_documents] in *.
        split; [reflexivity|].
        split; [rewrite Hcalls, <- app_assoc; reflexivity|].
        split; [exact Hchunks|].
        rewrite Hdocs. apply completed_after_progress.
      * match goal with
        | |- context [ProcessDocument.embed_chunks _ _ _ _ rest (S p) ?w1] =>
            destruct (IH w1 (S p) (S callno) (S table_rows))
              as (w' & Hrun & Hcalls & Hchunks & Hdocs)
        end.
        { cbn [calls]. rewrite length_app. simpl. lia. }
        { cbn [db document_chunks with_documents with_document_chunks].
          rewrite length_app. simpl. lia. }
        { exact Hclean. }
        exists w'. rewrite Hrun. cbn [calls db document_chunks documents
            with_documents with_document_chunks] in *.
        split; [reflexivity|].
        split; [rewrite Hcalls, <- app_assoc; reflexivity|].
        split; [rewrite Hchunks, <- app_assoc; reflexivity|].
        rewrite Hdocs. apply completed_after_progress.
    + match goal with
      | |- context [ProcessDocument.embed_chunks _ _ _ _ rest p ?w1] =>
          destruct (IH w1 p (S callno) table_rows)
            as (w' & Hrun & Hcalls & Hchunks & Hdocs)
      end.
      * cbn [calls]. rewrite length_app. simpl. lia.
      * exact Hr.
      * exact Hclean.
      * exists w'. rewrite Hrun. cbn [calls db] in *.
        split; [reflexivity|].
        split; [rewrite Hcalls, <- app_assoc; reflexivity|].
        split; assumption.
Qed.

(** Every stored row belongs to the document. *)
Lemma rows_document_id (chunks : list string) :
  forall callno table_rows p,
    Forall (fun c => Chunk.document_id c = id)
           (Accumulator.rows env id authorization callno table_rows p
                             chunks).
Proof.
  induction chunks as [|chunk rest IH]; intros callno table_rows p; simpl.
  - constructor.
  - destruct (Accumulator.step env authorization callno chunk) as [|e|];
      [apply IH | | constructor].
    destruct (insert_error env _);
      [apply IH | constructor; [reflexivity | apply IH]].
Qed.

(** The counter never goes back. *)
Lemma processed_from (chunks : list string) :
  forall callno p,
    p <= Accumulator.processed env authorization callno p chunks.
Proof.
  induction chunks as [|chunk rest IH]; intros callno p; simpl.
  - lia.
  - destruct (Accumulator.step env authorization callno chunk).
    + apply IH.
    + specialize (IH (S callno) (S p)). lia.
    + lia.
Qed.

(** The stored [chunk_index] values are values the counter took, in
    the order it took them. *)
Lemma rows_numbered (chunks : list string) :
  forall callno table_rows p,
    Effect.numbered p
      (Accumulator.processed env authorization callno p chunks)
      (Accumulator.rows env id authorization callno table_rows p chunks).
Proof.
  induction chunks as [|chunk rest IH]; intros callno table_rows p; simpl.
  - exists []. repeat constructor.
  - destruct (Accumulator.step env authorization callno chunk) as [|e|].
    + apply IH.
    + pose proof (processed_from rest (S callno) (S p)) as Hp.
      assert (Hrest : forall table_rows',
                 Effect.numbered p
                   (Accumulator.processed env authorization (S callno) (S p)
                                          rest)
                   (Accumulator.rows env id authorization (S callno)
                                     table_rows' (S p) rest)
                 /\ exists indices,
                     map Chunk.metadata
                         (Accumulator.rows env id authorization (S callno)
                                           table_rows' (S p) rest)
                     = map (fun i => Some {| Chunk.chunk_index := i |})
                           indices
                     /\ StronglySorted lt indices
                     /\ Forall (fun i => S p <= i
                                         < Accumulator.processed
                                             env authorization (S callno)
                                             (S p) rest) indices).
      { intros table_rows'.
        destruct (IH (S callno) table_rows' (S p))
          as (indices & Hmap & Hsorted & Hbounds).
        split; [|now exists indices].
        exists indices. split; [exact Hmap|]. split; [exact Hsorted|].
        eapply Forall_impl; [|exact Hbounds]. simpl. intros i Hi. lia. }
      destruct (insert_error env _).
      * apply (Hrest table_rows).
      * destruct (Hrest (S table_rows))
          as (_ & indices & Hmap & Hsorted & Hbounds).
        exists (p :: indices). simpl. split; [now rewrite Hmap|].
        split.
        -- constructor; [exact Hsorted|].
           eapply Forall_impl; [|exact Hbounds]. simpl. intros i Hi. lia.
        -- constructor; [lia|].
           eapply Forall_impl; [|exact Hbounds]. simpl. intros i Hi. lia.
    + exists []. repeat constructor.
Qed.

(** When the table takes every row, the stored [chunk_index] is the
    number of rows stored before, in this run, counted from the start
    value of [processedChunks], and the counter is the number of rows
    stored. *)
Lemma rows_chunk_index (chunks : list string) :
  forall callno table_rows p,
    Accumulator.accepted env id authorization callno table_rows p chunks
    = true ->
    let rows := Accumulator.rows env id authorization callno table_rows p
                                 chunks in
    map Chunk.metadata rows
    = map (fun i => Some {| Chunk.chunk_index := i |})
          (seq p (List.length rows))
    /\ Accumulator.processed env authorization callno p chunks
       = p + List.length rows.
Proof.
  induction chunks as [|chunk rest IH];
    intros callno table_rows p Haccepted; simpl in Haccepted |- *.
  - split; [reflexivity | lia].
  - destruct (Accumulator.step env authorization callno chunk) as [|e|].
    + now apply IH.
    + apply andb_true_iff in Haccepted. destruct Haccepted as [Hrow Hrest].
      apply negb_true_iff in Hrow. rewrite Hrow.
      destruct (IH _ _ _ Hrest) as [Hmap Hcount]. simpl.
      split; [now rewrite Hmap | rewrite Hcount; lia].
    + split; [reflexivity | simpl; lia].
Qed.



(** A run in which the chunk at position [bad], and no other, is
    answered with an HTTP error, and in which the table takes every
    row, stores all the other chunks, in order.  ([bad] past the end:
    every chunk is stored.) *)
Lemma rows_one_skipped (chunks : list string) :
  forall callno table_rows p bad,
    (forall j chunk,
        nth_error chunks j = Some chunk ->
        if j =? bad
        then Accumulator.step env authorization (callno + j) chunk
             = Accumulator.Skipped
        else exists e,
            Accumulator.step env authorization (callno + j) chunk
            = Accumulator.Embedded e
            /\ forall row,
                Chunk.content row = chunk -> Chunk.embedding row = e ->
                insert_error env row = false) ->
    Accumulator.clean env authorization callno chunks = true
    /\ Accumulator.accepted env id authorization callno table_rows p chunks
       = true
    /\ map Chunk.content
           (Accumulator.rows env id authorization callno table_rows p
                             chunks)
       = (firstn bad chunks ++ skipn (S bad) chunks)%list.
Proof.
  induction chunks as [|chunk rest IH]; intros callno table_rows p bad H.
  - simpl. now destruct bad.
  - pose proof (H 0 chunk eq_refl) as H0. rewrite Nat.add_0_r in H0.
    destruct bad as [|bad]; simpl in H0 |- *.
    + rewrite H0.
      destruct (IH (S callno) table_rows p (List.length rest))
        as (Hclean & Haccepted & Hrows).
      * intros j c Hj.
        assert (j < List.length rest)
          by (apply nth_error_Some; congruence).
        replace (j =? List.length rest) with false
          by (symmetry; apply Nat.eqb_neq; lia).
        specialize (H (S j) c Hj). simpl in H.
        now rewrite Nat.add_succ_r in H.
      * split; [exact Hclean|]. split; [exact Haccepted|].
        rewrite Hrows, firstn_all, skipn_all2 by lia.
        apply app_nil_r.
    + destruct H0 as (e & H0 & Hrow). rewrite H0.
      assert (Htaken : insert_error env
                         (ProcessDocument.new_chunk env table_rows id chunk
                                                    e p) = false)
        by (apply Hrow; reflexivity).
      rewrite Htaken. cbn [negb andb].
      destruct (IH (S callno) (S table_rows) (S p) bad)
        as (Hclean & Haccepted & Hrows).
      * intros j c Hj. specialize (H (S j) c Hj). simpl in H.
        now rewrite Nat.add_succ_r in H.
      * split; [exact Hclean|]. split; [exact Haccepted|].
        simpl. now rewrite Hrows.
Qed.

End Loop.

(** ** The handler *)

Lemma truthy_id (id : string) : id <> "" -> Js.truthy (Some id) = true.
Proof. intros Hid. destruct id; [now elim Hid | reflexivity]. Qed.

Section Run.

Variable env : Env.
Variable w : World.
Variable req : Request ProcessDocument.Json.
Variable id : string.

Hypothesis Hmethod : method req <> "OPTIONS".
Hypothesis Hjson :
  json req = Returned {| ProcessDocument.document_id := Some id |}.
Hypothesis Hid : id <> "".

Lemma serve_try_catch :
  ProcessDocument.serve env req w
  = try_catch (ProcessDocument.try_block env (Some id))
              (ProcessDocument.catch_block (Some id)) w.
Proof.
  unfold ProcessDocument.serve.
  apply String.eqb_neq in Hmethod. rewrite Hmethod, Hjson. reflexivity.
Qed.

Variable document : Document.t.
Variable fileData : Blob.
Variable text : string.
Variable chunks : list string.

Hypothesis Hdocument : Query.document (db w) id = Some document.
Hypothesis Hdownload :
  download env (Document.file_path document)
  = {| download_data := Some fileData; download_error := None |}.
Hypothesis Htext :
  ProcessDocument.extract_text env document fileData = Returned text.
Hypothesis Hchunks : Chunker.split text = Some chunks.

(** Once the document is loaded, downloaded, read and chunked, the
    [try] block is at "Generate embeddings and store chunks". *)
Lemma try_block_loaded :
  ProcessDocument.try_block env (Some id) w
  = ProcessDocument.store_chunks env id chunks w.
Proof.
  unfold ProcessDocument.try_block. rewrite (truthy_id id Hid).
  unfold bind at 1. unfold get_db at 1.
  cbn [negb Js.value]. cbv beta iota.
  rewrite Hdocument. cbv beta iota zeta. rewrite Hdownload.
  cbn [download_error download_data].
  unfold bind at 1. unfold lift at 1. rewrite Htext, Hchunks. reflexivity.
Qed.

(** Without the credential the block throws at once and leaves the
    world as it is. *)
Lemma store_chunks_without_key :
  ProcessDocument.key_is_missing (OPENAI_API_KEY env) = true ->
  ProcessDocument.store_chunks env id chunks w
  = (Thrown (Js.Error ProcessDocument.key_missing), w).
Proof.
  intros Hkey. unfold ProcessDocument.store_chunks. now rewrite Hkey.
Qed.

End Run.

Lemma progress_after_failed (id message : string) (rows : list Document.t) :
  map Document.processing_progress
      (Query.update_document id (Document.set_failed message) rows)
  = map Document.processing_progress rows.
Proof.
  unfold Query.update_document. rewrite map_map. apply map_ext.
  intros d. now destruct (Document.id d =? id)%string.
Qed.

(** Without the credential the [try] block never returns and never
    touches the world, wherever it stops. *)
Lemma try_block_without_key (env : Env) (w : World)
      (document_id : option string) :
  ProcessDocument.key_is_missing (OPENAI_API_KEY env) = true ->
  exists o : Outcome Response,
    ProcessDocument.try_block env document_id w = (o, w)
    /\ forall r, o <> Returned r.
Proof.
  intros Hkey. unfold ProcessDocument.try_block.
  destruct (Js.truthy document_id); cbn [negb]; cbv beta iota.
  2: { eexists; split; [reflexivity | discriminate]. }
  unfold bind at 1. unfold get_db at 1. cbv beta iota.
  destruct (Query.document (db w) (Js.value document_id)) as [document|].
  2: { eexists; split; [reflexivity | discriminate]. }
  cbv zeta.
  destruct (download_error (download env (Document.file_path document))).
  { eexists; split; [reflexivity | discriminate]. }
  destruct (download_data (download env (Document.file_path document)))
    as [fileData|].
  2: { eexists; split; [reflexivity | discriminate]. }
  unfold bind at 1. unfold lift at 1.
  destruct (ProcessDocument.extract_text env document fileData) as [text|e|].
  2, 3: eexists; split; [reflexivity | discriminate].
  destruct (Chunker.split text) as [chunks|].
  2: { eexists; split; [reflexivity | discriminate]. }
  rewrite store_chunks_without_key by exact Hkey.
  eexists; split; [reflexivity | discriminate].
Qed.

(** C4 (what the code does).  A document of three chunks, each run
    with exactly one embedding call that fails.  When the second call
    is answered with an HTTP error the chunk is skipped, as the claim
    says: 200, [completed], progress 100, the two other chunks stored.
    When the second call is rejected, or answered [ok] with a body that
    cannot be read, the run is not continued: the answer is 500, the
    document is [failed], one chunk is stored and the third chunk is
    never sent.  And when the third call is answered with an HTTP
    error while the table refuses the row of the second chunk (the
    service answered with a vector of three components, the column of
    the example is [vector(2)]), the answer is 200 with
    [chunks_processed = 2] and the document is [completed], but one
    chunk is stored, not two: the handler does not look at the error
    [insert] returns. *)
Theorem one_thrown_embedding_fails_the_run :
  let a := Example.repeat_char (ascii_of_nat 97) 1000 in
  let b := Example.repeat_char (ascii_of_nat 98) 1000 in
  let run answers :=
    ProcessDocument.serve
      (Example.env (Some "sk-test") Scenario.report
                   (Scenario.answering answers))
      Example.ingest (Example.world "text/plain") in
  let stored answers :=
    map Chunk.content (document_chunks (db (snd (run answers)))) in
  let record answers :=
    map (fun d => (Document.status d, Document.processing_progress d,
                   Document.error_message d))
        (documents (db (snd (run answers)))) in
  let sent answers := List.length (calls (snd (run answers))) in
  let skipped := [Example.embedded [1%Q; 0%Q]; Example.unavailable] in
  let rejected :=
    [Example.embedded [1%Q; 0%Q]; Rejected (Js.Error "connection reset")] in
  let unreadable :=
    [Example.embedded [1%Q; 0%Q]; Scenario.unreadable] in
  let refused :=
    [Example.embedded [1%Q; 0%Q]; Example.embedded [1%Q; 0%Q; 0%Q];
     Example.unavailable] in
  Chunker.split Scenario.report = Some [a; b; "c"]
  /\ (fst (run skipped)
      = Returned {| status := 200; body := Ingested true 2 |}
      /\ stored skipped = [a; "c"]
      /\ record skipped = [(Some "completed", Some 100%Z, None)]
      /\ sent skipped = 3)
  /\ (fst (run rejected)
      = Returned {| status := 500; body := Failed "connection reset" |}
      /\ stored rejected = [a]
      /\ record rejected
         = [(Some "failed", Some 33%Z, Some "connection reset")]
      /\ sent rejected = 2)
  /\ (fst (run unreadable)
      = Returned {| status := 500; body := Failed "Unexpected end of JSON input" |}
      /\ stored unreadable = [a]
      /\ record unreadable
         = [(Some "failed", Some 33%Z, Some "Unexpected end of JSON input")]
      /\ sent unreadable = 2)
  /\ (fst (run refused)
      = Returned {| status := 200; body := Ingested true 2 |}
      /\ stored refused = [a]
      /\ record refused = [(Some "completed", Some 100%Z, None)]
      /\ sent refused = 3).
Proof.
  cbv zeta.
  split; [vm_compute; reflexivity|].
  split; [vm_compute; repeat split|].
  split; [vm_compute; repeat split|].
  split; [vm_compute; repeat split|].
  vm_compute. repeat split.
Qed.

(** C3 (what the code does).  A [text/plain] document whose file holds
    no text is not failed: with a usable credential the handler sends
    no embedding request, stores no chunk, answers 200 with
    [chunks_processed = 0] and marks the document [completed] with
    [processing_progress = 100].  The DOCX and PDF branches throw on an
    empty text; the plain-text, CSV and fallback branches do not test
    it. *)
Theorem empty_plain_text_is_marked_completed
        (env : Env) (w : World) (req : Request ProcessDocument.Json)
        (id : string) (document : Document.t) (fileData : Blob)
        (key : string) :
  method req <> "OPTIONS" ->
  json req = Returned {| ProcessDocument.document_id := Some id |} ->
  id <> "" ->
  Query.document (db w) id = Some document ->
  download env (Document.file_path document)
  = {| download_data := Some fileData; download_error := None |} ->
  Document.mime_type document = Some "text/plain" ->
  blob_text fileData = "" ->
  OPENAI_API_KEY env = Some key ->
  ProcessDocument.key_is_missing (Some key) = false ->
  ProcessDocument.key_is_invalid key = false ->
  ProcessDocument.extract_text env document fileData = Returned ""
  /\ exists w' : World,
      ProcessDocument.serve env req w
      = (Returned {| status := 200; body := Ingested true 0 |}, w')
      /\ calls w' = calls w
      /\ document_chunks (db w') = document_chunks (db w)
      /\ exists document' : Document.t,
          Query.document (db w') id = Some document'
          /\ Document.status document' = Some "completed"
          /\ Document.processing_progress document' = Some 100%Z.
Proof.
  intros Hmethod Hjson Hid Hdocument Hdownload Hmime Hblob Hkey Hmissing
         Hinvalid.
  assert (Htext : ProcessDocument.extract_text env document fileData
                  = Returned "").
  { unfold ProcessDocument.extract_text. rewrite Hmime, Hblob. reflexivity. }
  split; [exact Htext|].
  rewrite (serve_try_catch env w req id Hmethod Hjson).
  unfold try_catch.
  rewrite (try_block_loaded env w id Hid document fileData "" []
             Hdocument Hdownload Htext eq_refl).
  unfold ProcessDocument.store_chunks.
  rewrite Hkey, Hmissing. cbn [Js.value]. cbv zeta. rewrite Hinvalid.
  cbn [ProcessDocument.embed_chunks].
  unfold bind, ret, ProcessDocument.update_document, modify_db.
  eexists. split; [reflexivity|].
  cbn [calls db document_chunks documents with_documents].
  split; [reflexivity|]. split; [reflexivity|].
  exists (Document.set_completed document).
  split; [|split; reflexivity].
  unfold Query.document. cbn [documents with_documents].
  apply (document_after_update (db w)); [reflexivity | exact Hdocument].
Qed.

(** C10.  When [OPENAI_API_KEY] is missing or empty (or blank), the
    handler sends no embedding request, inserts no row into
    [document_chunks] and changes no [processing_progress], whatever
    the request; and when the run gets as far as the embedding stage
    (the document is found, downloaded, read and chunked) the document
    goes to [status = failed] with the configuration error's message
    recorded, its progress untouched, and the answer is 500 with that
    message. *)
Theorem missing_credential_fails_before_embedding
        (env : Env) (w : World) (req : Request ProcessDocument.Json) :
  ProcessDocument.key_is_missing (OPENAI_API_KEY env) = true ->
  let w' := snd (ProcessDocument.serve env req w) in
  calls w' = calls w
  /\ document_chunks (db w') = document_chunks (db w)
  /\ map Document.processing_progress (documents (db w'))
     = map Document.processing_progress (documents (db w))
  /\ forall (id : string) (document : Document.t) (fileData : Blob)
            (text : string),
      method req <> "OPTIONS" ->
      json req = Returned {| ProcessDocument.document_id := Some id |} ->
      id <> "" ->
      Query.document (db w) id = Some document ->
      download env (Document.file_path document)
      = {| download_data := Some fileData; download_error := None |} ->
      ProcessDocument.extract_text env document fileData = Returned text ->
      fst (ProcessDocument.serve env req w)
      = Returned {| status := 500;
                    body := Failed ProcessDocument.key_missing |}
      /\ documents (db w')
         = Query.update_document id
             (Document.set_failed ProcessDocument.key_missing)
             (documents (db w))
      /\ Query.document (db w') id
         = Some (Document.set_failed ProcessDocument.key_missing document)
      /\ Document.status
           (Document.set_failed ProcessDocument.key_missing document)
         = Some "failed"
      /\ Document.error_message
           (Document.set_failed ProcessDocument.key_missing document)
         = Some "OPENAI_API_KEY is not configured or is empty"
      /\ Document.processing_progress
           (Document.set_failed ProcessDocument.key_missing document)
         = Document.processing_progress document.
Proof.
  intros Hkey w'. subst w'.
  assert (Hworld :
    calls (snd (ProcessDocument.serve env req w)) = calls w
    /\ document_chunks (db (snd (ProcessDocument.serve env req w)))
       = document_chunks (db w)
    /\ map Document.processing_progress
           (documents (db (snd (ProcessDocument.serve env req w))))
       = map Document.processing_progress (documents (db w))).
  { unfold ProcessDocument.serve.
    destruct (method req =? "OPTIONS")%string; [now repeat split|].
    destruct (json req) as [body|e|]; [|now repeat split..].
    unfold try_catch.
    destruct (try_block_without_key env w (ProcessDocument.document_id body)
                Hkey) as (o & -> & Ho).
    destruct o as [r|e|]; [now elim (Ho r)| |now repeat split].
    unfold ProcessDocument.catch_block, bind, ret.
    destruct (Js.truthy (ProcessDocument.document_id body));
      [|now repeat split].
    unfold ProcessDocument.update_document, modify_db.
    cbn [snd calls db document_chunks documents with_documents].
    split; [reflexivity|]. split; [reflexivity|].
    apply progress_after_failed. }
  destruct Hworld as (Hcalls & Hrows & Hprogress).
  split; [exact Hcalls|]. split; [exact Hrows|]. split; [exact Hprogress|].
  intros id document fileData text Hmethod Hjson Hid Hdocument Hdownload
         Htext.
  destruct (split_some text) as [chunks Hchunks].
  rewrite (serve_try_catch env w req id Hmethod Hjson).
  unfold try_catch.
  rewrite (try_block_loaded env w id Hid document fileData text chunks
             Hdocument Hdownload Htext Hchunks).
  rewrite store_chunks_without_key by exact Hkey.
  unfold ProcessDocument.catch_block. rewrite (truthy_id id Hid).
  unfold bind, ret, ProcessDocument.update_document, modify_db.
  cbn [fst snd db documents with_documents Js.value Js.message_of].
  split; [reflexivity|]. split; [reflexivity|].
  split; [|repeat split].
  unfold Query.document. cbn [documents with_documents].
  apply (document_after_update (db w)); [reflexivity | exact Hdocument].
Qed.

Lemma empty_plain_text_is_marked_completed_witness :
  ProcessDocument.extract_text
    (Example.env (Some "sk-test") "" (Example.failing_at 0))
    (Example.document "text/plain") (Example.file "")
  = Returned ""
  /\ exists w' : World,
      ProcessDocument.serve
        (Example.env (Some "sk-test") "" (Example.failing_at 0))
        Example.ingest (Example.world "text/plain")
      = (Returned {| status := 200; body := Ingested true 0 |}, w')
      /\ calls w' = []
      /\ document_chunks (db w') = []
      /\ exists document' : Document.t,
          Query.document (db w') "doc-1" = Some document'
          /\ Document.status document' = Some "completed"
          /\ Document.processing_progress document' = Some 100%Z.
Proof.
  apply (empty_plain_text_is_marked_completed
           (Example.env (Some "sk-test") "" (Example.failing_at 0))
           (Example.world "text/plain") Example.ingest "doc-1"
           (Example.document "text/plain") (Example.file "") "sk-test").
  - discriminate.
  - reflexivity.
  - discriminate.
  - reflexivity.
  - reflexivity.
  - reflexivity.
  - reflexivity.
  - reflexivity.
  - reflexivity.
  - reflexivity.
Defined.

Lemma missing_credential_fails_before_embedding_witness :
  ProcessDocument.key_is_missing (Some "") = true
  /\ ProcessDocument.serve (Example.env (Some "") "hello" (Example.failing_at 9))
       Example.ingest (Example.world "text/plain")
     = (Returned {| status := 500;
                    body := Failed ProcessDocument.key_missing |},
        {| db := with_documents
                   [Document.set_failed ProcessDocument.key_missing
                      (Example.document "text/plain")]
                   (Example.database "text/plain");
           calls := [] |}).
Proof.
  split; [reflexivity|].
  pose proof (missing_credential_fails_before_embedding
                (Example.env (Some "") "hello" (Example.failing_at 9))
                (Example.world "text/plain") Example.ingest eq_refl)
    as (_ & _ & _ & H).
  destruct (H "doc-1" (Example.document "text/plain") (Example.file "hello")
              "hello") as (Hresponse & _);
    [discriminate | reflexivity | discriminate | reflexivity
     | reflexivity | reflexivity |].
  rewrite (surjective_pairing (ProcessDocument.serve _ _ _)), Hresponse.
  reflexivity.
Defined.

(** C5 (what the code does).  The stored [chunk_index] is the value of
    [processedChunks], the number of chunks stored so far, not the
    position of the chunk: when the embedding of the first of two
    chunks fails, the second chunk -- position 1 of the document's
    chunk sequence -- is stored with [chunk_index = 0]. *)
Theorem chunk_index_counts_stored_chunks :
  let w' := snd (ProcessDocument.serve
                   (Example.env (Some "sk-test") Example.notes
                                (Example.failing_at 0))
                   Example.ingest (Example.world "text/plain")) in
  Chunker.split Example.notes
  = Some [Example.repeat_char (ascii_of_nat 97) 1000; "b"]
  /\ map (fun c => (Chunk.content c, Chunk.metadata c))
         (document_chunks (db w'))
     = [("b", Some {| Chunk.chunk_index := 0 |})]
  /\ ~ Forall (fun c =>
                 exists i,
                   nth_error
                     [Example.repeat_char (ascii_of_nat 97) 1000; "b"] i
                   = Some (Chunk.content c)
                   /\ Chunk.metadata c = Some {| Chunk.chunk_index := i |})
              (document_chunks (db w')).
Proof.
  intros w'.
  split; [vm_compute; reflexivity|].
  split; [vm_compute; reflexivity|].
  intros H.
  assert (Hrows : document_chunks (db w')
                  = [{| Chunk.id := "chunk-0"; Chunk.document_id := "doc-1";
                        Chunk.content := "b";
                        Chunk.embedding := Some [1%Q; 0%Q];
                        Chunk.metadata :=
                          Some {| Chunk.chunk_index := 0 |} |}])
    by (vm_compute; reflexivity).
  rewrite Hrows in H. inversion H as [|c l (i & Hi & Hindex) _]; subst.
  cbn [Chunk.content Chunk.metadata] in Hi, Hindex.
  injection Hindex as <-. discriminate Hi.
Qed.

End ProcessDocumentFacts.

(* ================================================================== *)
(** * rag-chat: resolution, short circuit, history *)

Module RagChatFacts.

Section Authorized.

Variable env : Env.
Variable w : World.
Variable req : Request RagChat.Json.
Variable body : RagChat.Json.
Variable authHeader user_id : string.

Hypothesis Hmethod : method req <> "OPTIONS".
Hypothesis Hjson : json req = Returned body.
Hypothesis Hmessage : Js.truthy (RagChat.message body) = true.
Hypothesis Hauthorization : authorization req = Some authHeader.
Hypothesis Huser :
  getUser env (Js.replace authHeader "Bearer " "") = Some user_id.

(** An authorized request with a message gets to the vector search
    with the knowledge sources and the history read from the
    database. *)
Lemma serve_authorized :
  RagChat.serve env req w
  = try_catch
      (RagChat.respond env (RagChat.resolve (db w) body user_id)
                       (RagChat.conversationHistory (db w) body)
                       (Js.value (RagChat.message body)))
      RagChat.catch_block (RagChat.logged w).
Proof.
  unfold RagChat.serve.
  apply String.eqb_neq in Hmethod. rewrite Hmethod.
  unfold try_catch, RagChat.try_block.
  unfold bind at 1. unfold lift at 1. rewrite Hjson, Hmessage.
  cbn [negb]. cbv beta iota.
  unfold bind at 1. unfold modify_db at 1. cbv beta iota.
  rewrite Hauthorization. cbv zeta. rewrite Huser.
  unfold bind at 1. unfold get_db at 1. cbv beta iota.
  reflexivity.
Qed.

End Authorized.

Section Retrieval.

Variable env : Env.
Variable k : RagChat.Knowledge.
Variable message : string.
Variable w : World.

Hypothesis Hrag : RagChat.ragEnabledForConversation k = true.
Hypothesis Hdocuments : RagChat.documentIds k <> [].

Let request : HttpRequest :=
  EmbeddingsRequest ("Bearer " ++ Js.trim (Js.value (OPENAI_API_KEY env)))
                    "text-embedding-3-small" message.

Lemma has_documents : (0 <? List.length (RagChat.documentIds k)) = true.
Proof.
  destruct (RagChat.documentIds k); [now elim Hdocuments | reflexivity].
Qed.

(** The search runs and selects nothing. *)
Lemma retrieve_nothing (r : HttpResponse) (e : option vector) :
  Js.truthy (OPENAI_API_KEY env) = true ->
  http env (List.length (calls w)) request = Resolved r ->
  ok r = true ->
  json_embedding r = Returned e ->
  Search.match_document_chunks env (document_chunks (db w)) e
    RagChat.match_threshold RagChat.match_count (RagChat.documentIds k)
  = [] ->
  RagChat.retrieve env k message w
  = (Returned (false, ""),
     {| db := db w; calls := (calls w ++ [request])%list |}).
Proof.
  intros Hkey Hhttp Hok Hjson Hsearch.
  unfold RagChat.retrieve. rewrite Hrag, has_documents, Hkey.
  cbn [andb]. unfold bind at 1. unfold fetch at 1.
  fold request. rewrite Hhttp, Hok.
  unfold bind at 1. unfold lift at 1. rewrite Hjson.
  unfold bind at 1. unfold get_db at 1. cbn [db].
  rewrite Hsearch. reflexivity.
Qed.

(** The embedding service answers with an HTTP error: the search is
    left out, without a word. *)
Lemma retrieve_http_error (r : HttpResponse) :
  Js.truthy (OPENAI_API_KEY env) = true ->
  http env (List.length (calls w)) request = Resolved r ->
  ok r = false ->
  RagChat.retrieve env k message w
  = (Returned (false, ""),
     {| db := db w; calls := (calls w ++ [request])%list |}).
Proof.
  intros Hkey Hhttp Hok.
  unfold RagChat.retrieve. rewrite Hrag, has_documents, Hkey.
  cbn [andb]. unfold bind at 1. unfold fetch at 1.
  fold request. rewrite Hhttp, Hok. reflexivity.
Qed.

(** The credential is missing: the same. *)
Lemma retrieve_without_key :
  Js.truthy (OPENAI_API_KEY env) = false ->
  RagChat.retrieve env k message w = (Returned (false, ""), w).
Proof.
  intros Hkey.
  unfold RagChat.retrieve. rewrite Hrag, has_documents, Hkey.
  reflexivity.
Qed.

(** Whenever the vector search block ends without relevant
    documents, the handler answers with the fixed sentence and does
    not call the chat model. *)
Lemma respond_not_found (history : list Message.t) (context : string)
      (w1 : World) :
  RagChat.retrieve env k message w = (Returned (false, context), w1) ->
  RagChat.respond env k history message w
  = (Returned {| status := 200;
                 body := Answer RagChat.not_found true |}, w1).
Proof.
  intros Hretrieve. unfold RagChat.respond.
  unfold bind at 1. rewrite Hretrieve. cbn [fst snd].
  rewrite Hrag, has_documents. reflexivity.
Qed.

End Retrieval.

(** C8.  A query with RAG enabled and a non-empty resolved document
    set, whose similarity search selects no chunk, is answered with
    status 200 and the fixed sentence as [response] (and
    [rag_used = true]); the only request sent is the one that embeds
    the query: the chat model is never called. *)
Theorem no_matching_chunk_short_circuits
        (env : Env) (w : World) (req : Request RagChat.Json)
        (body : RagChat.Json) (authHeader user_id : string)
        (r : HttpResponse) (e : option vector) :
  let k := RagChat.resolve (db w) body user_id in
  let request :=
    EmbeddingsRequest ("Bearer " ++ Js.trim (Js.value (OPENAI_API_KEY env)))
                      "text-embedding-3-small"
                      (Js.value (RagChat.message body)) in
  method req <> "OPTIONS" ->
  json req = Returned body ->
  Js.truthy (RagChat.message body) = true ->
  authorization req = Some authHeader ->
  getUser env (Js.replace authHeader "Bearer " "") = Some user_id ->
  RagChat.ragEnabledForConversation k = true ->
  RagChat.documentIds k <> [] ->
  Js.truthy (OPENAI_API_KEY env) = true ->
  http env (List.length (calls w)) request = Resolved r ->
  ok r = true ->
  json_embedding r = Returned e ->
  Search.match_document_chunks env (document_chunks (db w)) e
    RagChat.match_threshold RagChat.match_count (RagChat.documentIds k)
  = [] ->
  exists w' : World,
    RagChat.serve env req w
    = (Returned
         {| status := 200;
            body :=
              Answer "Die angefragte Information ist in den bereitgestellten Dokumenten nicht enthalten."
                     true |}, w')
    /\ calls w' = (calls w ++ [request])%list
    /\ Forall (fun call =>
                 match call with
                 | ChatCompletionsRequest _ _ _ => False
                 | EmbeddingsRequest _ _ _ => True
                 end) [request].
Proof.
  intros k request Hmethod Hjson Hmessage Hauthorization Huser Hrag
         Hdocuments Hkey Hhttp Hok Hembedding Hsearch.
  rewrite (serve_authorized env w req body authHeader user_id Hmethod Hjson
             Hmessage Hauthorization Huser).
  fold k. unfold try_catch.
  erewrite respond_not_found; [|exact Hrag|exact Hdocuments|].
  2: { apply (retrieve_nothing env k _ (RagChat.logged w) Hrag Hdocuments
                r e Hkey Hhttp Hok Hembedding Hsearch). }
  eexists. split; [reflexivity|].
  split; [reflexivity|].
  repeat constructor.
Qed.

Lemma no_matching_chunk_short_circuits_witness :
  exists w' : World,
    RagChat.serve
      (Example.env (Some "sk-test") "" (Example.embedding_is [0%Q; 1%Q]))
      Example.ask Example.bound_world
    = (Returned
         {| status := 200;
            body :=
              Answer "Die angefragte Information ist in den bereitgestellten Dokumenten nicht enthalten."
                     true |}, w')
    /\ calls w'
       = [EmbeddingsRequest "Bearer sk-test" "text-embedding-3-small"
                            "What is alpha?"]
    /\ Forall (fun call =>
                 match call with
                 | ChatCompletionsRequest _ _ _ => False
                 | EmbeddingsRequest _ _ _ => True
                 end)
              [EmbeddingsRequest "Bearer sk-test" "text-embedding-3-small"
                                 "What is alpha?"].
Proof.
  apply (no_matching_chunk_short_circuits
           (Example.env (Some "sk-test") "" (Example.embedding_is [0%Q; 1%Q]))
           Example.bound_world Example.ask
           {| RagChat.message := Some "What is alpha?";
              RagChat.conversation_id := Some "conv-1";
              RagChat.rag_enabled := None |}
           "Bearer token-1" "user-1"
           {| ok := true; http_status := 200;
              json_embedding := Returned (Some [0%Q; 1%Q]);
              json_content := Thrown Js.NonError |}
           (Some [0%Q; 1%Q])).
  - discriminate.
  - reflexivity.
  - reflexivity.
  - reflexivity.
  - reflexivity.
  - reflexivity.
  - discriminate.
  - reflexivity.
  - reflexivity.
  - reflexivity.
  - reflexivity.
  - reflexivity.
Defined.

(** C7 (what the code does).  In rag-chat a query whose embedding
    fails -- the credential is missing, or the embedding service
    answers with an HTTP error -- is not failed: with RAG enabled and a
    non-empty resolved document set the vector search is left out and
    the handler answers 200 with the fixed "not in the documents"
    sentence and [rag_used = true], as if a search had found
    nothing. *)
Theorem failed_query_embedding_is_answered_as_not_found
        (env : Env) (w : World) (req : Request RagChat.Json)
        (body : RagChat.Json) (authHeader user_id : string) :
  let k := RagChat.resolve (db w) body user_id in
  let request :=
    EmbeddingsRequest ("Bearer " ++ Js.trim (Js.value (OPENAI_API_KEY env)))
                      "text-embedding-3-small"
                      (Js.value (RagChat.message body)) in
  method req <> "OPTIONS" ->
  json req = Returned body ->
  Js.truthy (RagChat.message body) = true ->
  authorization req = Some authHeader ->
  getUser env (Js.replace authHeader "Bearer " "") = Some user_id ->
  RagChat.ragEnabledForConversation k = true ->
  RagChat.documentIds k <> [] ->
  Js.truthy (OPENAI_API_KEY env) = false
  \/ (Js.truthy (OPENAI_API_KEY env) = true
      /\ exists r : HttpResponse,
          http env (List.length (calls w)) request = Resolved r
          /\ ok r = false) ->
  fst (RagChat.serve env req w)
  = Returned {| status := 200; body := Answer RagChat.not_found true |}.
Proof.
  intros k request Hmethod Hjson Hmessage Hauthorization Huser Hrag
         Hdocuments Hfailure.
  rewrite (serve_authorized env w req body authHeader user_id Hmethod Hjson
             Hmessage Hauthorization Huser).
  fold k. unfold try_catch.
  destruct Hfailure as [Hkey | (Hkey & r & Hhttp & Hok)].
  - erewrite respond_not_found; [reflexivity|exact Hrag|exact Hdocuments|].
    apply (retrieve_without_key env k _ (RagChat.logged w) Hrag Hdocuments
             Hkey).
  - erewrite respond_not_found; [reflexivity|exact Hrag|exact Hdocuments|].
    apply (retrieve_http_error env k _ (RagChat.logged w) Hrag Hdocuments
             r Hkey Hhttp Hok).
Qed.

Lemma failed_query_embedding_is_answered_as_not_found_witness :
  fst (RagChat.serve
         (Example.env (Some "sk-test") "" Example.embeddings_down)
         Example.ask Example.bound_world)
  = Returned {| status := 200; body := Answer RagChat.not_found true |}.
Proof.
  apply (failed_query_embedding_is_answered_as_not_found
           (Example.env (Some "sk-test") "" Example.embeddings_down)
           Example.bound_world Example.ask
           {| RagChat.message := Some "What is alpha?";
              RagChat.conversation_id := Some "conv-1";
              RagChat.rag_enabled := None |}
           "Bearer token-1" "user-1").
  - discriminate.
  - reflexivity.
  - reflexivity.
  - reflexivity.
  - reflexivity.
  - reflexivity.
  - discriminate.
  - right. split; [reflexivity|].
    eexists. split; reflexivity.
Defined.

(** C9 (what the code does).  The history is read with
    [order("created_at", ascending).limit(10)]: of a conversation with
    eleven messages the prompt carries, after the system message and
    before the new user message, the ten oldest ([m1] to [m10]), not
    the last ten ([m2] to [m11]). *)
Theorem history_is_the_ten_oldest_messages :
  let run :=
    RagChat.serve
      (Example.env (Some "sk-test") "" (Example.embedding_is [1%Q; 0%Q]))
      Example.ask Example.bound_world in
  map Message.content
      (Query.eq Message.conversation_id "conv-1"
                (messages (db Example.bound_world)))
  = ["m1"; "m2"; "m3"; "m4"; "m5"; "m6"; "m7"; "m8"; "m9"; "m10"; "m11"]
  /\ fst run = Returned {| status := 200; body := Answer "ok" true |}
  /\ match calls (snd run) with
     | [EmbeddingsRequest _ _ _; ChatCompletionsRequest _ _ prompt] =>
         map role prompt
         = ["system"; "user"; "assistant"; "user"; "assistant"; "user";
            "assistant"; "user"; "assistant"; "user"; "assistant"; "user"]
         /\ map content (tl prompt)
            = ["m1"; "m2"; "m3"; "m4"; "m5"; "m6"; "m7"; "m8"; "m9"; "m10";
               "What is alpha?"]
         /\ map content (tl prompt)
            <> ["m2"; "m3"; "m4"; "m5"; "m6"; "m7"; "m8"; "m9"; "m10";
                "m11"; "What is alpha?"]
     | _ => False
     end.
Proof.
  split; [reflexivity|].
  split; [vm_compute; reflexivity|].
  vm_compute. split; [reflexivity|]. split; [reflexivity|]. discriminate.
Qed.

End RagChatFacts.

(* ================================================================== *)
(** * Knowledge-source resolution: the agent's documents *)

Module ResolverFacts.

Lemma non_empty_true (ids : list string) :
  ids <> [] -> (0 <? List.length ids) = true.
Proof. destruct ids; [congruence | reflexivity]. Qed.

Lemma is_empty_false (ids : list string) :
  ids <> [] -> RagChat.is_empty ids = false.
Proof. destruct ids; [congruence | reflexivity]. Qed.

(** The voice session falls back to the user's documents only when
    nothing is bound. *)
Lemma with_user_documents_bound (db : Database) (userId : string)
      (ids : list string) :
  ids <> [] -> GeminiRealtime.with_user_documents db userId ids = ids.
Proof.
  intros H. unfold GeminiRealtime.with_user_documents.
  destruct ids; [congruence | reflexivity].
Qed.

Section Bound.

Variable db : Database.
Variable conversation : Conversation.t.
Variable agent : Agent.t.
Variable ids : list string.

Hypothesis Hagent_id : Js.truthy (Conversation.agent_id conversation) = true.
Hypothesis Hagent :
  Query.single
    (Query.eq Agent.id (Js.value (Conversation.agent_id conversation))
              (agents db))
  = Some agent.
Hypothesis Hids : Agent.document_ids agent = Some ids.
Hypothesis Hnonempty : ids <> [].

(** rag-chat: the agent's documents close the resolution. *)
Lemma chat_resolution_of_bound_agent (body : RagChat.Json)
      (user_id : string) :
  Js.truthy (RagChat.conversation_id body) = true ->
  Query.single
    (Query.eq Conversation.id (Js.value (RagChat.conversation_id body))
              (conversations db))
  = Some conversation ->
  RagChat.resolve db body user_id
  = {| RagChat.systemPrompt := Agent.system_prompt agent;
       RagChat.ragEnabledForConversation := Agent.rag_enabled agent;
       RagChat.documentIds := ids |}.
Proof.
  intros Hcid Hconversation.
  unfold RagChat.resolve. rewrite Hcid, Hconversation.
  unfold RagChat.with_agent. rewrite Hagent_id, Hagent, Hids.
  cbn [RagChat.or_empty].
  unfold RagChat.with_context.
  cbn [RagChat.documentIds RagChat.ragEnabledForConversation].
  rewrite (is_empty_false ids Hnonempty). cbn [andb].
  unfold RagChat.with_user_documents.
  cbn [RagChat.documentIds RagChat.ragEnabledForConversation].
  rewrite (is_empty_false ids Hnonempty), andb_false_r.
  reflexivity.
Qed.

(** gemini-realtime: the agent's documents, then those of a bound
    context. *)
Lemma voice_resolution_of_bound_agent (voice : GeminiRealtime.Json)
      (userId : string) :
  Js.truthy (GeminiRealtime.conversation_id voice) = true ->
  Query.single
    (Query.eq Conversation.id
              (Js.value (GeminiRealtime.conversation_id voice))
              (conversations db))
  = Some conversation ->
  GeminiRealtime.resolve db voice userId
  = (ids
     ++ if Js.truthy (Conversation.context_id conversation)
        then
          match Query.single
                  (Query.eq Context.id
                     (Js.value (Conversation.context_id conversation))
                     (contexts db)) with
          | Some context =>
              if GeminiRealtime.non_empty (Context.document_ids context)
              then RagChat.or_empty (Context.document_ids context)
              else []
          | None => []
          end
        else [])%list.
Proof.
  intros Hcid Hconversation.
  unfold GeminiRealtime.resolve. rewrite Hcid, Hconversation.
  unfold GeminiRealtime.add_agent_documents.
  rewrite Hagent_id, Hagent, Hids.
  cbn [GeminiRealtime.non_empty RagChat.or_empty app].
  rewrite (non_empty_true ids Hnonempty).
  unfold GeminiRealtime.add_context_documents.
  destruct (Js.truthy (Conversation.context_id conversation)).
  - destruct (Query.single (Query.eq Context.id _ _)) as [context|].
    + destruct (GeminiRealtime.non_empty (Context.document_ids context)).
      * apply with_user_documents_bound.
        intros E. apply app_eq_nil in E. now destruct E.
      * rewrite app_nil_r. now apply with_user_documents_bound.
    + rewrite app_nil_r. now apply with_user_documents_bound.
  - rewrite app_nil_r. now apply with_user_documents_bound.
Qed.

End Bound.

(** C6 (what the code does).  For a conversation bound to an agent
    with the non-empty document list [ids] and to a context with the
    non-empty list [more], and a signed-in user: rag-chat resolves
    exactly the agent's documents, and its RAG flag is the agent's, as
    the claim says ("agent documents have priority"); gemini-realtime,
    asked with [rag_enabled = true], resolves the agent's documents
    followed by the context's and reads the chunks of both, and it
    never looks at the agent's RAG flag. *)
Theorem voice_session_mixes_agent_and_context_documents
        (db : Database) (body : RagChat.Json) (voice : GeminiRealtime.Json)
        (user_id : string) (conversation : Conversation.t) (agent : Agent.t)
        (context : Context.t) (ids more : list string) :
  Js.truthy (RagChat.conversation_id body) = true ->
  GeminiRealtime.conversation_id voice = RagChat.conversation_id body ->
  Query.single
    (Query.eq Conversation.id (Js.value (RagChat.conversation_id body))
              (conversations db))
  = Some conversation ->
  Js.truthy (Conversation.agent_id conversation) = true ->
  Query.single
    (Query.eq Agent.id (Js.value (Conversation.agent_id conversation))
              (agents db))
  = Some agent ->
  Agent.document_ids agent = Some ids ->
  ids <> [] ->
  Js.truthy (Conversation.context_id conversation) = true ->
  Query.single
    (Query.eq Context.id (Js.value (Conversation.context_id conversation))
              (contexts db))
  = Some context ->
  Context.document_ids context = Some more ->
  more <> [] ->
  GeminiRealtime.rag_enabled voice = Some true ->
  user_id <> "" ->
  (RagChat.documentIds (RagChat.resolve db body user_id) = ids
   /\ RagChat.ragEnabledForConversation (RagChat.resolve db body user_id)
      = Agent.rag_enabled agent)
  /\ GeminiRealtime.resolve db voice user_id = (ids ++ more)%list
  /\ GeminiRealtime.rag_chunks db voice (Some user_id)
     = GeminiRealtime.fetch_chunks db (ids ++ more).
Proof.
  intros Hcid Hvoice Hconversation Haid Hagent Hids Hnonempty Hxid Hcontext
         Hmore Hmore_nonempty Hflag Huser.
  assert (Hresolve : GeminiRealtime.resolve db voice user_id
                     = (ids ++ more)%list).
  { rewrite (voice_resolution_of_bound_agent db conversation agent ids
               Haid Hagent Hids Hnonempty voice user_id)
      by (rewrite Hvoice; assumption).
    rewrite Hxid, Hcontext, Hmore.
    cbn [GeminiRealtime.non_empty RagChat.or_empty].
    now rewrite (non_empty_true more Hmore_nonempty). }
  split; [|split; [exact Hresolve|]].
  - rewrite (chat_resolution_of_bound_agent db conversation agent ids
               Haid Hagent Hids Hnonempty body user_id Hcid Hconversation).
    split; reflexivity.
  - unfold GeminiRealtime.rag_chunks, GeminiRealtime.rag_active.
    rewrite Hflag. cbn [Js.value].
    assert (Htruthy : Js.truthy (Some user_id) = true)
      by (destruct user_id; [now elim Huser | reflexivity]).
    rewrite Htruthy, Hresolve.
    assert (Hsome : (0 <? List.length (ids ++ more)%list) = true).
    { apply non_empty_true. intros E. apply app_eq_nil in E.
      now destruct E. }
    now rewrite Hsome.
Qed.

Lemma voice_session_mixes_agent_and_context_documents_witness :
  (RagChat.documentIds
     (RagChat.resolve Example.bound_database
        {| RagChat.message := Some "What is alpha?";
           RagChat.conversation_id := Some "conv-1";
           RagChat.rag_enabled := Some true |} "user-1")
   = ["doc-a"]
   /\ RagChat.ragEnabledForConversation
        (RagChat.resolve Example.bound_database
           {| RagChat.message := Some "What is alpha?";
              RagChat.conversation_id := Some "conv-1";
              RagChat.rag_enabled := Some true |} "user-1")
      = Agent.rag_enabled Example.agent)
  /\ GeminiRealtime.resolve Example.bound_database Scenario.voice_with_rag
                            "user-1"
     = (["doc-a"] ++ ["doc-c"])%list
  /\ GeminiRealtime.rag_chunks Example.bound_database
                               Scenario.voice_with_rag (Some "user-1")
     = GeminiRealtime.fetch_chunks Example.bound_database
         (["doc-a"] ++ ["doc-c"]).
Proof.
  apply (voice_session_mixes_agent_and_context_documents
           Example.bound_database
           {| RagChat.message := Some "What is alpha?";
              RagChat.conversation_id := Some "conv-1";
              RagChat.rag_enabled := Some true |}
           Scenario.voice_with_rag "user-1"
           Example.conversation Example.agent Example.context
           ["doc-a"] ["doc-c"]).
  - reflexivity.
  - reflexivity.
  - reflexivity.
  - reflexivity.
  - reflexivity.
  - reflexivity.
  - discriminate.
  - reflexivity.
  - reflexivity.
  - reflexivity.
  - discriminate.
  - reflexivity.
  - discriminate.
Defined.

End ResolverFacts.

(* ================================================================== *)
(** * chat-search: a failed query embedding is an error *)

Module ChatSearchFacts.

Section Search.

Variable env : Env.
Variable faults : ChatSearch.Faults.
Variable w : World.
Variable req : Request ChatSearch.Json.
Variable payload : ChatSearch.Json.

Hypothesis Hmethod : method req <> "OPTIONS".
Hypothesis Hjson : json req = Returned payload.
Hypothesis Huser : Js.truthy (ChatSearch.user_id payload) = true.
Hypothesis Hquery : Js.truthy (ChatSearch.search_query payload) = true.
Hypothesis Hread :
  ChatSearch.docsError faults (Js.value (ChatSearch.user_id payload)) = false.
Hypothesis Hdocuments :
  Query.eq (fun d => Js.value (Document.status d)) "completed"
    (Query.eq Document.user_id (Js.value (ChatSearch.user_id payload))
              (documents (db w)))
  <> [].

Let request : HttpRequest :=
  EmbeddingsRequest ("Bearer " ++ Js.value (OPENAI_API_KEY env))
                    "text-embedding-3-small"
                    (Js.value (ChatSearch.search_query payload)).

Lemma try_block_with_documents :
  ChatSearch.try_block env faults req w
  = (if negb (Js.truthy (OPENAI_API_KEY env))
     then throw (Js.Error "OPENAI_API_KEY is not configured")
     else
       embeddingResponse <- fetch env request ;;
       if negb (ok embeddingResponse)
       then throw (Js.Error
                     ("Failed to generate embedding: "
                      ++ Js.string_of_Z (http_status embeddingResponse)))
       else
         embedding <- lift (json_embedding embeddingResponse) ;;
         let documentIds :=
           map Document.id
             (Query.eq (fun d => Js.value (Document.status d)) "completed"
                (Query.eq Document.user_id
                   (Js.value (ChatSearch.user_id payload))
                   (documents (db w)))) in
         if ChatSearch.searchError faults embedding documentIds
         then throw (Js.Error "Vector search failed")
         else
           ret {| status := 200;
                  body :=
                    Results
                      (map (fun chunk => (Search.content chunk,
                                          Search.similarity chunk))
                         (Search.match_document_chunks env
                            (document_chunks (db w)) embedding (3 # 10) 5
                            documentIds)) |}) w.
Proof.
  unfold ChatSearch.try_block.
  unfold bind at 1. unfold lift at 1. rewrite Hjson, Huser, Hquery.
  cbn [negb orb]. cbv beta iota.
  unfold bind at 1. unfold get_db at 1. cbv beta iota zeta.
  rewrite Hread.
  destruct (Query.eq (fun d => Js.value (Document.status d)) "completed"
              (Query.eq Document.user_id
                 (Js.value (ChatSearch.user_id payload)) (documents (db w))))
    as [|d l] eqn:E; [now elim Hdocuments|].
  reflexivity.
Qed.

(** The credential is missing: status 500. *)
Lemma missing_key_is_an_error :
  Js.truthy (OPENAI_API_KEY env) = false ->
  ChatSearch.serve env faults req w
  = (Returned {| status := 500;
                 body := FailedResults "OPENAI_API_KEY is not configured"
                                       [] |}, w).
Proof.
  intros Hkey. unfold ChatSearch.serve.
  apply String.eqb_neq in Hmethod. rewrite Hmethod.
  unfold try_catch. rewrite try_block_with_documents, Hkey. reflexivity.
Qed.

(** The embedding service answers with an HTTP error: status 500. *)
Lemma http_error_is_an_error (r : HttpResponse) :
  Js.truthy (OPENAI_API_KEY env) = true ->
  http env (List.length (calls w)) request = Resolved r ->
  ok r = false ->
  fst (ChatSearch.serve env faults req w)
  = Returned {| status := 500;
                body := FailedResults
                          ("Failed to generate embedding: "
                           ++ Js.string_of_Z (http_status r)) [] |}.
Proof.
  intros Hkey Hhttp Hok. unfold ChatSearch.serve.
  apply String.eqb_neq in Hmethod. rewrite Hmethod.
  unfold try_catch. rewrite try_block_with_documents, Hkey.
  cbn [negb]. unfold bind at 1. unfold fetch at 1.
  rewrite Hhttp, Hok. reflexivity.
Qed.

End Search.

End ChatSearchFacts.

(* ================================================================== *)
(** * The handlers at work on the small deployment *)

Module Runs.

(** A text of 2500 code units is cut into chunks of 1000, 1000 and 500
    code units. *)
Example chunks_of_2500 :
  option_map (map String.length)
             (Chunker.split (Example.repeat_char (ascii_of_nat 120) 2500))
  = Some [1000; 1000; 500].
Proof. vm_compute. reflexivity. Qed.

(** Ingestion of the two-chunk text: both chunks stored with
    [chunk_index] 0 and 1, the document completed. *)
Example ingest_two_chunks :
  let run := ProcessDocument.serve
               (Example.env (Some "sk-test") Example.notes
                            (Example.failing_at 7))
               Example.ingest (Example.world "text/plain") in
  fst run = Returned {| status := 200; body := Ingested true 2 |}
  /\ map (fun c => (String.length (Chunk.content c), Chunk.metadata c))
         (document_chunks (db (snd run)))
     = [(1000, Some {| Chunk.chunk_index := 0 |});
        (1, Some {| Chunk.chunk_index := 1 |})]
  /\ map (fun d => (Document.status d, Document.processing_progress d))
         (documents (db (snd run)))
     = [(Some "completed", Some 100%Z)].
Proof. vm_compute. repeat split. Qed.

(** The query vector is closest to the chunk of [doc-c], but only
    [doc-a] is allowed: the search returns nothing of [doc-c]. *)
Example search_skips_other_documents :
  let env := Example.env (Some "sk-test") "" (Example.embedding_is []) in
  map Search.content
      (Search.match_document_chunks env
         (document_chunks Example.bound_database) (Some [1%Q; 1%Q])
         (3 # 10) 5 ["doc-a"])
  = ["Alpha"]
  /\ map Search.content
         (Search.match_document_chunks env
            (document_chunks Example.bound_database) (Some [0%Q; 1%Q])
            (3 # 10) 5 ["doc-a"; "doc-c"])
     = ["Gamma"].
Proof. vm_compute. split; reflexivity. Qed.

(** chat-search with the embedding service down: status 500. *)
Example search_with_embeddings_down :
  fst (ChatSearch.serve
         (Example.env (Some "sk-test") "" Example.embeddings_down)
         Scenario.no_faults
         {| method := "POST"; authorization := None;
            json := Returned {| ChatSearch.user_id := Some "user-1";
                                ChatSearch.search_query := Some "alpha" |} |}
         Example.bound_world)
  = Returned {| status := 500;
                body := FailedResults "Failed to generate embedding: 503"
                                      [] |}.
Proof. vm_compute. reflexivity. Qed.

End Runs.

(* ================================================================== *)
(** * More about the chunker: the size of the chunks *)

Module ChunkSizeFacts.

Import StringFacts ChunkerFacts.

Lemma length_substring (s : string) (a m : nat) :
  String.length (substring a m s) = Nat.min m (String.length s - a).
Proof.
  revert a m; induction s as [|c s IH]; intros a m.
  - destruct a, m; reflexivity.
  - destruct a as [|a].
    + destruct m as [|m]; simpl; [reflexivity|].
      rewrite (IH 0 m). now rewrite Nat.sub_0_r.
    + simpl. apply IH.
Qed.

Lemma length_concat_all (l : list string) :
  String.length (Js.concat_all l) = list_sum (map String.length l).
Proof.
  induction l as [|x l IH]; simpl; [reflexivity|].
  rewrite <- IH. clear IH.
  induction x as [|c x IHx]; simpl; [reflexivity | now rewrite IHx].
Qed.

Section Sizes.

Variable size : nat.
Hypothesis size_positive : 0 < size.
Variable text : string.

Let L := String.length text.
Let n := Chunker.ceil_div L size.

Lemma length_window (k : nat) :
  String.length (Chunker.window size text k) = Nat.min size (L - k * size).
Proof.
  unfold Chunker.window, Js.slice. rewrite length_substring. fold L. lia.
Qed.

(** A window below the count is not empty and not longer than [size]. *)
Lemma window_bounds (k : nat) :
  k < n -> 1 <= String.length (Chunker.window size text k) <= size.
Proof.
  intros Hk. apply (below_count size size_positive text) in Hk. fold L in Hk.
  rewrite length_window. lia.
Qed.

(** A window before the last one is full. *)
Lemma window_full (k : nat) :
  S k < n -> String.length (Chunker.window size text k) = size.
Proof.
  intros Hk. apply (below_count size size_positive text) in Hk. fold L in Hk.
  rewrite length_window. lia.
Qed.

End Sizes.

(** X1.  Every chunk the chunker returns holds between 1 and 1000 code
    units, every chunk but the last holds exactly 1000, and the lengths
    of the chunks add up to the length of the text. *)
Theorem chunk_sizes (text : string) :
  exists chunks : list string,
    Chunker.split text = Some chunks
    /\ Forall (fun chunk => 1 <= String.length chunk <= Chunker.chunkSize)
              chunks
    /\ Forall (fun chunk => String.length chunk = Chunker.chunkSize)
              (removelast chunks)
    /\ list_sum (map String.length chunks) = String.length text.
Proof.
  set (C := Chunker.chunkSize).
  set (n := Chunker.ceil_div (String.length text) C).
  exists (map (Chunker.window C text) (seq 0 n)).
  split; [apply (split_with_windows _ chunkSize_positive text)|].
  split; [|split].
  - apply Forall_forall. intros chunk Hin.
    apply in_map_iff in Hin. destruct Hin as (k & <- & Hk).
    apply in_seq in Hk.
    apply (window_bounds C chunkSize_positive text). fold n. lia.
  - destruct n as [|m] eqn:En; [constructor|].
    rewrite seq_S, map_app. simpl map. rewrite removelast_last.
    apply Forall_forall. intros chunk Hin.
    apply in_map_iff in Hin. destruct Hin as (k & <- & Hk).
    apply in_seq in Hk.
    apply (window_full C chunkSize_positive text). fold n. lia.
  - rewrite <- length_concat_all. subst n C.
    now rewrite (windows_cover _ chunkSize_positive text).
Qed.

End ChunkSizeFacts.

(* ================================================================== *)
(** * More about the similarity search: threshold, cap, order *)

Module SearchOrderFacts.

Import QueryFacts.

Section Sorting.

Variable A : Type.
Variable leb : A -> A -> bool.
Variable P : A -> Prop.

Hypothesis total :
  forall x y, P x -> P y -> leb x y = false -> leb y x = true.
Hypothesis transitive :
  forall x y z, P x -> P y -> P z ->
                leb x y = true -> leb y z = true -> leb x z = true.

Let R (a b : A) : Prop := leb a b = true.

Lemma insert_by_sorted (x : A) (l : list A) :
  P x -> Forall P l -> StronglySorted R l ->
  StronglySorted R (Query.insert_by leb x l).
Proof.
  intros Hx HP Hs. induction Hs as [|y l Hs IH Hy]; simpl.
  - repeat constructor.
  - inversion HP as [|? ? HPy HPl]; subst.
    destruct (leb x y) eqn:E.
    + constructor; [now constructor|].
      constructor; [exact E|].
      rewrite Forall_forall in *. intros z Hz.
      apply (transitive x y z); auto. now apply Hy.
    + constructor; [now apply IH|].
      apply Forall_insert_by; [|exact Hy].
      now apply total.
Qed.

Lemma order_by_sorted (l : list A) :
  Forall P l -> StronglySorted R (Query.order_by leb l).
Proof.
  unfold Query.order_by.
  induction 1 as [|x l Hx Hl IH]; simpl; [constructor|].
  apply insert_by_sorted; [exact Hx| |exact IH].
  now apply Forall_order_by.
Qed.

End Sorting.

Lemma In_insert_by (A : Type) (leb : A -> A -> bool) (x y : A) (l : list A) :
  In y (Query.insert_by leb x l) <-> y = x \/ In y l.
Proof.
  induction l as [|z l IH]; simpl.
  - intuition.
  - destruct (leb x z); simpl; [intuition|]. rewrite IH. intuition.
Qed.

Lemma In_order_by (A : Type) (leb : A -> A -> bool) (y : A) (l : list A) :
  In y (Query.order_by leb l) <-> In y l.
Proof.
  unfold Query.order_by. induction l as [|x l IH]; simpl; [reflexivity|].
  rewrite In_insert_by, IH. intuition.
Qed.

Lemma In_firstn_incl (A : Type) (n : nat) (l : list A) (x : A) :
  In x (firstn n l) -> In x l.
Proof.
  revert n; induction l as [|y l IH]; intros [|n]; simpl; try tauto.
  intros [H|H]; [now left | right; eauto].
Qed.

Lemma In_skipn_incl (A : Type) (n : nat) (l : list A) (x : A) :
  In x (skipn n l) -> In x l.
Proof.
  revert n; induction l as [|y l IH]; intros [|n]; simpl; try tauto.
  intros H. right. eauto.
Qed.

Lemma StronglySorted_firstn (A : Type) (R : A -> A -> Prop) (n : nat)
      (l : list A) :
  StronglySorted R l -> StronglySorted R (firstn n l).
Proof.
  intros H; revert n. induction H as [|x l Hs IH Hx]; intros [|n]; simpl;
    try constructor.
  - apply IH.
  - rewrite Forall_forall in *. intros y Hy. apply Hx.
    eapply In_firstn_incl; exact Hy.
Qed.

Lemma StronglySorted_map (A B : Type) (f : A -> B) (R : B -> B -> Prop)
      (l : list A) :
  StronglySorted (fun a b => R (f a) (f b)) l -> StronglySorted R (map f l).
Proof.
  induction 1 as [|x l Hs IH Hx]; simpl; constructor; [exact IH|].
  now apply Forall_map.
Qed.

(** In a sorted list every row of a prefix comes before every row after
    the prefix. *)
Lemma StronglySorted_cut (A : Type) (R : A -> A -> Prop) (n : nat)
      (l : list A) :
  StronglySorted R l ->
  Forall (fun a => Forall (R a) (skipn n l)) (firstn n l).
Proof.
  intros H; revert n. induction H as [|x l Hs IH Hx]; intros [|n]; simpl;
    try constructor.
  - rewrite Forall_forall in *. intros y Hy. apply Hx.
    eapply In_skipn_incl; exact Hy.
  - apply IH.
Qed.

Lemma leb_total (x y : Float8.t) :
  Float8.leb x y = false -> Float8.leb y x = true.
Proof.
  destruct x as [a|], y as [b|]; simpl; try discriminate; try reflexivity.
  intros H. apply Qle_bool_iff. apply Qlt_le_weak, Qnot_le_lt.
  intros Hle. apply Qle_bool_iff in Hle. congruence.
Qed.

Lemma leb_transitive (x y z : Float8.t) :
  Float8.leb x y = true -> Float8.leb y z = true -> Float8.leb x z = true.
Proof.
  destruct x as [a|], y as [b|], z as [c|]; simpl;
    try discriminate; try reflexivity.
  intros H1 H2. apply Qle_bool_iff in H1, H2. apply Qle_bool_iff.
  now apply Qle_trans with b.
Qed.

(** [x > t] for a number [t]: [x] is a number above [t], or NaN. *)
Lemma gtb_number (x : Float8.t) (t : Q) :
  Float8.gtb x (Float8.Num t) = true ->
  match x with
  | Float8.Num s => (t < s)%Q
  | Float8.NaN => True
  end.
Proof.
  destruct x as [s|]; simpl; [|trivial].
  intros H. apply negb_true_iff in H.
  apply Qnot_le_lt. intros Hle. apply Qle_bool_iff in Hle. congruence.
Qed.

Section Search.

Variable env : Env.
Variable query_embedding : option vector.
Variable match_threshold : Q.
Variable filter_document_ids : list string.

(** The rows the WHERE clause selects have a distance, and their
    similarity is a number above the threshold, or NaN. *)
Lemma selected_distance (c : Chunk.t) :
  Search.selected env query_embedding match_threshold filter_document_ids c
  = true ->
  exists d : Float8.t,
    Search.distance env query_embedding c = Some d
    /\ match Float8.one_minus d with
       | Float8.Num s => (match_threshold < s)%Q
       | Float8.NaN => True
       end.
Proof.
  unfold Search.selected. intros H.
  apply andb_true_iff in H. destruct H as [_ H].
  destruct (Search.distance env query_embedding c) as [d|]; [|discriminate].
  exists d. split; [reflexivity|]. now apply gtb_number.
Qed.

Lemma closer_total (x y : Chunk.t) :
  (exists d, Search.distance env query_embedding x = Some d) ->
  (exists d, Search.distance env query_embedding y = Some d) ->
  Search.closer env query_embedding x y = false ->
  Search.closer env query_embedding y x = true.
Proof.
  unfold Search.closer. intros [dx ->] [dy ->]. apply leb_total.
Qed.

Lemma closer_transitive (x y z : Chunk.t) :
  (exists d, Search.distance env query_embedding x = Some d) ->
  (exists d, Search.distance env query_embedding y = Some d) ->
  (exists d, Search.distance env query_embedding z = Some d) ->
  Search.closer env query_embedding x y = true ->
  Search.closer env query_embedding y z = true ->
  Search.closer env query_embedding x z = true.
Proof.
  unfold Search.closer. intros [dx ->] [dy ->] [dz ->].
  apply leb_transitive.
Qed.

(** A closer chunk ranks at least as high. *)
Lemma closer_similarity (x y : Chunk.t) :
  (exists d, Search.distance env query_embedding x = Some d) ->
  (exists d, Search.distance env query_embedding y = Some d) ->
  Search.closer env query_embedding x y = true ->
  Search.ranks_above
    (Search.similarity (Search.to_match env query_embedding x))
    (Search.similarity (Search.to_match env query_embedding y)).
Proof.
  unfold Search.closer, Search.to_match. cbn [Search.similarity].
  intros [dx ->] [dy ->] H.
  destruct dx as [a|], dy as [b|]; simpl in H |- *;
    try discriminate; try exact I.
  apply Qle_bool_iff in H. lra.
Qed.

Variable table : list Chunk.t.

Let candidates : list Chunk.t :=
  Query.order_by (Search.closer env query_embedding)
    (filter (Search.selected env query_embedding match_threshold
                             filter_document_ids) table).

Lemma candidates_selected :
  Forall (fun c =>
            exists d : Float8.t,
              Search.distance env query_embedding c = Some d
              /\ match Float8.one_minus d with
                 | Float8.Num s => (match_threshold < s)%Q
                 | Float8.NaN => True
                 end) candidates.
Proof.
  apply Forall_order_by, Forall_filter.
  intros c _ Hc. now apply selected_distance.
Qed.

Lemma candidates_sorted :
  StronglySorted
    (fun a b => Search.closer env query_embedding a b = true) candidates.
Proof.
  apply order_by_sorted
    with (P := fun c => exists d, Search.distance env query_embedding c
                                  = Some d).
  - apply closer_total.
  - apply closer_transitive.
  - apply Forall_filter. intros c _ Hc.
    destruct (selected_distance c Hc) as (d & Hd & _). now exists d.
Qed.

Lemma candidates_have_distance :
  Forall (fun c => exists d, Search.distance env query_embedding c = Some d)
         candidates.
Proof.
  eapply Forall_impl; [|apply candidates_selected].
  intros c (d & Hd & _). now exists d.
Qed.

End Search.

(** The matches come in the order of the ranking. *)
Lemma matches_sorted (env : Env) (table : list Chunk.t)
      (query_embedding : option vector) (match_threshold : Q)
      (match_count : nat) (filter_document_ids : list string) :
  StronglySorted
    (fun a b => Search.ranks_above (Search.similarity a)
                                   (Search.similarity b))
    (Search.match_document_chunks env table query_embedding match_threshold
       match_count filter_document_ids).
Proof.
  unfold Search.match_document_chunks, Query.limit.
  apply StronglySorted_map.
  pose proof (candidates_sorted env query_embedding match_threshold
                filter_document_ids table) as Hsorted.
  pose proof (candidates_have_distance env query_embedding match_threshold
                filter_document_ids table) as Hdistance.
  cbv zeta in Hsorted, Hdistance.
  set (candidates := Query.order_by _ _) in *.
  assert (Hfirst : Forall (fun c => exists d,
                               Search.distance env query_embedding c
                               = Some d) (firstn match_count candidates)).
  { apply Forall_forall. intros c Hc.
    rewrite Forall_forall in Hdistance. apply Hdistance.
    eapply In_firstn_incl; exact Hc. }
  apply (StronglySorted_firstn _ _ match_count) in Hsorted.
  induction Hsorted as [|x l Hs IH Hx]; constructor.
  - apply IH. now inversion Hfirst.
  - inversion Hfirst as [|? ? Px Pl]; subst.
    rewrite Forall_forall in *. intros y Hy.
    apply closer_similarity; auto.
Qed.

(** X2.  Every row the similarity search returns has a similarity that
    is a number strictly above [match_threshold], or NaN (the distance
    of a zero vector, which PostgreSQL takes as above every number);
    and that similarity is one minus the distance between the stored
    embedding and the query. *)
Theorem search_results_above_threshold
        (env : Env) (table : list Chunk.t) (query_embedding : option vector)
        (match_threshold : Q) (match_count : nat)
        (filter_document_ids : list string) :
  Forall (fun m : Search.Match =>
            match Search.similarity m with
            | Float8.Num s => (match_threshold < s)%Q
            | Float8.NaN => True
            end
            /\ exists (c : Chunk.t) (e q : vector),
                In c table
                /\ Chunk.embedding c = Some e
                /\ query_embedding = Some q
                /\ Search.id m = Chunk.id c
                /\ Search.similarity m
                   = Float8.one_minus (cosine_distance env e q))
         (Search.match_document_chunks env table query_embedding
            match_threshold match_count filter_document_ids).
Proof.
  unfold Search.match_document_chunks.
  apply Forall_map, Forall_limit, Forall_order_by, Forall_filter.
  intros c Hin Hc.
  destruct (selected_distance env query_embedding match_threshold
              filter_document_ids c Hc) as (d & Hd & Hlt).
  unfold Search.to_match. cbn [Search.similarity Search.id]. rewrite Hd.
  split; [exact Hlt|].
  unfold Search.distance in Hd.
  destruct (Chunk.embedding c) as [e|] eqn:He; [|discriminate].
  destruct query_embedding as [q|]; [|discriminate].
  injection Hd as <-. exists c, e, q. auto.
Qed.

(** X3.  The similarity search returns at most [match_count] rows, in
    the order of [ORDER BY] on the distance: the rows whose similarity
    is a number come first, in the order of non-increasing similarity,
    and the rows whose similarity is NaN come last. *)
Theorem search_results_capped_and_ordered
        (env : Env) (table : list Chunk.t) (query_embedding : option vector)
        (match_threshold : Q) (match_count : nat)
        (filter_document_ids : list string) :
  let results :=
    Search.match_document_chunks env table query_embedding match_threshold
      match_count filter_document_ids in
  List.length results <= match_count
  /\ StronglySorted
       (fun a b =>
          match Search.similarity a, Search.similarity b with
          | Float8.Num x, Float8.Num y => (y <= x)%Q
          | _, Float8.NaN => True
          | Float8.NaN, Float8.Num _ => False
          end) results.
Proof.
  split.
  - unfold Search.match_document_chunks, Query.limit.
    rewrite length_map, length_firstn. lia.
  - apply (matches_sorted env table query_embedding match_threshold
             match_count filter_document_ids).
Qed.

(** X4.  The rows returned are the closest ones: a stored chunk of an
    allowed document whose similarity is above the threshold is either
    returned, or the result is full ([match_count] rows) and every
    returned row is at least as similar as that chunk (its similarity
    is a number not below the chunk's; only a chunk whose own
    similarity is NaN ranks below every row). *)
Theorem search_returns_the_closest
        (env : Env) (table : list Chunk.t) (query_embedding : option vector)
        (match_threshold : Q) (match_count : nat)
        (filter_document_ids : list string) (c : Chunk.t) :
  In c table ->
  Search.selected env query_embedding match_threshold filter_document_ids c
  = true ->
  let results :=
    Search.match_document_chunks env table query_embedding match_threshold
      match_count filter_document_ids in
  In (Search.to_match env query_embedding c) results
  \/ (List.length results = match_count
      /\ Forall (fun m =>
                   Search.ranks_above
                     (Search.similarity m)
                     (Search.similarity
                        (Search.to_match env query_embedding c))) results).
Proof.
  intros Hin Hc. unfold Search.match_document_chunks, Query.limit.
  pose proof (candidates_sorted env query_embedding match_threshold
                filter_document_ids table) as Hsorted.
  pose proof (candidates_have_distance env query_embedding match_threshold
                filter_document_ids table) as Hdistance.
  cbv zeta in Hsorted, Hdistance.
  set (candidates := Query.order_by _ _) in *.
  assert (Hcand : In c candidates).
  { apply In_order_by, filter_In. auto. }
  rewrite <- (firstn_skipn match_count candidates) in Hcand.
  apply in_app_or in Hcand. destruct Hcand as [Hfirst | Hrest].
  - left. now apply in_map.
  - right. split.
    + rewrite length_map, length_firstn.
      assert (match_count < List.length candidates); [|lia].
      destruct (Nat.lt_ge_cases match_count (List.length candidates))
        as [H|H]; [exact H|].
      rewrite skipn_all2 in Hrest by exact H. contradiction.
    + apply Forall_map.
      pose proof (StronglySorted_cut _ _ match_count _ Hsorted) as Hcut.
      rewrite Forall_forall in *. intros x Hx.
      apply closer_similarity.
      * apply Hdistance. eapply In_firstn_incl; exact Hx.
      * apply Hdistance. eapply In_skipn_incl; exact Hrest.
      * specialize (Hcut x Hx). rewrite Forall_forall in Hcut. now apply Hcut.
Qed.

Lemma search_returns_the_closest_witness :
  let env := Example.env (Some "sk-test") "" (Example.embedding_is []) in
  let c := Example.chunk "chunk-a" "doc-a" "Alpha" [1%Q; 0%Q] in
  In (Search.to_match env (Some [1%Q; 1%Q]) c)
     (Search.match_document_chunks env
        (document_chunks Example.bound_database) (Some [1%Q; 1%Q])
        (3 # 10) 1 ["doc-a"; "doc-c"])
  \/ (List.length
        (Search.match_document_chunks env
           (document_chunks Example.bound_database) (Some [1%Q; 1%Q])
           (3 # 10) 1 ["doc-a"; "doc-c"]) = 1
      /\ Forall (fun m =>
                   Search.ranks_above
                     (Search.similarity m)
                     (Search.similarity
                        (Search.to_match env (Some [1%Q; 1%Q]) c)))
                (Search.match_document_chunks env
                   (document_chunks Example.bound_database)
                   (Some [1%Q; 1%Q]) (3 # 10) 1 ["doc-a"; "doc-c"])).
Proof.
  intros env c.
  apply (search_returns_the_closest env
           (document_chunks Example.bound_database) (Some [1%Q; 1%Q])
           (3 # 10) 1 ["doc-a"; "doc-c"] c).
  - left. reflexivity.
  - reflexivity.
Defined.

Lemma filter_nothing (A : Type) (keep : A -> bool) (l : list A) :
  (forall x, In x l -> keep x = false) -> filter keep l = [].
Proof.
  induction l as [|x l IH]; intros H; simpl; [reflexivity|].
  rewrite (H x (or_introl eq_refl)). apply IH.
  intros y Hy. apply H. now right.
Qed.

(** X5.  Without a query vector, without allowed documents, or with a
    cap of zero, the similarity search returns no row. *)
Theorem search_needs_query_and_documents
        (env : Env) (table : list Chunk.t) (query_embedding : option vector)
        (match_threshold : Q) (match_count : nat)
        (filter_document_ids : list string) :
  Search.match_document_chunks env table None match_threshold match_count
    filter_document_ids = []
  /\ Search.match_document_chunks env table query_embedding match_threshold
       match_count [] = []
  /\ Search.match_document_chunks env table query_embedding match_threshold
       0 filter_document_ids = [].
Proof.
  unfold Search.match_document_chunks, Query.limit. repeat split.
  - rewrite filter_nothing; [simpl; now rewrite firstn_nil|].
    intros c _. unfold Search.selected, Search.distance.
    destruct (Chunk.embedding c); apply andb_false_r.
  - rewrite filter_nothing; [simpl; now rewrite firstn_nil|].
    intros c _. reflexivity.
Qed.

End SearchOrderFacts.

(* ================================================================== *)
(** * process-document: what every run keeps *)

Module IngestionFacts.

Import QueryFacts ChunkerFacts ProcessDocumentFacts.

Lemma update_document_ext (id : string) (f g : Document.t -> Document.t)
      (rows : list Document.t) :
  (forall d, f d = g d) ->
  Query.update_document id f rows = Query.update_document id g rows.
Proof.
  intros H. unfold Query.update_document. apply map_ext.
  intros d. now rewrite H.
Qed.

Lemma update_document_nothing (id : string) (rows : list Document.t) :
  Query.update_document id (fun d => d) rows = rows.
Proof.
  unfold Query.update_document. rewrite <- (map_id rows) at 2.
  apply map_ext. intros d. now destruct (Document.id d =? id)%string.
Qed.

(** An update of an id no row has changes nothing. *)
Lemma update_document_absent (id : string) (f : Document.t -> Document.t)
      (rows : list Document.t) :
  Query.eq Document.id id rows = [] ->
  Query.update_document id f rows = rows.
Proof.
  unfold Query.eq, Query.update_document.
  induction rows as [|d rows IH]; simpl; [reflexivity|].
  destruct (Document.id d =? id)%string; [discriminate|].
  intros H. now rewrite IH.
Qed.

Lemma progress_only_keeps_identity (f : Document.t -> Document.t) :
  Effect.progress_only f -> Effect.keeps_identity f.
Proof.
  intros [H | [p H]] d; rewrite H; repeat split.
Qed.

Lemma progress_then_progress (p : Z) (f : Document.t -> Document.t) :
  Effect.progress_only f ->
  Effect.progress_only (fun d => f (Document.set_progress p d)).
Proof.
  intros [H | [q H]].
  - right. exists p. intros d. now rewrite H.
  - right. exists q. intros d. now rewrite H.
Qed.

Lemma same_other_tables_refl (db : Database) : Effect.same_other_tables db db.
Proof. repeat split. Qed.

Section Loop.

Variable env : Env.
Variables id authorization : string.
Variable total : nat.

(** The loop, whatever the embedding service answers: the rows stored
    are those of the accumulator up to the first failure that throws,
    one request is sent per chunk visited, the document's row changes in
    its progress only, and the loop returns exactly when no chunk
    throws. *)
Lemma embed_chunks_effect (chunks : list string) :
  forall (w : World) (p callno table_rows : nat),
    callno = List.length (calls w) ->
    table_rows = List.length (document_chunks (db w)) ->
    let rows := Accumulator.rows env id authorization callno table_rows
                                 p chunks in
    exists (o : Outcome nat) (w' : World) (visited : nat)
           (f : Document.t -> Document.t),
      ProcessDocument.embed_chunks env id authorization total chunks p w
      = (o, w')
      /\ document_chunks (db w') = (document_chunks (db w) ++ rows)%list
      /\ documents (db w') = Query.update_document id f (documents (db w))
      /\ Effect.progress_only f
      /\ Effect.same_other_tables (db w) (db w')
      /\ calls w'
         = (calls w
            ++ map (Accumulator.request authorization)
                   (firstn visited chunks))%list
      /\ (Accumulator.clean env authorization callno chunks = true ->
          o = Returned
                (Accumulator.processed env authorization callno p chunks))
      /\ (Accumulator.clean env authorization callno chunks = false ->
          forall m, o <> Returned m).
Proof.
  induction chunks as [|chunk rest IH];
    intros w p callno table_rows Hc Hr rows.
  - exists (Returned p), w, 0, (fun d => d). subst rows. simpl.
    rewrite !app_nil_r, update_document_nothing.
    repeat split; try reflexivity; try (now left); discriminate.
  - subst rows. simpl.
    unfold bind at 1. unfold fetch at 1.
    unfold Accumulator.step.
    fold (Accumulator.request authorization chunk).
    rewrite <- Hc.
    destruct (http env callno (Accumulator.request authorization chunk))
      as [e|r].
    { eexists (Thrown e), _, 1, (fun d => d). simpl.
      rewrite app_nil_r, update_document_nothing. cbn [db calls].
      repeat split; try reflexivity; try (now left); try discriminate. }
    destruct (ok r) eqn:Hok; simpl.
    + unfold bind at 1. unfold lift at 1.
      destruct (json_embedding r) as [e|e|] eqn:Hjson.
      * unfold bind at 1. unfold ProcessDocument.insert_chunk, modify_db at 1.
        unfold bind at 1.
        unfold ProcessDocument.update_document at 1. unfold modify_db at 1.
        cbn [db calls]. cbv zeta. rewrite <- Hr.
        destruct (insert_error env
                    (ProcessDocument.new_chunk env table_rows id chunk e p))
          eqn:Hrefused.
        -- match goal with
           | |- context [ProcessDocument.embed_chunks _ _ _ _ rest (S p)
                                                      ?w1] =>
               destruct (IH w1 (S p) (S callno) table_rows)
                 as (o & w' & visited & f & Hrun & Hchunks & Hdocs & Hf
                     & Hothers & Hcalls & Hclean & Hdirty)
           end.
           { cbn [calls]. rewrite length_app. simpl. lia. }
           { cbn [db document_chunks with_documents]. exact Hr. }
           exists o, w', (S visited),
             (fun d => f (Document.set_progress
                            (round_percent env (S p) total) d)).
           cbn [calls db document_chunks documents conversations agents
                      contexts messages logs with_documents] in *.
           split; [exact Hrun|].
           split; [exact Hchunks|].
           split; [rewrite Hdocs; apply update_document_twice; reflexivity|].
           split; [now apply progress_then_progress|].
           split; [exact Hothers|].
           split; [rewrite Hcalls, <- app_assoc; reflexivity|].
           split; assumption.
        -- match goal with
           | |- context [ProcessDocument.embed_chunks _ _ _ _ rest (S p)
                                                      ?w1] =>
               destruct (IH w1 (S p) (S callno) (S table_rows))
                 as (o & w' & visited & f & Hrun & Hchunks & Hdocs & Hf
                     & Hothers & Hcalls & Hclean & Hdirty)
           end.
           { cbn [calls]. rewrite length_app. simpl. lia. }
           { cbn [db document_chunks with_documents with_document_chunks].
             rewrite length_app. simpl. lia. }
           exists o, w', (S visited),
             (fun d => f (Document.set_progress
                            (round_percent env (S p) total) d)).
           cbn [calls db document_chunks documents conversations agents
                      contexts messages logs with_documents
                      with_document_chunks] in *.
           split; [exact Hrun|].
           split; [rewrite Hchunks, <- app_assoc; reflexivity|].
           split; [rewrite Hdocs; apply update_document_twice; reflexivity|].
           split; [now apply progress_then_progress|].
           split; [exact Hothers|].
           split; [rewrite Hcalls, <- app_assoc; reflexivity|].
           split; assumption.
      * eexists (Thrown e), _, 1, (fun d => d). simpl.
        rewrite app_nil_r, update_document_nothing. cbn [db calls].
        repeat split; try reflexivity; try (now left); try discriminate.
      * eexists Diverged, _, 1, (fun d => d). simpl.
        rewrite app_nil_r, update_document_nothing. cbn [db calls].
        repeat split; try reflexivity; try (now left); try discriminate.
    + match goal with
      | |- context [ProcessDocument.embed_chunks _ _ _ _ rest p ?w1] =>
          destruct (IH w1 p (S callno) table_rows)
            as (o & w' & visited & f & Hrun & Hchunks & Hdocs & Hf
                & Hothers & Hcalls & Hclean & Hdirty)
      end.
      { cbn [calls]. rewrite length_app. simpl. lia. }
      { exact Hr. }
      exists o, w', (S visited), f.
      cbn [calls db] in *.
      split; [exact Hrun|].
      split; [exact Hchunks|].
      split; [exact Hdocs|].
      split; [exact Hf|].
      split; [exact Hothers|].
      split; [rewrite Hcalls, <- app_assoc; reflexivity|].
      split; assumption.
Qed.

End Loop.

Lemma ingest_nothing (env : Env) (id : string) (w : World) :
  Effect.ingest env id w w [] (fun d => d) [].
Proof.
  unfold Effect.ingest. simpl.
  rewrite !app_nil_r, update_document_nothing.
  repeat split. constructor.
Qed.

Lemma counted_nothing (env : Env) (id : string) : Effect.counted env id 0 [].
Proof.
  split; [exists []; repeat constructor|]. intros _. split; reflexivity.
Qed.

Lemma progress_only_nothing : Effect.progress_only (fun d => d).
Proof. now left. Qed.

(** A table that refuses no row of the document takes every row of a
    run. *)
Lemma accepted_all (env : Env) (id authorization : string)
      (chunks : list string) :
  (forall row, Chunk.document_id row = id -> insert_error env row = false) ->
  forall callno table_rows p,
    Accumulator.accepted env id authorization callno table_rows p chunks
    = true.
Proof.
  intros Htable.
  induction chunks as [|chunk rest IH]; intros callno table_rows p; simpl;
    [reflexivity|].
  destruct (Accumulator.step env authorization callno chunk) as [|e|];
    [apply IH | | reflexivity].
  rewrite Htable by reflexivity. apply IH.
Qed.

Lemma rows_counted (env : Env) (id authorization : string)
      (chunks : list string) (callno table_rows : nat) :
  Effect.counted env id
    (Accumulator.processed env authorization callno 0 chunks)
    (Accumulator.rows env id authorization callno table_rows 0 chunks).
Proof.
  split; [apply rows_numbered|].
  intros Htable.
  destruct (rows_chunk_index env id authorization chunks callno table_rows 0
              (accepted_all env id authorization chunks Htable _ _ _))
    as [Hindex Hcount].
  split; [exact Hindex | now rewrite Hcount].
Qed.

Lemma store_chunks_effect (env : Env) (id : string) (chunks : list string)
      (w : World) :
  exists (o : Outcome Response) (w' : World) (rows : list Chunk.t)
         (f : Document.t -> Document.t) (inputs : list string)
         (processed : nat),
    ProcessDocument.store_chunks env id chunks w = (o, w')
    /\ Effect.ingest env id w w' rows f inputs
    /\ Effect.counted env id processed rows
    /\ Effect.try_ending o processed f.
Proof.
  unfold ProcessDocument.store_chunks.
  destruct (ProcessDocument.key_is_missing (OPENAI_API_KEY env)).
  { exists (Thrown (Js.Error ProcessDocument.key_missing)), w, [],
      (fun d => d), [], 0.
    split; [reflexivity|]. split; [apply ingest_nothing|].
    split; [apply counted_nothing | apply progress_only_nothing]. }
  cbv zeta.
  destruct (ProcessDocument.key_is_invalid (Js.value (OPENAI_API_KEY env))).
  { exists (Thrown (Js.Error ProcessDocument.key_invalid)), w, [],
      (fun d => d), [], 0.
    split; [reflexivity|]. split; [apply ingest_nothing|].
    split; [apply counted_nothing | apply progress_only_nothing]. }
  set (authorization := "Bearer " ++ Js.trim (Js.value (OPENAI_API_KEY env))).
  destruct (embed_chunks_effect env id authorization (List.length chunks)
              chunks w 0 _ _ eq_refl eq_refl)
    as (o & w1 & visited & f & Hrun & Hchunks & Hdocs & Hf & Hothers
        & Hcalls & Hclean & Hdirty).
  pose proof (rows_counted env id authorization chunks
                (List.length (calls w))
                (List.length (document_chunks (db w)))) as Hcounted.
  set (rows := Accumulator.rows env id authorization (List.length (calls w))
                 (List.length (document_chunks (db w))) 0 chunks) in *.
  set (processed := Accumulator.processed env authorization
                      (List.length (calls w)) 0 chunks) in *.
  assert (Howned : Forall (fun c => Chunk.document_id c = id) rows)
    by apply rows_document_id.
  unfold bind at 1. rewrite Hrun.
  destruct o as [m|e|].
  - destruct (Accumulator.clean env authorization (List.length (calls w))
                chunks) eqn:E; [|now elim (Hdirty eq_refl m)].
    specialize (Hclean eq_refl). injection Hclean as ->.
    unfold bind at 1.
    unfold ProcessDocument.update_document, modify_db, ret.
    eexists _, _, rows, (fun d => Document.set_completed (f d)),
      (firstn visited chunks), processed.
    split; [reflexivity|].
    split; [|split; [exact Hcounted|]].
    + unfold Effect.ingest, Effect.same_other_tables in *.
      cbn [db calls document_chunks documents logs conversations agents
              contexts messages with_documents].
      split; [exact Hchunks|]. split; [exact Howned|].
      split; [rewrite Hdocs; apply update_document_twice;
              intros d; apply (progress_only_keeps_identity f Hf d)|].
      split; [exact Hothers | exact Hcalls].
    + split; [reflexivity|].
      intros d. destruct Hf as [Hf | [p Hf]]; now rewrite Hf.
  - exists (Thrown e), w1, rows, f, (firstn visited chunks), processed.
    split; [reflexivity|].
    split; [|split; [exact Hcounted | exact Hf]].
    unfold Effect.ingest. auto.
  - exists Diverged, w1, rows, f, (firstn visited chunks), processed.
    split; [reflexivity|].
    split; [|split; [exact Hcounted | exact Hf]].
    unfold Effect.ingest. auto.
Qed.

Lemma try_block_effect (env : Env) (document_id : option string)
      (w : World) :
  exists (o : Outcome Response) (w' : World) (rows : list Chunk.t)
         (f : Document.t -> Document.t) (inputs : list string)
         (processed : nat),
    ProcessDocument.try_block env document_id w = (o, w')
    /\ Effect.ingest env (Js.value document_id) w w' rows f inputs
    /\ Effect.counted env (Js.value document_id) processed rows
    /\ Effect.try_ending o processed f.
Proof.
  assert (Hstop : forall o : Outcome Response,
             (forall r, o <> Returned r) ->
             exists (o' : Outcome Response) (w' : World) (rows : list Chunk.t)
                    (f : Document.t -> Document.t) (inputs : list string)
                    (processed : nat),
               (o, w) = (o', w')
               /\ Effect.ingest env (Js.value document_id) w w' rows f inputs
               /\ Effect.counted env (Js.value document_id) processed rows
               /\ Effect.try_ending o' processed f).
  { intros o Ho. exists o, w, [], (fun d => d), [], 0.
    split; [reflexivity|]. split; [apply ingest_nothing|].
    split; [apply counted_nothing|].
    destruct o; [now elim (Ho a) | apply progress_only_nothing..]. }
  unfold ProcessDocument.try_block.
  destruct (Js.truthy document_id); cbn [negb]; cbv beta iota.
  2: { apply Hstop. discriminate. }
  unfold bind at 1. unfold get_db at 1. cbv beta iota.
  destruct (Query.document (db w) (Js.value document_id)) as [document|].
  2: { apply Hstop. discriminate. }
  cbv zeta.
  destruct (download_error (download env (Document.file_path document))).
  { apply Hstop. discriminate. }
  destruct (download_data (download env (Document.file_path document)))
    as [fileData|].
  2: { apply Hstop. discriminate. }
  unfold bind at 1. unfold lift at 1.
  destruct (ProcessDocument.extract_text env document fileData) as [text|e|].
  2, 3: apply Hstop; discriminate.
  destruct (Chunker.split text) as [chunks|].
  2: { apply Hstop. discriminate. }
  apply store_chunks_effect.
Qed.

(** Every run of the handler, whatever the request and the services
    do. *)
Lemma serve_effect (env : Env) (req : Request ProcessDocument.Json)
      (w : World) :
  exists (o : Outcome Response) (w' : World) (rows : list Chunk.t)
         (f : Document.t -> Document.t) (inputs : list string)
         (processed : nat),
    ProcessDocument.serve env req w = (o, w')
    /\ Effect.ingest env (Js.value (Effect.named req)) w w' rows f inputs
    /\ Effect.counted env (Js.value (Effect.named req)) processed rows
    /\ Effect.ending req o rows processed f.
Proof.
  unfold ProcessDocument.serve, Effect.ending, Effect.named.
  destruct (method req =? "OPTIONS")%string.
  { exists (Returned {| status := 200; body := NoBody |}), w, [],
      (fun d => d), [], 0.
    split; [reflexivity|]. split; [apply ingest_nothing|].
    split; [apply counted_nothing|]. left. auto. }
  destruct (json req) as [body|e|].
  - unfold try_catch.
    destruct (try_block_effect env (ProcessDocument.document_id body) w)
      as (o & w1 & rows & f & inputs & processed & Hrun & Hingest
          & Hcounted & Hend).
    rewrite Hrun. destruct o as [r|e|].
    + exists (Returned r), w1, rows, f, inputs, processed.
      split; [reflexivity|]. split; [exact Hingest|].
      split; [exact Hcounted|].
      destruct Hend as [-> Hf]. right. left.
      split; [reflexivity|]. split; [|exact Hf].
      (* the block returns only for a truthy id *)
      revert Hrun. unfold ProcessDocument.try_block.
      destruct (Js.truthy (ProcessDocument.document_id body));
        [reflexivity | discriminate].
    + unfold ProcessDocument.catch_block, bind, ret.
      destruct (Js.truthy (ProcessDocument.document_id body)) eqn:Hid.
      * unfold ProcessDocument.update_document, modify_db.
        eexists _, _, rows,
          (fun d => Document.set_failed (Js.message_of e) (f d)), inputs,
          processed.
        split; [reflexivity|].
        split; [|split; [exact Hcounted|]].
        -- unfold Effect.ingest, Effect.same_other_tables in *.
           destruct Hingest as (Hchunks & Howned & Hdocs & Hothers & Hcalls).
           cbn [db calls document_chunks documents logs conversations agents
                   contexts messages with_documents].
           split; [exact Hchunks|]. split; [exact Howned|].
           split; [rewrite Hdocs; apply update_document_twice;
                   intros d; apply (progress_only_keeps_identity f Hend d)|].
           split; [exact Hothers | exact Hcalls].
        -- right. right. exists (Js.message_of e).
           split; [reflexivity|]. exists f. split; [exact Hend|reflexivity].
      * (* without an id the block throws at once *)
        assert (Hw : (@Thrown Response e, w1)
                     = (Thrown (Js.Error "document_id is required"), w)).
        { rewrite <- Hrun. unfold ProcessDocument.try_block.
          now rewrite Hid. }
        injection Hw as -> ->.
        exists (Returned {| status := 500;
                            body := Failed "document_id is required" |}),
          w, [], (fun d => d), [], 0.
        split; [reflexivity|]. split; [apply ingest_nothing|].
        split; [apply counted_nothing|].
        right. right. exists "document_id is required".
        split; [reflexivity|]. auto.
    + exists Diverged, w1, rows, f, inputs, processed.
      split; [reflexivity|]. split; [exact Hingest|].
      split; [exact Hcounted | exact Hend].
  - unfold ProcessDocument.catch_block, bind, ret. cbn [Js.truthy].
    exists (Returned {| status := 500; body := Failed (Js.message_of e) |}),
      w, [], (fun d => d), [], 0.
    split; [reflexivity|]. split; [apply ingest_nothing|].
    split; [apply counted_nothing|].
    right. right. exists (Js.message_of e). split; [reflexivity|]. auto.
  - exists Diverged, w, [], (fun d => d), [], 0.
    split; [reflexivity|]. split; [apply ingest_nothing|].
    split; [apply counted_nothing | apply progress_only_nothing].
Qed.

Lemma ending_keeps_identity (req : Request ProcessDocument.Json)
      (o : Outcome Response) (rows : list Chunk.t) (processed : nat)
      (f : Document.t -> Document.t) :
  Effect.ending req o rows processed f -> Effect.keeps_identity f.
Proof.
  unfold Effect.ending. destruct o as [r|e|]; [|contradiction|].
  - intros [(_ & _ & Hf) | [(_ & _ & Hf) | (message & _ & Hf)]].
    + intros d. rewrite Hf. repeat split.
    + intros d. rewrite Hf. repeat split.
    + destruct (Js.truthy (Effect.named req)).
      * destruct Hf as (g & Hg & Hf). intros d. rewrite Hf.
        destruct (progress_only_keeps_identity g Hg d)
          as (H1 & H2 & H3 & H4 & H5).
        repeat split; assumption.
      * destruct Hf as [_ Hf]. intros d. rewrite Hf. repeat split.
  - apply progress_only_keeps_identity.
Qed.

Lemma update_document_rows (id : string) (f : Document.t -> Document.t)
      (rows : list Document.t) :
  Effect.keeps_identity f ->
  Forall2 (fun d d' =>
             Document.id d' = Document.id d
             /\ Document.user_id d' = Document.user_id d
             /\ Document.file_path d' = Document.file_path d
             /\ Document.mime_type d' = Document.mime_type d
             /\ Document.created_at d' = Document.created_at d
             /\ (Document.id d <> id -> d' = d))
          rows (Query.update_document id f rows).
Proof.
  intros Hf. unfold Query.update_document.
  induction rows as [|d rows IH]; simpl; constructor; [|exact IH].
  destruct (Document.id d =? id)%string eqn:E.
  - apply String.eqb_eq in E.
    destruct (Hf d) as (H1 & H2 & H3 & H4 & H5).
    repeat split; try assumption. congruence.
  - repeat split.
Qed.



(** X7.  Whatever the request and whatever the services answer, a run
    of process-document inserts and deletes no document, keeps the order
    of the rows, changes no row of another document than the requested
    one, and leaves the id, owner, file path, MIME type and creation
    time of every row as they were. *)
Theorem ingestion_changes_one_document
        (env : Env) (req : Request ProcessDocument.Json) (w : World) :
  let w' := snd (ProcessDocument.serve env req w) in
  Forall2 (fun d d' =>
             Document.id d' = Document.id d
             /\ Document.user_id d' = Document.user_id d
             /\ Document.file_path d' = Document.file_path d
             /\ Document.mime_type d' = Document.mime_type d
             /\ Document.created_at d' = Document.created_at d
             /\ (Document.id d <> Js.value (Effect.named req) -> d' = d))
          (documents (db w)) (documents (db w')).
Proof.
  destruct (serve_effect env req w)
    as (o & w1 & rows & f & inputs & processed & Hrun & Hingest & _ & Hend).
  rewrite Hrun. cbn [snd].
  destruct Hingest as (_ & _ & -> & _).
  apply update_document_rows.
  now apply (ending_keeps_identity req o rows processed f).
Qed.

(** ** Runs that end *)

Section Answers.

Variable env : Env.

Hypothesis Hsettles : Service.settles env.





End Answers.



(** ** Runs that reach the embedding loop *)

Section Embedding.

Variable env : Env.
Variables id authorization : string.
Variable total : nat.

(** The loop stops at the first request that is rejected. *)
Lemma embed_chunks_rejected (e : Js.Exn) (chunks : list string) :
  forall (w : World) (p callno k : nat),
    callno = List.length (calls w) ->
    (forall j chunk,
        j < k -> nth_error chunks j = Some chunk ->
        exists v, Accumulator.step env authorization (callno + j) chunk
                  = Accumulator.Embedded v) ->
    (exists chunk,
        nth_error chunks k = Some chunk
        /\ http env (callno + k) (Accumulator.request authorization chunk)
           = Rejected e) ->
    fst (ProcessDocument.embed_chunks env id authorization total chunks p w)
    = Thrown e.
Proof.
  induction chunks as [|chunk rest IH]; intros w p callno k Hc Hbefore Hat.
  - destruct Hat as (c & Hc' & _). destruct k; discriminate.
  - simpl. unfold bind at 1. unfold fetch at 1.
    fold (Accumulator.request authorization chunk). rewrite <- Hc.
    destruct k as [|k].
    + destruct Hat as (c & Hn & Hhttp). injection Hn as <-.
      rewrite Nat.add_0_r in Hhttp. now rewrite Hhttp.
    + destruct (Hbefore 0 chunk (Nat.lt_0_succ k) eq_refl) as [v Hv].
      rewrite Nat.add_0_r in Hv. unfold Accumulator.step in Hv.
      destruct (http env callno (Accumulator.request authorization chunk))
        as [e'|r]; [discriminate|].
      destruct (ok r); [|discriminate]. simpl.
      destruct (json_embedding r) as [v'| |]; try discriminate.
      unfold bind at 1. unfold lift at 1.
      unfold bind at 1. unfold ProcessDocument.insert_chunk, modify_db at 1.
      unfold bind at 1.
      unfold ProcessDocument.update_document at 1. unfold modify_db at 1.
      apply (IH _ (S p) (S callno) k).
      * cbn [calls]. rewrite length_app. simpl. lia.
      * intros j c Hj Hn.
        specialize (Hbefore (S j) c (proj1 (Nat.succ_lt_mono j k) Hj) Hn).
        now rewrite Nat.add_succ_r in Hbefore.
      * destruct Hat as (c & Hn & Hhttp). exists c. split; [exact Hn|].
        now rewrite Nat.add_succ_r in Hhttp.
Qed.

(** The rows stored before a chunk that makes the loop throw, when the
    table takes the rows of the chunks before it. *)
Lemma rows_until_aborted (chunks : list string) :
  forall (callno table_rows p k : nat),
    (forall j chunk,
        j < k -> nth_error chunks j = Some chunk ->
        exists v,
          Accumulator.step env authorization (callno + j) chunk
          = Accumulator.Embedded v
          /\ forall row,
              Chunk.content row = chunk -> Chunk.embedding row = v ->
              insert_error env row = false) ->
    (exists chunk,
        nth_error chunks k = Some chunk
        /\ Accumulator.step env authorization (callno + k) chunk
           = Accumulator.Aborted) ->
    map Chunk.content
        (Accumulator.rows env id authorization callno table_rows p chunks)
    = firstn k chunks.
Proof.
  induction chunks as [|chunk rest IH];
    intros callno table_rows p k Hbefore Hat.
  - destruct Hat as (c & Hc' & _). destruct k; discriminate.
  - simpl. destruct k as [|k].
    + destruct Hat as (c & Hn & Hstep). injection Hn as <-.
      rewrite Nat.add_0_r in Hstep. now rewrite Hstep.
    + destruct (Hbefore 0 chunk (Nat.lt_0_succ k) eq_refl) as (v & Hv & Hrow).
      rewrite Nat.add_0_r in Hv. rewrite Hv.
      assert (Htaken : insert_error env
                         (ProcessDocument.new_chunk env table_rows id chunk
                                                    v p) = false)
        by (apply Hrow; reflexivity).
      rewrite Htaken. simpl. f_equal.
      apply IH.
      * intros j c Hj Hn.
        specialize (Hbefore (S j) c (proj1 (Nat.succ_lt_mono j k) Hj) Hn).
        now rewrite Nat.add_succ_r in Hbefore.
      * destruct Hat as (c & Hn & Hstep). exists c. split; [exact Hn|].
        now rewrite Nat.add_succ_r in Hstep.
Qed.

End Embedding.

(** With a usable credential and a clean run: the answer, the rows, the
    document, and the requests sent. *)
Lemma store_chunks_clean_calls (env : Env) (w : World) (id : string)
      (chunks : list string) (key : string) :
  OPENAI_API_KEY env = Some key ->
  ProcessDocument.key_is_missing (Some key) = false ->
  ProcessDocument.key_is_invalid key = false ->
  Accumulator.clean env ("Bearer " ++ Js.trim key)
                    (List.length (calls w)) chunks = true ->
  let rows :=
    Accumulator.rows env id ("Bearer " ++ Js.trim key)
                     (List.length (calls w))
                     (List.length (document_chunks (db w))) 0 chunks in
  exists w' : World,
    ProcessDocument.store_chunks env id chunks w
    = (Returned
         {| status := 200;
            body := Ingested true
                      (Accumulator.processed env ("Bearer " ++ Js.trim key)
                                             (List.length (calls w)) 0
                                             chunks) |}, w')
    /\ document_chunks (db w') = (document_chunks (db w) ++ rows)%list
    /\ documents (db w')
       = Query.update_document id Document.set_completed (documents (db w))
    /\ calls w'
       = (calls w
          ++ map (Accumulator.request ("Bearer " ++ Js.trim key)) chunks)%list.
Proof.
  intros Hkey Hmissing Hinvalid Hclean rows.
  unfold ProcessDocument.store_chunks.
  rewrite Hkey, Hmissing. cbn [Js.value]. cbv zeta. rewrite Hinvalid.
  destruct (embed_chunks_clean env id ("Bearer " ++ Js.trim key)
              (List.length chunks) chunks w 0 _ _ eq_refl eq_refl Hclean)
    as (w1 & Hrun & Hcalls & Hrows & Hdocs).
  unfold bind at 1. rewrite Hrun.
  unfold bind at 1.
  unfold ProcessDocument.update_document, modify_db, ret.
  eexists. split; [reflexivity|].
  cbn [db calls document_chunks documents with_documents].
  split; [exact Hrows|]. split; [exact Hdocs | exact Hcalls].
Qed.

(** X9.  When every embedding request of a run is answered with an
    embedding and the table takes the row of every chunk, the handler
    sends one request per chunk, in order, with the chunk as input; it
    stores every chunk, in order, numbered 0 .. N-1; the stored
    contents joined in that order are the extracted text; and it
    answers [chunks_processed = N]. *)
Theorem full_ingestion_stores_the_text
        (env : Env) (w : World) (req : Request ProcessDocument.Json)
        (id : string) (document : Document.t) (fileData : Blob)
        (text key : string) (chunks : list string) :
  method req <> "OPTIONS" ->
  json req = Returned {| ProcessDocument.document_id := Some id |} ->
  id <> "" ->
  Query.document (db w) id = Some document ->
  download env (Document.file_path document)
  = {| download_data := Some fileData; download_error := None |} ->
  ProcessDocument.extract_text env document fileData = Returned text ->
  Chunker.split text = Some chunks ->
  OPENAI_API_KEY env = Some key ->
  ProcessDocument.key_is_missing (Some key) = false ->
  ProcessDocument.key_is_invalid key = false ->
  (forall j chunk,
      nth_error chunks j = Some chunk ->
      exists (r : HttpResponse) (v : option vector),
        http env (List.length (calls w) + j)
             (EmbeddingsRequest ("Bearer " ++ Js.trim key)
                                "text-embedding-3-small" chunk)
        = Resolved r
        /\ ok r = true
        /\ json_embedding r = Returned v
        /\ forall row,
            Chunk.content row = chunk -> Chunk.embedding row = v ->
            insert_error env row = false) ->
  exists (w' : World) (rows : list Chunk.t),
    ProcessDocument.serve env req w
    = (Returned {| status := 200;
                   body := Ingested true (List.length chunks) |}, w')
    /\ document_chunks (db w') = (document_chunks (db w) ++ rows)%list
    /\ map Chunk.content rows = chunks
    /\ Js.concat_all (map Chunk.content rows) = text
    /\ map Chunk.metadata rows
       = map (fun i => Some {| Chunk.chunk_index := i |})
             (seq 0 (List.length chunks))
    /\ calls w'
       = (calls w
          ++ map (EmbeddingsRequest ("Bearer " ++ Js.trim key)
                                    "text-embedding-3-small") chunks)%list.
Proof.
  intros Hmethod Hjson Hid Hdocument Hdownload Htext Hchunks Hkey Hmissing
         Hinvalid Hcalls.
  set (authorization := "Bearer " ++ Js.trim key) in *.
  destruct (rows_one_skipped env id authorization chunks
              (List.length (calls w))
              (List.length (document_chunks (db w))) 0 (List.length chunks))
    as (Hclean & Haccepted & Hrows).
  { intros j chunk Hj.
    assert (j < List.length chunks) by (apply nth_error_Some; congruence).
    replace (j =? List.length chunks) with false
      by (symmetry; apply Nat.eqb_neq; lia).
    destruct (Hcalls j chunk Hj) as (r & v & Hr & Hok & Hv & Hrow).
    exists v. unfold Accumulator.step, Accumulator.request.
    rewrite Hr, Hok, Hv. split; [reflexivity | exact Hrow]. }
  rewrite firstn_all, skipn_all2, app_nil_r in Hrows by lia.
  destruct (store_chunks_clean_calls env w id chunks key Hkey Hmissing
              Hinvalid Hclean) as (w' & Hrun & Htable & _ & Hsent).
  fold authorization in Hrun, Htable, Hsent.
  destruct (rows_chunk_index env id authorization chunks
              (List.length (calls w))
              (List.length (document_chunks (db w))) 0 Haccepted)
    as [Hindex Hcount].
  set (rows := Accumulator.rows env id authorization
                 (List.length (calls w))
                 (List.length (document_chunks (db w))) 0 chunks) in *.
  assert (Hlen : List.length rows = List.length chunks)
    by (rewrite <- (length_map Chunk.content rows), Hrows; reflexivity).
  exists w', rows.
  rewrite (serve_try_catch env w req id Hmethod Hjson).
  unfold try_catch.
  rewrite (try_block_loaded env w id Hid document fileData text chunks
             Hdocument Hdownload Htext Hchunks).
  rewrite Hrun, Hcount, Hlen.
  split; [reflexivity|]. split; [exact Htable|]. split; [exact Hrows|].
  split; [|split; [rewrite <- Hlen; exact Hindex | exact Hsent]].
  rewrite Hrows.
  unfold Chunker.split in Hchunks.
  rewrite (split_with_windows _ chunkSize_positive text) in Hchunks.
  injection Hchunks as <-.
  apply (windows_cover _ chunkSize_positive text).
Qed.

Lemma full_ingestion_stores_the_text_witness :
  exists (w' : World) (rows : list Chunk.t),
    ProcessDocument.serve
      (Example.env (Some "sk-test") Example.notes (Example.failing_at 9))
      Example.ingest (Example.world "text/plain")
    = (Returned {| status := 200; body := Ingested true 2 |}, w')
    /\ document_chunks (db w') = ([] ++ rows)%list
    /\ map Chunk.content rows
       = [Example.repeat_char (ascii_of_nat 97) 1000; "b"]
    /\ Js.concat_all (map Chunk.content rows) = Example.notes
    /\ map Chunk.metadata rows
       = map (fun i => Some {| Chunk.chunk_index := i |}) (seq 0 2)
    /\ calls w'
       = ([] ++ map (EmbeddingsRequest ("Bearer " ++ Js.trim "sk-test")
                                       "text-embedding-3-small")
                    [Example.repeat_char (ascii_of_nat 97) 1000; "b"])%list.
Proof.
  apply (full_ingestion_stores_the_text
           (Example.env (Some "sk-test") Example.notes (Example.failing_at 9))
           (Example.world "text/plain") Example.ingest "doc-1"
           (Example.document "text/plain") (Example.file Example.notes)
           Example.notes "sk-test"
           [Example.repeat_char (ascii_of_nat 97) 1000; "b"]).
  - discriminate.
  - reflexivity.
  - discriminate.
  - reflexivity.
  - reflexivity.
  - reflexivity.
  - vm_compute. reflexivity.
  - reflexivity.
  - reflexivity.
  - reflexivity.
  - intros [|[|j]] chunk Hj.
    + eexists _, _. split; [reflexivity|]. split; [reflexivity|].
      split; [reflexivity|]. intros row _ Hrow.
      cbn [Example.env insert_error]. rewrite Hrow. reflexivity.
    + eexists _, _. split; [reflexivity|]. split; [reflexivity|].
      split; [reflexivity|]. intros row _ Hrow.
      cbn [Example.env insert_error]. rewrite Hrow. reflexivity.
    + destruct j; discriminate.
Defined.

(** X10.  When the embedding request for the chunk at position [k] is
    rejected (the request itself fails, not an HTTP error answer) after
    the chunks before it were embedded and their rows taken by the
    table, the run stops there: the answer is 500 with the rejection's
    message, the document is [failed] with that message, and the [k]
    chunks stored before stay in [document_chunks] -- nothing is rolled
    back. *)
Theorem rejected_request_fails_without_rollback
        (env : Env) (w : World) (req : Request ProcessDocument.Json)
        (id : string) (document : Document.t) (fileData : Blob)
        (text key : string) (chunks : list string) (k : nat) (e : Js.Exn) :
  method req <> "OPTIONS" ->
  json req = Returned {| ProcessDocument.document_id := Some id |} ->
  id <> "" ->
  Query.document (db w) id = Some document ->
  download env (Document.file_path document)
  = {| download_data := Some fileData; download_error := None |} ->
  ProcessDocument.extract_text env document fileData = Returned text ->
  Chunker.split text = Some chunks ->
  OPENAI_API_KEY env = Some key ->
  ProcessDocument.key_is_missing (Some key) = false ->
  ProcessDocument.key_is_invalid key = false ->
  (forall j chunk,
      j < k -> nth_error chunks j = Some chunk ->
      exists (r : HttpResponse) (v : option vector),
        http env (List.length (calls w) + j)
             (EmbeddingsRequest ("Bearer " ++ Js.trim key)
                                "text-embedding-3-small" chunk)
        = Resolved r
        /\ ok r = true
        /\ json_embedding r = Returned v
        /\ forall row,
            Chunk.content row = chunk -> Chunk.embedding row = v ->
            insert_error env row = false) ->
  (exists chunk,
      nth_error chunks k = Some chunk
      /\ http env (List.length (calls w) + k)
              (EmbeddingsRequest ("Bearer " ++ Js.trim key)
                                 "text-embedding-3-small" chunk)
         = Rejected e) ->
  exists (w' : World) (rows : list Chunk.t) (document' : Document.t),
    ProcessDocument.serve env req w
    = (Returned {| status := 500; body := Failed (Js.message_of e) |}, w')
    /\ document_chunks (db w') = (document_chunks (db w) ++ rows)%list
    /\ map Chunk.content rows = firstn k chunks
    /\ Query.document (db w') id = Some document'
    /\ Document.status document' = Some "failed"
    /\ Document.error_message document' = Some (Js.message_of e).
Proof.
  intros Hmethod Hjson Hid Hdocument Hdownload Htext Hchunks Hkey Hmissing
         Hinvalid Hbefore Hat.
  set (authorization := "Bearer " ++ Js.trim key) in *.
  assert (Hstored : forall j chunk,
             j < k -> nth_error chunks j = Some chunk ->
             exists v,
               Accumulator.step env authorization
                                (List.length (calls w) + j) chunk
               = Accumulator.Embedded v
               /\ forall row,
                   Chunk.content row = chunk -> Chunk.embedding row = v ->
                   insert_error env row = false).
  { intros j chunk Hj Hn.
    destruct (Hbefore j chunk Hj Hn) as (r & v & Hr & Hok & Hv & Hrow).
    exists v. unfold Accumulator.step, Accumulator.request.
    rewrite Hr, Hok, Hv. split; [reflexivity | exact Hrow]. }
  assert (Hembedded : forall j chunk,
             j < k -> nth_error chunks j = Some chunk ->
             exists v,
               Accumulator.step env authorization
                                (List.length (calls w) + j) chunk
               = Accumulator.Embedded v).
  { intros j chunk Hj Hn.
    destruct (Hstored j chunk Hj Hn) as (v & Hv & _). now exists v. }
  destruct (embed_chunks_effect env id authorization (List.length chunks)
              chunks w 0 _ _ eq_refl eq_refl)
    as (o & w1 & visited & f & Hrun & Htable & Hdocs & Hf & _).
  pose proof (embed_chunks_rejected env id authorization
                (List.length chunks) e chunks w 0 _ k eq_refl Hembedded Hat)
    as Hthrown.
  rewrite Hrun in Hthrown. cbn [fst] in Hthrown. subst o.
  set (rows := Accumulator.rows env id authorization (List.length (calls w))
                 (List.length (document_chunks (db w))) 0 chunks) in *.
  exists {| db := with_documents
                    (Query.update_document id
                       (Document.set_failed (Js.message_of e))
                       (documents (db w1))) (db w1);
            calls := calls w1 |}, rows,
    (Document.set_failed (Js.message_of e) (f document)).
  rewrite (serve_try_catch env w req id Hmethod Hjson).
  unfold try_catch.
  rewrite (try_block_loaded env w id Hid document fileData text chunks
             Hdocument Hdownload Htext Hchunks).
  unfold ProcessDocument.store_chunks.
  rewrite Hkey, Hmissing. cbn [Js.value]. cbv zeta. rewrite Hinvalid.
  fold authorization. unfold bind at 1. rewrite Hrun.
  unfold ProcessDocument.catch_block. rewrite (truthy_id id Hid).
  unfold bind, ret, ProcessDocument.update_document, modify_db.
  cbn [Js.value db document_chunks documents with_documents].
  split; [reflexivity|]. split; [exact Htable|].
  split.
  { apply (rows_until_aborted env id authorization chunks
             (List.length (calls w)) _ 0 k Hstored).
    destruct Hat as (chunk & Hn & Hhttp). exists chunk. split; [exact Hn|].
    unfold Accumulator.step, Accumulator.request. now rewrite Hhttp. }
  split; [|split; reflexivity].
  unfold Query.document. cbn [documents with_documents]. rewrite Hdocs.
  apply (document_after_update (db w)); [reflexivity|].
  apply (document_after_update (db w));
    [intros d; apply (progress_only_keeps_identity f Hf d) | exact Hdocument].
Qed.

Lemma rejected_request_fails_without_rollback_witness :
  exists (w' : World) (rows : list Chunk.t) (document' : Document.t),
    ProcessDocument.serve
      (Example.env (Some "sk-test") Scenario.report
                   Scenario.rejecting_second)
      Example.ingest (Example.world "text/plain")
    = (Returned {| status := 500;
                   body := Failed (Js.message_of
                                     (Js.Error "connection reset")) |}, w')
    /\ document_chunks (db w') = ([] ++ rows)%list
    /\ map Chunk.content rows
       = firstn 1 [Example.repeat_char (ascii_of_nat 97) 1000;
                   Example.repeat_char (ascii_of_nat 98) 1000; "c"]
    /\ Query.document (db w') "doc-1" = Some document'
    /\ Document.status document' = Some "failed"
    /\ Document.error_message document'
       = Some (Js.message_of (Js.Error "connection reset")).
Proof.
  apply (rejected_request_fails_without_rollback
           (Example.env (Some "sk-test") Scenario.report
                        Scenario.rejecting_second)
           (Example.world "text/plain") Example.ingest "doc-1"
           (Example.document "text/plain") (Example.file Scenario.report)
           Scenario.report "sk-test"
           [Example.repeat_char (ascii_of_nat 97) 1000;
            Example.repeat_char (ascii_of_nat 98) 1000; "c"] 1
           (Js.Error "connection reset")).
  - discriminate.
  - reflexivity.
  - discriminate.
  - reflexivity.
  - reflexivity.
  - reflexivity.
  - vm_compute. reflexivity.
  - reflexivity.
  - reflexivity.
  - reflexivity.
  - intros [|j] chunk Hj Hn.
    + eexists _, _. split; [reflexivity|]. split; [reflexivity|].
      split; [reflexivity|]. intros row _ Hrow.
      cbn [Example.env insert_error]. rewrite Hrow. reflexivity.
    + exfalso. apply Nat.succ_lt_mono in Hj. inversion Hj.
  - exists (Example.repeat_char (ascii_of_nat 98) 1000).
    split; reflexivity.
Defined.

(** ** Runs that fail before the embedding loop *)

Lemma world_unchanged (w : World) (id : string)
      (f : Document.t -> Document.t) :
  Query.update_document id f (documents (db w)) = documents (db w) ->
  {| db := with_documents
             (Query.update_document id f (documents (db w))) (db w);
     calls := calls w |} = w.
Proof.
  intros ->. destruct w as [[? ? ? ? ? ? ?] ?]. reflexivity.
Qed.

Section Early.

Variable env : Env.
Variable w : World.
Variable req : Request ProcessDocument.Json.
Variable id : string.

Hypothesis Hmethod : method req <> "OPTIONS".
Hypothesis Hjson :
  json req = Returned {| ProcessDocument.document_id := Some id |}.
Hypothesis Hid : id <> "".

(** A [throw] of the [try] block before anything is written: the
    handler records it on the document and answers 500. *)
Lemma serve_fails_early (e : Js.Exn) :
  ProcessDocument.try_block env (Some id) w = (Thrown e, w) ->
  ProcessDocument.serve env req w
  = (Returned {| status := 500; body := Failed (Js.message_of e) |},
     {| db := with_documents
                (Query.update_document id
                   (Document.set_failed (Js.message_of e))
                   (documents (db w))) (db w);
        calls := calls w |}).
Proof.
  intros Hrun.
  rewrite (serve_try_catch env w req id Hmethod Hjson).
  unfold try_catch. rewrite Hrun.
  unfold ProcessDocument.catch_block. rewrite (truthy_id id Hid).
  reflexivity.
Qed.

Variable document : Document.t.
Hypothesis Hdocument : Query.document (db w) id = Some document.

(** What the early failures have in common. *)
Lemma early_failure_recorded (e : Js.Exn) :
  ProcessDocument.try_block env (Some id) w = (Thrown e, w) ->
  exists w' : World,
    ProcessDocument.serve env req w
    = (Returned {| status := 500; body := Failed (Js.message_of e) |}, w')
    /\ calls w' = calls w
    /\ document_chunks (db w') = document_chunks (db w)
    /\ Query.document (db w') id
       = Some (Document.set_failed (Js.message_of e) document).
Proof.
  intros Hrun. rewrite (serve_fails_early e Hrun).
  eexists. split; [reflexivity|].
  cbn [calls db document_chunks with_documents].
  split; [reflexivity|]. split; [reflexivity|].
  unfold Query.document. cbn [documents with_documents].
  apply (document_after_update (db w)); [reflexivity | exact Hdocument].
Qed.

End Early.

(** X11.  A request whose body names no document, or a document that
    is not in the table, is answered 500 ("document_id is required",
    "Document not found") and changes nothing at all: no row is
    written, no request is sent. *)
Theorem request_without_document_changes_nothing
        (env : Env) (w : World) (req : Request ProcessDocument.Json)
        (payload : ProcessDocument.Json) :
  method req <> "OPTIONS" ->
  json req = Returned payload ->
  Js.truthy (ProcessDocument.document_id payload) = false
  \/ Query.eq Document.id (Js.value (ProcessDocument.document_id payload))
              (documents (db w)) = [] ->
  ProcessDocument.serve env req w
  = (Returned
       {| status := 500;
          body :=
            Failed (if Js.truthy (ProcessDocument.document_id payload)
                    then "Document not found"
                    else "document_id is required") |}, w).
Proof.
  intros Hmethod Hjson Hnone.
  unfold ProcessDocument.serve.
  apply String.eqb_neq in Hmethod. rewrite Hmethod, Hjson.
  unfold try_catch, ProcessDocument.try_block.
  destruct (Js.truthy (ProcessDocument.document_id payload)) eqn:Hid.
  - destruct Hnone as [Hnone | Hnone]; [discriminate|].
    cbn [negb]. cbv beta iota.
    unfold bind at 1. unfold get_db at 1. cbv beta iota.
    unfold Query.document. rewrite Hnone. cbn [Query.single].
    unfold throw. cbv beta iota.
    unfold ProcessDocument.catch_block. rewrite Hid.
    unfold bind, ret, ProcessDocument.update_document, modify_db.
    cbn [Js.message_of]. f_equal.
    apply world_unchanged. now apply update_document_absent.
  - cbn [negb]. cbv beta iota. unfold throw.
    unfold ProcessDocument.catch_block. rewrite Hid. reflexivity.
Qed.

Lemma request_without_document_changes_nothing_witness :
  ProcessDocument.serve
    (Example.env (Some "sk-test") "hello" (Example.failing_at 9))
    {| method := "POST"; authorization := None;
       json := Returned {| ProcessDocument.document_id := Some "doc-9" |} |}
    (Example.world "text/plain")
  = (Returned {| status := 500; body := Failed "Document not found" |},
     Example.world "text/plain").
Proof.
  apply (request_without_document_changes_nothing
           (Example.env (Some "sk-test") "hello" (Example.failing_at 9))
           (Example.world "text/plain")
           {| method := "POST"; authorization := None;
              json := Returned
                        {| ProcessDocument.document_id := Some "doc-9" |} |}
           {| ProcessDocument.document_id := Some "doc-9" |}).
  - discriminate.
  - reflexivity.
  - right. reflexivity.
Defined.

(** X12.  When the file cannot be downloaded -- storage reports an
    error, or returns no data -- the document is marked [failed] with
    "Failed to download document: <storage message>" (or "File data is
    empty"), the answer is 500 with the same message, no chunk is stored
    and no embedding request is sent. *)
Theorem download_failure_is_recorded
        (env : Env) (w : World) (req : Request ProcessDocument.Json)
        (id : string) (document : Document.t) :
  method req <> "OPTIONS" ->
  json req = Returned {| ProcessDocument.document_id := Some id |} ->
  id <> "" ->
  Query.document (db w) id = Some document ->
  let file := download env (Document.file_path document) in
  download_error file <> None \/ download_data file = None ->
  let message :=
    match download_error file with
    | Some m => "Failed to download document: " ++ m
    | None => "File data is empty"
    end in
  exists w' : World,
    ProcessDocument.serve env req w
    = (Returned {| status := 500; body := Failed message |}, w')
    /\ calls w' = calls w
    /\ document_chunks (db w') = document_chunks (db w)
    /\ Query.document (db w') id
       = Some (Document.set_failed message document).
Proof.
  intros Hmethod Hjson Hid Hdocument file Hfile message.
  apply (early_failure_recorded env w req id Hmethod Hjson Hid document
           Hdocument (Js.Error message)).
  unfold ProcessDocument.try_block. rewrite (truthy_id id Hid).
  unfold bind at 1. unfold get_db at 1.
  cbn [negb Js.value]. cbv beta iota.
  rewrite Hdocument. cbv beta iota zeta.
  subst message file.
  destruct (download_error (download env (Document.file_path document)));
    [reflexivity|].
  destruct Hfile as [Hfile | ->]; [now elim Hfile | reflexivity].
Qed.

Lemma download_failure_is_recorded_witness :
  exists w' : World,
    ProcessDocument.serve
      (Scenario.with_download
         (Example.env (Some "sk-test") "" (Example.failing_at 9))
         {| download_data := None; download_error := Some "Object not found" |})
      Example.ingest (Example.world "text/plain")
    = (Returned {| status := 500;
                   body := Failed
                             "Failed to download document: Object not found" |},
       w')
    /\ calls w' = []
    /\ document_chunks (db w') = []
    /\ Query.document (db w') "doc-1"
       = Some (Document.set_failed
                 "Failed to download document: Object not found"
                 (Example.document "text/plain")).
Proof.
  apply (download_failure_is_recorded
           (Scenario.with_download
              (Example.env (Some "sk-test") "" (Example.failing_at 9))
              {| download_data := None;
                 download_error := Some "Object not found" |})
           (Example.world "text/plain") Example.ingest "doc-1"
           (Example.document "text/plain")).
  - discriminate.
  - reflexivity.
  - discriminate.
  - reflexivity.
  - left. discriminate.
Defined.

(** X13.  A DOCX document whose raw text is blank after [trim], or a
    PDF whose extracted text is the empty string -- one string that is
    blank after [trim], or a list of pages whose join with blank lines
    is empty (no page, or a single empty page) -- is marked [failed]
    with "Failed to parse DOCX: No text could be extracted from DOCX"
    (for a PDF, the PDF message); the answer is 500 with that message,
    no chunk is stored and no embedding request is sent.  The file name
    must not end in ".csv": that branch is tried first.  (The pages of
    a PDF are joined without [trim]: two or more pages without text
    join to line feeds, which is not the empty string, and are not
    covered here.) *)
Theorem document_without_text_is_failed
        (env : Env) (w : World) (req : Request ProcessDocument.Json)
        (id : string) (document : Document.t) (fileData : Blob)
        (message : string) :
  method req <> "OPTIONS" ->
  json req = Returned {| ProcessDocument.document_id := Some id |} ->
  id <> "" ->
  Query.document (db w) id = Some document ->
  download env (Document.file_path document)
  = {| download_data := Some fileData; download_error := None |} ->
  Js.endsWith (Js.toLowerCase (Document.file_path document)) ".csv" = false ->
  (Document.mime_type document = Some ProcessDocument.docx_mime
   /\ (exists value,
          mammoth_extractRawText env (blob_bytes fileData) = Returned value
          /\ Js.trim value = "")
   /\ message = "Failed to parse DOCX: No text could be extracted from DOCX")
  \/ (Document.mime_type document = Some "application/pdf"
      /\ Js.endsWith (Js.toLowerCase (Document.file_path document)) ".docx"
         = false
      /\ (exists extractedText,
             unpdf_extractText env (blob_bytes fileData)
             = Returned extractedText
             /\ match extractedText with
                | Pages pages => Js.join (nl ++ nl) pages
                | Whole text => Js.trim text
                end = "")
      /\ message
         = "Failed to parse PDF: No text could be extracted from PDF - the document may be image-based or encrypted") ->
  exists w' : World,
    ProcessDocument.serve env req w
    = (Returned {| status := 500; body := Failed message |}, w')
    /\ calls w' = calls w
    /\ document_chunks (db w') = document_chunks (db w)
    /\ Query.document (db w') id
       = Some (Document.set_failed message document).
Proof.
  intros Hmethod Hjson Hid Hdocument Hdownload Hcsv Hkind.
  apply (early_failure_recorded env w req id Hmethod Hjson Hid document
           Hdocument (Js.Error message)).
  unfold ProcessDocument.try_block. rewrite (truthy_id id Hid).
  unfold bind at 1. unfold get_db at 1.
  cbn [negb Js.value]. cbv beta iota.
  rewrite Hdocument. cbv beta iota zeta. rewrite Hdownload.
  cbn [download_error download_data].
  unfold bind at 1. unfold lift at 1.
  assert (Hextract : ProcessDocument.extract_text env document fileData
                     = Thrown (Js.Error message)); [|now rewrite Hextract].
  unfold ProcessDocument.extract_text. rewrite Hcsv.
  destruct Hkind as [(Hmime & (value & Hvalue & Hblank) & ->)
                    | (Hmime & Hdocx & (extracted & Hvalue & Hblank) & ->)];
    rewrite Hmime.
  - cbn -[Js.trim]. rewrite Hvalue, Hblank. reflexivity.
  - rewrite Hdocx. cbn -[Js.trim Js.join nl append].
    rewrite Hvalue, Hblank. reflexivity.
Qed.

Lemma document_without_text_is_failed_witness :
  (exists w' : World,
      ProcessDocument.serve
        (Example.env (Some "sk-test") "" (Example.failing_at 9))
        Example.ingest (Example.world ProcessDocument.docx_mime)
      = (Returned
           {| status := 500;
              body := Failed
                        "Failed to parse DOCX: No text could be extracted from DOCX" |},
         w')
      /\ calls w' = []
      /\ document_chunks (db w') = []
      /\ Query.document (db w') "doc-1"
         = Some (Document.set_failed
                   "Failed to parse DOCX: No text could be extracted from DOCX"
                   (Example.document ProcessDocument.docx_mime)))
  /\ (exists w' : World,
         ProcessDocument.serve
           (Example.env (Some "sk-test") "" (Example.failing_at 9))
           Example.ingest (Example.world "application/pdf")
         = (Returned
              {| status := 500;
                 body := Failed
                           "Failed to parse PDF: No text could be extracted from PDF - the document may be image-based or encrypted" |},
            w')
         /\ calls w' = []
         /\ document_chunks (db w') = []
         /\ Query.document (db w') "doc-1"
            = Some (Document.set_failed
                      "Failed to parse PDF: No text could be extracted from PDF - the document may be image-based or encrypted"
                      (Example.document "application/pdf"))).
Proof.
  split.
  - apply (document_without_text_is_failed
             (Example.env (Some "sk-test") "" (Example.failing_at 9))
             (Example.world ProcessDocument.docx_mime) Example.ingest "doc-1"
             (Example.document ProcessDocument.docx_mime) (Example.file "")).
    + discriminate.
    + reflexivity.
    + discriminate.
    + reflexivity.
    + reflexivity.
    + reflexivity.
    + left. split; [reflexivity|]. split; [|reflexivity].
      exists "". split; reflexivity.
  - apply (document_without_text_is_failed
             (Example.env (Some "sk-test") "" (Example.failing_at 9))
             (Example.world "application/pdf") Example.ingest "doc-1"
             (Example.document "application/pdf") (Example.file "")).
    + discriminate.
    + reflexivity.
    + discriminate.
    + reflexivity.
    + reflexivity.
    + reflexivity.
    + right. split; [reflexivity|]. split; [reflexivity|].
      split; [|reflexivity].
      exists (Whole ""). split; reflexivity.
Defined.

(** X14.  A credential that holds a line feed or a carriage return --
    also at its end, where [trim] would remove it -- is refused before
    any request is sent: the document is marked [failed] with
    "OPENAI_API_KEY contains invalid characters", no chunk is stored. *)
Theorem credential_with_line_break_is_refused
        (env : Env) (w : World) (req : Request ProcessDocument.Json)
        (id : string) (document : Document.t) (fileData : Blob)
        (text key : string) :
  method req <> "OPTIONS" ->
  json req = Returned {| ProcessDocument.document_id := Some id |} ->
  id <> "" ->
  Query.document (db w) id = Some document ->
  download env (Document.file_path document)
  = {| download_data := Some fileData; download_error := None |} ->
  ProcessDocument.extract_text env document fileData = Returned text ->
  OPENAI_API_KEY env = Some key ->
  ProcessDocument.key_is_missing (Some key) = false ->
  Js.includes_char key (ascii_of_nat 10) = true
  \/ Js.includes_char key (ascii_of_nat 13) = true ->
  exists w' : World,
    ProcessDocument.serve env req w
    = (Returned {| status := 500;
                   body := Failed "OPENAI_API_KEY contains invalid characters" |},
       w')
    /\ calls w' = calls w
    /\ document_chunks (db w') = document_chunks (db w)
    /\ Query.document (db w') id
       = Some (Document.set_failed
                 "OPENAI_API_KEY contains invalid characters" document).
Proof.
  intros Hmethod Hjson Hid Hdocument Hdownload Htext Hkey Hmissing Hbreak.
  destruct (split_some text) as [chunks Hchunks].
  apply (early_failure_recorded env w req id Hmethod Hjson Hid document
           Hdocument (Js.Error ProcessDocument.key_invalid)).
  rewrite (try_block_loaded env w id Hid document fileData text chunks
             Hdocument Hdownload Htext Hchunks).
  unfold ProcessDocument.store_chunks.
  rewrite Hkey, Hmissing. cbn [Js.value]. cbv zeta.
  unfold ProcessDocument.key_is_invalid.
  destruct Hbreak as [-> | ->]; [reflexivity|].
  now rewrite orb_true_r.
Qed.

Lemma credential_with_line_break_is_refused_witness :
  exists w' : World,
    ProcessDocument.serve
      (Example.env (Some ("sk-test" ++ nl)) "hello" (Example.failing_at 9))
      Example.ingest (Example.world "text/plain")
    = (Returned {| status := 500;
                   body := Failed "OPENAI_API_KEY contains invalid characters" |},
       w')
    /\ calls w' = []
    /\ document_chunks (db w') = []
    /\ Query.document (db w') "doc-1"
       = Some (Document.set_failed
                 "OPENAI_API_KEY contains invalid characters"
                 (Example.document "text/plain")).
Proof.
  apply (credential_with_line_break_is_refused
           (Example.env (Some ("sk-test" ++ nl)) "hello"
                        (Example.failing_at 9))
           (Example.world "text/plain") Example.ingest "doc-1"
           (Example.document "text/plain") (Example.file "hello") "hello"
           ("sk-test" ++ nl)).
  - discriminate.
  - reflexivity.
  - discriminate.
  - reflexivity.
  - reflexivity.
  - reflexivity.
  - reflexivity.
  - reflexivity.
  - left. reflexivity.
Defined.

End IngestionFacts.

(* ================================================================== *)
(** * rag-chat: what every run keeps, and the paths to the chat model *)

Module ChatFacts.

Import QueryFacts RagChatFacts.

Section Steps.

Variable env : Env.
Variable k : RagChat.Knowledge.
Variable message : string.

Let embedding_request : HttpRequest :=
  EmbeddingsRequest ("Bearer " ++ Js.trim (Js.value (OPENAI_API_KEY env)))
                    "text-embedding-3-small" message.

(** The vector search block reads the database and sends at most the
    request that embeds the message. *)
Lemma retrieve_effect (w : World) :
  exists (o : Outcome (bool * string)) (w' : World),
    RagChat.retrieve env k message w = (o, w')
    /\ db w' = db w
    /\ (calls w' = calls w
        \/ calls w' = (calls w ++ [embedding_request])%list).
Proof.
  unfold RagChat.retrieve.
  destruct (RagChat.ragEnabledForConversation k
            && (0 <? List.length (RagChat.documentIds k))).
  2: { eexists _, _. split; [reflexivity|]. auto. }
  destruct (Js.truthy (OPENAI_API_KEY env)).
  2: { eexists _, _. split; [reflexivity|]. auto. }
  unfold bind at 1. unfold fetch at 1. fold embedding_request.
  destruct (http env (List.length (calls w)) embedding_request) as [e|r].
  { eexists _, _. split; [reflexivity|]. cbn [db calls]. auto. }
  destruct (ok r).
  2: { eexists _, _. split; [reflexivity|]. cbn [db calls]. auto. }
  unfold bind at 1. unfold lift at 1.
  destruct (json_embedding r) as [e|e|].
  2, 3: eexists _, _; split; [reflexivity|]; cbn [db calls]; auto.
  unfold bind at 1. unfold get_db at 1. cbn [db].
  destruct (0 <? List.length _);
    eexists _, _; (split; [reflexivity|]); cbn [db calls]; auto.
Qed.

(** The call of the chat model writes nothing and sends at most one
    request, and returns only with status 200. *)
Lemma complete_effect (history : list Message.t)
      (finalSystemPrompt relevantContext : string) (w : World) :
  exists (o : Outcome Response) (w' : World),
    RagChat.complete env k history message finalSystemPrompt relevantContext w
    = (o, w')
    /\ db w' = db w
    /\ (calls w' = calls w
        \/ exists authorization model prompt,
            calls w'
            = (calls w
               ++ [ChatCompletionsRequest authorization model prompt])%list)
    /\ forall r, o = Returned r -> status r = 200%Z.
Proof.
  unfold RagChat.complete.
  destruct (Js.truthy (OPENAI_API_KEY env)); cbn [negb].
  2: { eexists _, _. split; [reflexivity|]. split; [reflexivity|].
       split; [now left | discriminate]. }
  unfold bind at 1. unfold fetch at 1.
  match goal with
  | |- context [http env _ ?request] =>
      destruct (http env (List.length (calls w)) request) as [e|r]
  end.
  { eexists _, _. split; [reflexivity|]. cbn [db calls].
    split; [reflexivity|]. split; [right; eauto | discriminate]. }
  destruct (ok r); cbn [negb].
  2: { eexists _, _. split; [reflexivity|]. cbn [db calls].
       split; [reflexivity|]. split; [right; eauto | discriminate]. }
  unfold bind at 1. unfold lift at 1.
  destruct (json_content r) as [c|e|];
    eexists _, _; (split; [reflexivity|]); cbn [db calls];
    (split; [reflexivity|]); (split; [right; eauto|]);
    try discriminate.
  intros r' [= <-]. reflexivity.
Qed.

End Steps.

(** From the vector search to the answer. *)
Lemma respond_effect (env : Env) (k : RagChat.Knowledge)
      (history : list Message.t) (message : string) (w : World) :
  exists (o : Outcome Response) (w' : World) (sent : list HttpRequest),
    RagChat.respond env k history message w = (o, w')
    /\ db w' = db w
    /\ calls w' = (calls w ++ sent)%list
    /\ Traffic.embedding_then_chat sent
    /\ forall r, o = Returned r -> status r = 200%Z.
Proof.
  unfold RagChat.respond. unfold bind at 1.
  destruct (retrieve_effect env k message w) as (o1 & w1 & -> & Hdb1 & Hcalls1).
  assert (Hstop : forall o : Outcome Response,
             (forall r, o = Returned r -> status r = 200%Z) ->
             exists (o' : Outcome Response) (w' : World)
                    (sent : list HttpRequest),
               (o, w1) = (o', w')
               /\ db w' = db w
               /\ calls w' = (calls w ++ sent)%list
               /\ Traffic.embedding_then_chat sent
               /\ forall r, o' = Returned r -> status r = 200%Z).
  { intros o Ho. destruct Hcalls1 as [Hc | Hc].
    - exists o, w1, []. rewrite app_nil_r. repeat split; auto.
    - eexists o, w1, [_]. repeat split; eauto. exact I. }
  destruct o1 as [found|e|].
  2, 3: apply Hstop; discriminate.
  cbv zeta.
  assert (Hcomplete : forall prompt context,
             exists (o' : Outcome Response) (w' : World)
                    (sent : list HttpRequest),
               RagChat.complete env k history message prompt context w1
               = (o', w')
               /\ db w' = db w
               /\ calls w' = (calls w ++ sent)%list
               /\ Traffic.embedding_then_chat sent
               /\ forall r, o' = Returned r -> status r = 200%Z).
  { intros prompt context.
    destruct (complete_effect env k message history prompt context w1)
      as (o & w2 & -> & Hdb2 & Hcalls2 & Hstatus).
    destruct Hcalls1 as [Hc1 | Hc1];
      destruct Hcalls2 as [Hc2 | (a & m & p & Hc2)].
    - exists o, w2, []. rewrite app_nil_r.
      repeat split; auto; congruence.
    - eexists o, w2, [_].
      split; [reflexivity|]. split; [congruence|].
      split; [rewrite Hc2, Hc1; reflexivity|]. split; [exact I | exact Hstatus].
    - eexists o, w2, [_].
      split; [reflexivity|]. split; [congruence|].
      split; [rewrite Hc2, Hc1; reflexivity|]. split; [exact I | exact Hstatus].
    - eexists o, w2, [_; _].
      split; [reflexivity|]. split; [congruence|].
      split; [rewrite Hc2, Hc1, <- app_assoc; reflexivity|].
      split; [exact I | exact Hstatus]. }
  destruct (RagChat.ragEnabledForConversation k); [|apply Hcomplete].
  destruct (fst found); [apply Hcomplete|].
  destruct (0 <? List.length (RagChat.documentIds k)); [|apply Hcomplete].
  apply Hstop. intros r [= <-]. reflexivity.
Qed.

Lemma same_tables_refl (db : Database) : Traffic.same_tables_but_logs db db.
Proof. repeat split. Qed.

Lemma same_tables_logged (db : Database) :
  Traffic.same_tables_but_logs db (RagChat.log_attempt db).
Proof. repeat split. Qed.

(** The vector search block is left out when RAG is off or no
    document is bound. *)
Lemma retrieve_skipped (env : Env) (k : RagChat.Knowledge) (message : string)
      (w : World) :
  RagChat.ragEnabledForConversation k = false \/ RagChat.documentIds k = [] ->
  RagChat.retrieve env k message w = (Returned (false, ""), w).
Proof.
  intros [Hrag | Hdocuments]; unfold RagChat.retrieve.
  - rewrite Hrag. reflexivity.
  - rewrite Hdocuments. cbn [List.length Nat.ltb Nat.leb].
    rewrite andb_false_r. reflexivity.
Qed.

(** The search runs and selects some chunks. *)
Lemma retrieve_found (env : Env) (k : RagChat.Knowledge) (message : string)
      (w : World) (r : HttpResponse) (e : option vector) :
  let chunks :=
    Search.match_document_chunks env (document_chunks (db w)) e
      RagChat.match_threshold RagChat.match_count (RagChat.documentIds k) in
  RagChat.ragEnabledForConversation k = true ->
  RagChat.documentIds k <> [] ->
  Js.truthy (OPENAI_API_KEY env) = true ->
  http env (List.length (calls w)) (Traffic.embedding_request env message)
  = Resolved r ->
  ok r = true ->
  json_embedding r = Returned e ->
  chunks <> [] ->
  RagChat.retrieve env k message w
  = (Returned (true,
               nl ++ nl ++ "Relevant information from documents:" ++ nl
               ++ Js.join (nl ++ nl) (map Search.content chunks)),
     {| db := db w;
        calls := (calls w ++ [Traffic.embedding_request env message])%list |}).
Proof.
  intros chunks Hrag Hdocuments Hkey Hhttp Hok Hjson Hchunks.
  unfold RagChat.retrieve.
  rewrite Hrag, (has_documents k Hdocuments), Hkey.
  cbn [andb]. unfold bind at 1. unfold fetch at 1.
  fold (Traffic.embedding_request env message). rewrite Hhttp, Hok.
  unfold bind at 1. unfold lift at 1. rewrite Hjson.
  unfold bind at 1. unfold get_db at 1. cbn [db].
  fold chunks.
  destruct chunks as [|c chunks']; [now elim Hchunks|]. reflexivity.
Qed.

(** The retrieved context starts with a line break. *)
Lemma heading_not_empty (s : string) :
  negb (nl ++ s =? "")%string = true.
Proof. reflexivity. Qed.

(** The call of the chat model, case by case. *)
Lemma complete_cases (env : Env) (k : RagChat.Knowledge)
      (history : list Message.t)
      (message finalSystemPrompt relevantContext : string) (w : World) :
  let request :=
    Traffic.chat_request env history message finalSystemPrompt in
  let w1 := {| db := db w; calls := (calls w ++ [request])%list |} in
  RagChat.complete env k history message finalSystemPrompt relevantContext w
  = if Js.truthy (OPENAI_API_KEY env)
    then
      match http env (List.length (calls w)) request with
      | Rejected e => (Thrown e, w1)
      | Resolved response =>
          if ok response
          then
            match json_content response with
            | Returned assistantMessage =>
                (Returned
                   {| status := 200;
                      body :=
                        Answer assistantMessage
                          (RagChat.ragEnabledForConversation k
                           && negb (relevantContext =? "")%string) |}, w1)
            | Thrown e => (Thrown e, w1)
            | Diverged => (Diverged, w1)
            end
          else (Thrown (Js.Error ("OpenAI API error: "
                                  ++ Js.string_of_Z (http_status response))),
                w1)
      end
    else (Thrown (Js.Error "OPENAI_API_KEY is not configured"), w).
Proof.
  intros request w1. unfold RagChat.complete.
  destruct (Js.truthy (OPENAI_API_KEY env)); cbn [negb]; [|reflexivity].
  unfold bind at 1. unfold fetch at 1.
  fold (Traffic.chat_request env history message finalSystemPrompt).
  fold request. fold w1.
  destruct (http env (List.length (calls w)) request) as [e|response];
    [reflexivity|].
  destruct (ok response); cbn [negb]; [|reflexivity].
  unfold bind at 1. unfold lift at 1.
  destruct (json_content response); reflexivity.
Qed.

(** The [try] block of rag-chat: what it may change and send. *)
Lemma chat_try_block_effect (env : Env) (req : Request RagChat.Json)
      (w : World) :
  exists (o : Outcome Response) (w' : World) (sent : list HttpRequest),
    RagChat.try_block env req w = (o, w')
    /\ (db w' = db w \/ db w' = RagChat.log_attempt (db w))
    /\ calls w' = (calls w ++ sent)%list
    /\ Traffic.embedding_then_chat sent
    /\ forall r, o = Returned r -> status r = 200%Z.
Proof.
  unfold RagChat.try_block.
  unfold bind at 1. unfold lift at 1.
  destruct (json req) as [payload|e|].
  2: { exists (Thrown e), w, []. rewrite app_nil_r.
       repeat split; auto; try discriminate. }
  2: { exists Diverged, w, []. rewrite app_nil_r.
       repeat split; auto; try discriminate. }
  destruct (Js.truthy (RagChat.message payload)); cbn [negb].
  2: { eexists _, w, []. rewrite app_nil_r.
       split; [reflexivity|]. repeat split; auto; try discriminate. }
  unfold bind at 1. unfold modify_db at 1. cbv beta iota.
  destruct (authorization req) as [authHeader|].
  2: { eexists _, _, []. split; [reflexivity|]. cbn [db calls].
       rewrite app_nil_r. repeat split; auto; try discriminate. }
  cbv zeta.
  destruct (getUser env (Js.replace authHeader "Bearer " "")) as [user_id|].
  2: { eexists _, _, []. split; [reflexivity|]. cbn [db calls].
       rewrite app_nil_r. repeat split; auto; try discriminate. }
  unfold bind at 1. unfold get_db at 1. cbv beta iota. cbn [db].
  match goal with
  | |- context [RagChat.respond env ?k ?history ?message ?w1] =>
      destruct (respond_effect env k history message w1)
        as (o & w2 & sent & -> & Hdb & Hcalls & Hsent & Hstatus)
  end.
  exists o, w2, sent. split; [reflexivity|].
  split; [right; exact Hdb|]. split; [exact Hcalls|]. split; assumption.
Qed.

(** Every run of rag-chat: what it may change, send and answer. *)
Lemma chat_serve_effect
        (env : Env) (req : Request RagChat.Json) (w : World) :
  exists (o : Outcome Response) (w' : World) (sent : list HttpRequest),
    RagChat.serve env req w = (o, w')
    /\ (forall e, o <> Thrown e)
    /\ (forall r, o = Returned r -> status r = 200%Z \/ status r = 500%Z)
    /\ Traffic.same_tables_but_logs (db w) (db w')
    /\ (logs (db w') = logs (db w)
        \/ logs (db w')
           = (logs (db w) ++ ["WebSocket connection attempt222"])%list)
    /\ calls w' = (calls w ++ sent)%list
    /\ Traffic.embedding_then_chat sent.
Proof.
  unfold RagChat.serve.
  destruct (method req =? "OPTIONS")%string.
  { exists (Returned {| status := 200; body := NoBody |}), w, [].
    rewrite app_nil_r. split; [reflexivity|].
    split; [discriminate|]. split; [intros r [= <-]; now left|].
    split; [apply same_tables_refl|]. split; [now left|]. split; [reflexivity|exact I]. }
  unfold try_catch.
  destruct (chat_try_block_effect env req w)
    as (o & w1 & sent & -> & Hdb & Hcalls & Hsent & Hstatus).
  assert (Htables : Traffic.same_tables_but_logs (db w) (db w1)
                    /\ (logs (db w1) = logs (db w)
                        \/ logs (db w1)
                           = (logs (db w)
                              ++ ["WebSocket connection attempt222"])%list)).
  { destruct Hdb as [-> | ->].
    - split; [apply same_tables_refl | now left].
    - split; [apply same_tables_logged | now right]. }
  destruct Htables as [Htables Hlogs].
  destruct o as [r|e|].
  - exists (Returned r), w1, sent. split; [reflexivity|].
    split; [discriminate|].
    split; [intros r' [= <-]; left; now apply Hstatus|]. auto.
  - eexists _, w1, sent. split; [reflexivity|].
    split; [discriminate|].
    split; [intros r' [= <-]; now right|]. auto.
  - exists Diverged, w1, sent. split; [reflexivity|].
    split; [discriminate|]. split; [discriminate|]. auto.
Qed.

Section Answers.

Variable env : Env.

Hypothesis Hsettles : Service.settles env.

Lemma retrieve_answers (k : RagChat.Knowledge) (message : string)
      (w : World) :
  fst (RagChat.retrieve env k message w) <> Diverged.
Proof.
  destruct Hsettles as (_ & _ & Hbody).
  unfold RagChat.retrieve.
  destruct (_ && _); [|discriminate].
  destruct (Js.truthy (OPENAI_API_KEY env)); [|discriminate].
  unfold bind at 1. unfold fetch at 1.
  destruct (http env (List.length (calls w)) _) as [e|r] eqn:Hhttp;
    [discriminate|].
  destruct (ok r); [|discriminate].
  unfold bind at 1. unfold lift at 1.
  destruct (json_embedding r) as [e|e|] eqn:Hjson; [|discriminate|].
  - unfold bind at 1. unfold get_db at 1. cbn [db].
    destruct (0 <? List.length _); discriminate.
  - destruct (Hbody _ _ _ Hhttp) as [H _]. now elim H.
Qed.

Lemma complete_answers (k : RagChat.Knowledge) (history : list Message.t)
      (message finalSystemPrompt relevantContext : string) (w : World) :
  fst (RagChat.complete env k history message finalSystemPrompt
                        relevantContext w) <> Diverged.
Proof.
  destruct Hsettles as (_ & _ & Hbody).
  rewrite complete_cases.
  destruct (Js.truthy (OPENAI_API_KEY env)); [|discriminate].
  destruct (http env (List.length (calls w)) _) as [e|r] eqn:Hhttp;
    [discriminate|].
  destruct (ok r); [|discriminate].
  destruct (json_content r) as [c|e|] eqn:Hjson; [discriminate..|].
  destruct (Hbody _ _ _ Hhttp) as [_ H]. now elim H.
Qed.

Lemma respond_answers (k : RagChat.Knowledge) (history : list Message.t)
      (message : string) (w : World) :
  fst (RagChat.respond env k history message w) <> Diverged.
Proof.
  unfold RagChat.respond. unfold bind at 1.
  pose proof (retrieve_answers k message w) as Hretrieve.
  destruct (RagChat.retrieve env k message w) as [o w1].
  destruct o as [found|e|]; [|discriminate|now elim Hretrieve].
  cbv zeta.
  destruct (RagChat.ragEnabledForConversation k);
    [|apply complete_answers].
  destruct (fst found); [apply complete_answers|].
  destruct (0 <? List.length (RagChat.documentIds k));
    [discriminate | apply complete_answers].
Qed.

(** When the services answer and the request's body can be read or
    refused, rag-chat answers. *)
Lemma chat_serve_answers (req : Request RagChat.Json) (w : World) :
  json req <> Diverged ->
  fst (RagChat.serve env req w) <> Diverged.
Proof.
  intros Hjson. unfold RagChat.serve.
  destruct (method req =? "OPTIONS")%string; [discriminate|].
  unfold try_catch, RagChat.try_block.
  unfold bind at 1. unfold lift at 1.
  destruct (json req) as [payload|e|]; [|discriminate|now elim Hjson].
  destruct (Js.truthy (RagChat.message payload)); cbn [negb];
    [|discriminate].
  unfold bind at 1. unfold modify_db at 1. cbv beta iota.
  destruct (authorization req) as [authHeader|]; [|discriminate].
  cbv zeta.
  destruct (getUser env (Js.replace authHeader "Bearer " "")) as [user_id|];
    [|discriminate].
  unfold bind at 1. unfold get_db at 1. cbv beta iota.
  match goal with
  | |- context [RagChat.respond env ?k ?history ?message ?w1] =>
      pose proof (respond_answers k history message w1) as Hrespond;
      destruct (RagChat.respond env k history message w1) as [o w2]
  end.
  destruct o as [r|e|]; [discriminate | discriminate | now elim Hrespond].
Qed.

End Answers.

(** X15.  Whatever the request and whatever the services answer,
    rag-chat never throws, writes no table but [logs] (to which it adds
    at most its one line), and sends at most one embedding request
    followed by at most one chat request; when the request body and the
    response bodies it waits for settle, it answers; and its answers
    have status 200 or 500. *)
Theorem chat_reads_and_asks_at_most_twice
        (env : Env) (req : Request RagChat.Json) (w : World) :
  exists (o : Outcome Response) (w' : World) (sent : list HttpRequest),
    RagChat.serve env req w = (o, w')
    /\ (forall e, o <> Thrown e)
    /\ (Service.settles env -> json req <> Diverged ->
        exists r, o = Returned r)
    /\ (forall r, o = Returned r -> status r = 200%Z \/ status r = 500%Z)
    /\ Traffic.same_tables_but_logs (db w) (db w')
    /\ (logs (db w') = logs (db w)
        \/ logs (db w')
           = (logs (db w) ++ ["WebSocket connection attempt222"])%list)
    /\ calls w' = (calls w ++ sent)%list
    /\ Traffic.embedding_then_chat sent.
Proof.
  destruct (chat_serve_effect env req w)
    as (o & w' & sent & Hrun & Hthrown & Hstatus & Htables & Hlogs
        & Hcalls & Hsent).
  exists o, w', sent. split; [exact Hrun|]. split; [exact Hthrown|].
  split; [|auto 10].
  intros Hsettles Hjson.
  pose proof (chat_serve_answers env Hsettles req w Hjson) as Hanswers.
  rewrite Hrun in Hanswers. cbn [fst] in Hanswers.
  destruct o as [r|e|]; [now exists r | now elim (Hthrown e) | now elim Hanswers].
Qed.

Lemma chat_reads_and_asks_at_most_twice_witness :
  exists r,
    fst (RagChat.serve
           (Example.env (Some "sk-test") "" Scenario.chat_down)
           Example.ask Example.bound_world)
    = Returned r
    /\ (status r = 200%Z \/ status r = 500%Z).
Proof.
  destruct (chat_reads_and_asks_at_most_twice
              (Example.env (Some "sk-test") "" Scenario.chat_down)
              Example.ask Example.bound_world)
    as (o & w' & sent & Hrun & _ & Hanswers & Hstatus & _).
  destruct Hanswers as [r ->].
  - split; [discriminate|]. split; [discriminate|].
    intros callno [a m i|a m ms] response;
      unfold Example.env, http, Scenario.chat_down, Example.embedded,
        Example.unavailable;
      intros [= <-]; split; discriminate.
  - discriminate.
  - rewrite Hrun. exists r. split; [reflexivity|]. now apply Hstatus.
Defined.

(** X16.  When the resolved RAG flag is off, or no document is bound
    to the query, rag-chat embeds nothing: its only request is the one
    to the chat model, with the system prompt followed by the fixed
    "RAG is disabled" (or "no documents are available") sentence, the
    history and the user's message; the model's answer is passed on
    with [rag_used = false]. *)
Theorem question_without_sources_goes_to_the_model
        (env : Env) (w : World) (req : Request RagChat.Json)
        (payload : RagChat.Json) (authHeader user_id : string)
        (response : HttpResponse) (answer : string) :
  let k := RagChat.resolve (db w) payload user_id in
  let request :=
    Traffic.chat_request env
      (RagChat.conversationHistory (db w) payload)
      (Js.value (RagChat.message payload))
      (RagChat.systemPrompt k
       ++ (if RagChat.ragEnabledForConversation k
           then RagChat.no_documents_available
           else RagChat.rag_disabled)) in
  method req <> "OPTIONS" ->
  json req = Returned payload ->
  Js.truthy (RagChat.message payload) = true ->
  authorization req = Some authHeader ->
  getUser env (Js.replace authHeader "Bearer " "") = Some user_id ->
  RagChat.ragEnabledForConversation k = false
  \/ RagChat.documentIds k = [] ->
  Js.truthy (OPENAI_API_KEY env) = true ->
  http env (List.length (calls w)) request = Resolved response ->
  ok response = true ->
  json_content response = Returned answer ->
  RagChat.serve env req w
  = (Returned {| status := 200; body := Answer answer false |},
     {| db := RagChat.log_attempt (db w);
        calls := (calls w ++ [request])%list |}).
Proof.
  intros k request Hmethod Hjson Hmessage Hauthorization Huser Hnone Hkey
         Hhttp Hok Hcontent.
  rewrite (serve_authorized env w req payload authHeader user_id Hmethod Hjson
             Hmessage Hauthorization Huser).
  fold k. unfold try_catch, RagChat.respond. unfold bind at 1.
  rewrite (retrieve_skipped env k _ (RagChat.logged w) Hnone).
  cbn [fst snd]. cbv zeta.
  assert (Hrun : forall prompt,
             prompt = (RagChat.systemPrompt k
                       ++ (if RagChat.ragEnabledForConversation k
                           then RagChat.no_documents_available
                           else RagChat.rag_disabled))%string ->
             RagChat.complete env k
               (RagChat.conversationHistory (db w) payload)
               (Js.value (RagChat.message payload)) prompt ""
               (RagChat.logged w)
             = (Returned {| status := 200; body := Answer answer false |},
                {| db := RagChat.log_attempt (db w);
                   calls := (calls w ++ [request])%list |})).
  { intros prompt ->. rewrite complete_cases. fold request.
    cbn [calls db RagChat.logged]. rewrite Hkey, Hhttp, Hok, Hcontent.
    cbn [String.eqb negb]. rewrite andb_false_r. reflexivity. }
  destruct Hnone as [Hrag | Hdocuments].
  - rewrite Hrag in *. rewrite (Hrun _ eq_refl). reflexivity.
  - destruct (RagChat.ragEnabledForConversation k).
    + rewrite Hdocuments. cbn [List.length Nat.ltb Nat.leb].
      rewrite (Hrun _ eq_refl). reflexivity.
    + rewrite (Hrun _ eq_refl). reflexivity.
Qed.

Lemma question_without_sources_goes_to_the_model_witness :
  RagChat.serve
    (Example.env (Some "sk-test") "" (Example.embedding_is [1%Q; 0%Q]))
    (Scenario.question None (Some false)) Example.bound_world
  = (Returned {| status := 200; body := Answer "ok" false |},
     {| db := RagChat.log_attempt Example.bound_database;
        calls :=
          [ChatCompletionsRequest "Bearer sk-test" "gpt-4o-mini"
             [{| role := "system";
                 content := "You are a helpful AI assistant."
                            ++ RagChat.rag_disabled |};
              {| role := "user"; content := "What is alpha?" |}]] |}).
Proof.
  apply (question_without_sources_goes_to_the_model
           (Example.env (Some "sk-test") "" (Example.embedding_is [1%Q; 0%Q]))
           Example.bound_world (Scenario.question None (Some false))
           {| RagChat.message := Some "What is alpha?";
              RagChat.conversation_id := None;
              RagChat.rag_enabled := Some false |}
           "Bearer token-1" "user-1"
           {| ok := true; http_status := 200;
              json_embedding := Thrown Js.NonError;
              json_content := Returned "ok" |}
           "ok").
  - discriminate.
  - reflexivity.
  - reflexivity.
  - reflexivity.
  - reflexivity.
  - left. reflexivity.
  - reflexivity.
  - reflexivity.
  - reflexivity.
  - reflexivity.
Defined.

(** X17.  When the similarity search selects chunks, rag-chat sends
    the embedding request and then one chat request whose system
    message is the resolved system prompt, the heading "Relevant
    information from documents:", the selected chunks' contents joined
    by blank lines, and the instruction to answer from the documents
    only; the model's answer is passed on with [rag_used = true]. *)
Theorem retrieved_passages_reach_the_model
        (env : Env) (w : World) (req : Request RagChat.Json)
        (payload : RagChat.Json) (authHeader user_id : string)
        (embedded : HttpResponse) (e : option vector)
        (response : HttpResponse) (answer : string) :
  let k := RagChat.resolve (db w) payload user_id in
  let question := Js.value (RagChat.message payload) in
  let chunks :=
    Search.match_document_chunks env (document_chunks (db w)) e
      RagChat.match_threshold RagChat.match_count (RagChat.documentIds k) in
  let request :=
    Traffic.chat_request env
      (RagChat.conversationHistory (db w) payload) question
      (RagChat.systemPrompt k
       ++ (nl ++ nl ++ "Relevant information from documents:" ++ nl
           ++ Js.join (nl ++ nl) (map Search.content chunks))
       ++ RagChat.answer_only_from_documents) in
  method req <> "OPTIONS" ->
  json req = Returned payload ->
  Js.truthy (RagChat.message payload) = true ->
  authorization req = Some authHeader ->
  getUser env (Js.replace authHeader "Bearer " "") = Some user_id ->
  RagChat.ragEnabledForConversation k = true ->
  RagChat.documentIds k <> [] ->
  Js.truthy (OPENAI_API_KEY env) = true ->
  http env (List.length (calls w)) (Traffic.embedding_request env question)
  = Resolved embedded ->
  ok embedded = true ->
  json_embedding embedded = Returned e ->
  chunks <> [] ->
  http env (S (List.length (calls w))) request = Resolved response ->
  ok response = true ->
  json_content response = Returned answer ->
  RagChat.serve env req w
  = (Returned {| status := 200; body := Answer answer true |},
     {| db := RagChat.log_attempt (db w);
        calls := (calls w
                  ++ [Traffic.embedding_request env question; request])%list
     |}).
Proof.
  intros k question chunks request Hmethod Hjson Hmessage Hauthorization
         Huser Hrag Hdocuments Hkey Hhttp Hok Hembedding Hchunks
         Hhttp' Hok' Hcontent.
  rewrite (serve_authorized env w req payload authHeader user_id Hmethod Hjson
             Hmessage Hauthorization Huser).
  fold k question. unfold try_catch, RagChat.respond. unfold bind at 1.
  rewrite (retrieve_found env k question (RagChat.logged w) embedded e
             Hrag Hdocuments Hkey Hhttp Hok Hembedding Hchunks).
  cbn [fst snd]. cbv zeta. rewrite Hrag.
  rewrite complete_cases. cbn [calls db RagChat.logged document_chunks
                                 RagChat.log_attempt with_logs].
  fold chunks. fold request.
  rewrite Hkey, length_app. cbn [List.length].
  rewrite Nat.add_1_r, Hhttp', Hok', Hcontent.
  rewrite Hrag, heading_not_empty, <- app_assoc. reflexivity.
Qed.

Lemma retrieved_passages_reach_the_model_witness :
  RagChat.serve
    (Example.env (Some "sk-test") "" (Example.embedding_is [1%Q; 0%Q]))
    (Scenario.question None None) Example.bound_world
  = (Returned {| status := 200; body := Answer "ok" true |},
     {| db := RagChat.log_attempt Example.bound_database;
        calls :=
          [EmbeddingsRequest "Bearer sk-test" "text-embedding-3-small"
                             "What is alpha?";
           ChatCompletionsRequest "Bearer sk-test" "gpt-4o-mini"
             [{| role := "system";
                 content := "You are a helpful AI assistant."
                            ++ (nl ++ nl
                                ++ "Relevant information from documents:"
                                ++ nl ++ "Alpha")
                            ++ RagChat.answer_only_from_documents |};
              {| role := "user"; content := "What is alpha?" |}]] |}).
Proof.
  apply (retrieved_passages_reach_the_model
           (Example.env (Some "sk-test") "" (Example.embedding_is [1%Q; 0%Q]))
           Example.bound_world (Scenario.question None None)
           {| RagChat.message := Some "What is alpha?";
              RagChat.conversation_id := None;
              RagChat.rag_enabled := None |}
           "Bearer token-1" "user-1"
           {| ok := true; http_status := 200;
              json_embedding := Returned (Some [1%Q; 0%Q]);
              json_content := Thrown Js.NonError |}
           (Some [1%Q; 0%Q])
           {| ok := true; http_status := 200;
              json_embedding := Thrown Js.NonError;
              json_content := Returned "ok" |}
           "ok").
  - discriminate.
  - reflexivity.
  - reflexivity.
  - reflexivity.
  - reflexivity.
  - reflexivity.
  - discriminate.
  - reflexivity.
  - reflexivity.
  - reflexivity.
  - reflexivity.
  - discriminate.
  - reflexivity.
  - reflexivity.
  - reflexivity.
Defined.

(** Where a returned answer comes from. *)
Lemma respond_returns (env : Env) (k : RagChat.Knowledge)
      (history : list Message.t) (message : string) (w w' : World)
      (r : Response) :
  RagChat.respond env k history message w = (Returned r, w') ->
  (r = {| status := 200; body := Answer RagChat.not_found true |}
   /\ exists sent, calls w' = (calls w ++ sent)%list /\ Traffic.no_chat sent)
  \/ exists (before : list HttpRequest) (system : string)
            (response : HttpResponse) (answer : string) (used : bool),
      calls w'
      = (before ++ [Traffic.chat_request env history message system])%list
      /\ http env (List.length before)
              (Traffic.chat_request env history message system)
         = Resolved response
      /\ ok response = true
      /\ json_content response = Returned answer
      /\ r = {| status := 200; body := Answer answer used |}.
Proof.
  unfold RagChat.respond. unfold bind at 1.
  destruct (retrieve_effect env k message w) as (o1 & w1 & -> & Hdb1 & Hcalls1).
  destruct o1 as [found|e|]; [|discriminate|discriminate].
  cbv zeta.
  assert (Hcomplete : forall system context,
             RagChat.complete env k history message system context w1
             = (Returned r, w') ->
             exists (before : list HttpRequest) (system : string)
                    (response : HttpResponse) (answer : string) (used : bool),
               calls w'
               = (before
                  ++ [Traffic.chat_request env history message system])%list
               /\ http env (List.length before)
                       (Traffic.chat_request env history message system)
                  = Resolved response
               /\ ok response = true
               /\ json_content response = Returned answer
               /\ r = {| status := 200; body := Answer answer used |}).
  { intros system context. rewrite complete_cases.
    destruct (Js.truthy (OPENAI_API_KEY env)); [|discriminate].
    destruct (http env (List.length (calls w1)) _) as [e|response] eqn:Hhttp;
      [discriminate|].
    destruct (ok response) eqn:Hok; [|discriminate].
    destruct (json_content response) as [answer|e|] eqn:Hcontent;
      [|discriminate|discriminate].
    intros [= <- <-].
    exists (calls w1), system, response, answer. eexists.
    repeat split; auto. }
  destruct (RagChat.ragEnabledForConversation k).
  2: { intros H. right. exact (Hcomplete _ _ H). }
  destruct (fst found).
  { intros H. right. exact (Hcomplete _ _ H). }
  destruct (0 <? List.length (RagChat.documentIds k)).
  2: { intros H. right. exact (Hcomplete _ _ H). }
  intros [= <- <-]. left. split; [reflexivity|].
  destruct Hcalls1 as [-> | ->].
  - exists []. rewrite app_nil_r. split; [reflexivity | constructor].
  - eexists [_]. split; [reflexivity|]. repeat constructor.
Qed.

(** X18.  Every answer rag-chat gives with status 200 to a request
    other than OPTIONS is either the fixed "not in the documents"
    sentence, no chat request having been sent, or the content of a
    successful response of the chat model to the request sent last,
    whose messages are a system message, the stored history and the
    user's message. *)
Theorem answers_come_from_the_model
        (env : Env) (req : Request RagChat.Json) (payload : RagChat.Json)
        (w w' : World) (r : Response) :
  method req <> "OPTIONS" ->
  json req = Returned payload ->
  RagChat.serve env req w = (Returned r, w') ->
  status r = 200%Z ->
  (r = {| status := 200; body := Answer RagChat.not_found true |}
   /\ exists sent, calls w' = (calls w ++ sent)%list /\ Traffic.no_chat sent)
  \/ exists (before : list HttpRequest) (system : string)
            (response : HttpResponse) (answer : string) (used : bool),
      let request :=
        Traffic.chat_request env
          (RagChat.conversationHistory (db w) payload)
          (Js.value (RagChat.message payload)) system in
      calls w' = (before ++ [request])%list
      /\ http env (List.length before) request = Resolved response
      /\ ok response = true
      /\ json_content response = Returned answer
      /\ r = {| status := 200; body := Answer answer used |}.
Proof.
  intros Hmethod Hjson Hrun Hstatus.
  unfold RagChat.serve in Hrun.
  apply String.eqb_neq in Hmethod. rewrite Hmethod in Hrun.
  unfold try_catch in Hrun.
  destruct (RagChat.try_block env req w) as [o w1] eqn:Htry.
  destruct o as [r1|e|].
  2: { unfold RagChat.catch_block, ret in Hrun.
       injection Hrun as <- <-. discriminate Hstatus. }
  2: discriminate Hrun.
  injection Hrun as -> ->.
  unfold RagChat.try_block in Htry.
  unfold bind at 1 in Htry. unfold lift at 1 in Htry.
  rewrite Hjson in Htry.
  destruct (Js.truthy (RagChat.message payload)); cbn [negb] in Htry;
    [|discriminate Htry].
  unfold bind at 1 in Htry. unfold modify_db at 1 in Htry.
  cbv beta iota in Htry.
  destruct (authorization req) as [authHeader|]; [|discriminate Htry].
  cbv zeta in Htry.
  destruct (getUser env (Js.replace authHeader "Bearer " "")) as [user_id|];
    [|discriminate Htry].
  unfold bind at 1 in Htry. unfold get_db at 1 in Htry.
  cbv beta iota in Htry.
  apply respond_returns in Htry. exact Htry.
Qed.

Lemma answers_come_from_the_model_witness :
  let env :=
    Example.env (Some "sk-test") "" (Example.embedding_is [1%Q; 0%Q]) in
  let r := {| status := 200; body := Answer "ok" true |} in
  let w' := snd (RagChat.serve env Example.ask Example.bound_world) in
  (r = {| status := 200; body := Answer RagChat.not_found true |}
   /\ exists sent,
       calls w' = (calls Example.bound_world ++ sent)%list
       /\ Traffic.no_chat sent)
  \/ exists (before : list HttpRequest) (system : string)
            (response : HttpResponse) (answer : string) (used : bool),
      let request :=
        Traffic.chat_request env
          (RagChat.conversationHistory (db Example.bound_world)
             {| RagChat.message := Some "What is alpha?";
                RagChat.conversation_id := Some "conv-1";
                RagChat.rag_enabled := None |})
          "What is alpha?" system in
      calls w' = (before ++ [request])%list
      /\ http env (List.length before) request = Resolved response
      /\ ok response = true
      /\ json_content response = Returned answer
      /\ r = {| status := 200; body := Answer answer used |}.
Proof.
  intros env r w'.
  apply (answers_come_from_the_model env Example.ask
           {| RagChat.message := Some "What is alpha?";
              RagChat.conversation_id := Some "conv-1";
              RagChat.rag_enabled := None |}
           Example.bound_world w' r).
  - discriminate.
  - reflexivity.
  - vm_compute. reflexivity.
  - reflexivity.
Defined.

(** Without a credential the vector search block does nothing. *)
Lemma retrieve_no_key (env : Env) (k : RagChat.Knowledge) (message : string)
      (w : World) :
  Js.truthy (OPENAI_API_KEY env) = false ->
  RagChat.retrieve env k message w = (Returned (false, ""), w).
Proof.
  intros Hkey. unfold RagChat.retrieve. rewrite Hkey.
  destruct (_ && _); reflexivity.
Qed.

(** X19.  Without an OpenAI credential rag-chat sends no request at
    all: with RAG on and documents bound it still answers 200 with the
    fixed "not in the documents" sentence, otherwise it answers 500
    with "OPENAI_API_KEY is not configured". *)
Theorem chat_without_credential
        (env : Env) (w : World) (req : Request RagChat.Json)
        (payload : RagChat.Json) (authHeader user_id : string) :
  let k := RagChat.resolve (db w) payload user_id in
  method req <> "OPTIONS" ->
  json req = Returned payload ->
  Js.truthy (RagChat.message payload) = true ->
  authorization req = Some authHeader ->
  getUser env (Js.replace authHeader "Bearer " "") = Some user_id ->
  Js.truthy (OPENAI_API_KEY env) = false ->
  RagChat.serve env req w
  = (Returned
       (if RagChat.ragEnabledForConversation k
           && (0 <? List.length (RagChat.documentIds k))
        then {| status := 200; body := Answer RagChat.not_found true |}
        else {| status := 500;
                body := Failed "OPENAI_API_KEY is not configured" |}),
     {| db := RagChat.log_attempt (db w); calls := calls w |}).
Proof.
  intros k Hmethod Hjson Hmessage Hauthorization Huser Hkey.
  rewrite (serve_authorized env w req payload authHeader user_id Hmethod Hjson
             Hmessage Hauthorization Huser).
  fold k. unfold try_catch, RagChat.respond. unfold bind at 1.
  rewrite (retrieve_no_key env k _ (RagChat.logged w) Hkey).
  cbn [fst snd]. cbv zeta.
  destruct (RagChat.ragEnabledForConversation k); cbn [andb].
  - destruct (0 <? List.length (RagChat.documentIds k)); [reflexivity|].
    rewrite complete_cases, Hkey. reflexivity.
  - rewrite complete_cases, Hkey. reflexivity.
Qed.

Lemma chat_without_credential_witness :
  RagChat.serve (Example.env None "" (Example.embedding_is [1%Q; 0%Q]))
    (Scenario.question None (Some false)) Example.bound_world
  = (Returned {| status := 500;
                 body := Failed "OPENAI_API_KEY is not configured" |},
     {| db := RagChat.log_attempt Example.bound_database; calls := [] |}).
Proof.
  apply (chat_without_credential
           (Example.env None "" (Example.embedding_is [1%Q; 0%Q]))
           Example.bound_world (Scenario.question None (Some false))
           {| RagChat.message := Some "What is alpha?";
              RagChat.conversation_id := None;
              RagChat.rag_enabled := Some false |}
           "Bearer token-1" "user-1").
  - discriminate.
  - reflexivity.
  - reflexivity.
  - reflexivity.
  - reflexivity.
  - reflexivity.
Defined.

(** X20.  When the chat model answers with an HTTP error, rag-chat
    answers 500 with "OpenAI API error: " and the model's status; the
    requests sent and the log line stay. *)
Theorem chat_model_error_is_reported
        (env : Env) (w : World) (req : Request RagChat.Json)
        (payload : RagChat.Json) (authHeader user_id : string)
        (response : HttpResponse) :
  let k := RagChat.resolve (db w) payload user_id in
  let request :=
    Traffic.chat_request env
      (RagChat.conversationHistory (db w) payload)
      (Js.value (RagChat.message payload))
      (RagChat.systemPrompt k
       ++ (if RagChat.ragEnabledForConversation k
           then RagChat.no_documents_available
           else RagChat.rag_disabled)) in
  method req <> "OPTIONS" ->
  json req = Returned payload ->
  Js.truthy (RagChat.message payload) = true ->
  authorization req = Some authHeader ->
  getUser env (Js.replace authHeader "Bearer " "") = Some user_id ->
  RagChat.ragEnabledForConversation k = false
  \/ RagChat.documentIds k = [] ->
  Js.truthy (OPENAI_API_KEY env) = true ->
  http env (List.length (calls w)) request = Resolved response ->
  ok response = false ->
  RagChat.serve env req w
  = (Returned
       {| status := 500;
          body := Failed ("OpenAI API error: "
                          ++ Js.string_of_Z (http_status response)) |},
     {| db := RagChat.log_attempt (db w);
        calls := (calls w ++ [request])%list |}).
Proof.
  intros k request Hmethod Hjson Hmessage Hauthorization Huser Hnone Hkey
         Hhttp Hok.
  rewrite (serve_authorized env w req payload authHeader user_id Hmethod Hjson
             Hmessage Hauthorization Huser).
  fold k. unfold try_catch, RagChat.respond. unfold bind at 1.
  rewrite (retrieve_skipped env k _ (RagChat.logged w) Hnone).
  cbn [fst snd]. cbv zeta.
  assert (Hrun : forall prompt,
             prompt = (RagChat.systemPrompt k
                       ++ (if RagChat.ragEnabledForConversation k
                           then RagChat.no_documents_available
                           else RagChat.rag_disabled))%string ->
             RagChat.complete env k
               (RagChat.conversationHistory (db w) payload)
               (Js.value (RagChat.message payload)) prompt ""
               (RagChat.logged w)
             = (Thrown (Js.Error ("OpenAI API error: "
                                  ++ Js.string_of_Z (http_status response))),
                {| db := RagChat.log_attempt (db w);
                   calls := (calls w ++ [request])%list |})).
  { intros prompt ->. rewrite complete_cases. fold request.
    cbn [calls db RagChat.logged]. rewrite Hkey, Hhttp, Hok. reflexivity. }
  destruct Hnone as [Hrag | Hdocuments].
  - rewrite Hrag in *. rewrite (Hrun _ eq_refl). reflexivity.
  - destruct (RagChat.ragEnabledForConversation k).
    + rewrite Hdocuments. cbn [List.length Nat.ltb Nat.leb].
      rewrite (Hrun _ eq_refl). reflexivity.
    + rewrite (Hrun _ eq_refl). reflexivity.
Qed.

Lemma chat_model_error_is_reported_witness :
  RagChat.serve (Example.env (Some "sk-test") "" Scenario.chat_down)
    (Scenario.question None (Some false)) Example.bound_world
  = (Returned {| status := 500; body := Failed "OpenAI API error: 503" |},
     {| db := RagChat.log_attempt Example.bound_database;
        calls :=
          [ChatCompletionsRequest "Bearer sk-test" "gpt-4o-mini"
             [{| role := "system";
                 content := "You are a helpful AI assistant."
                            ++ RagChat.rag_disabled |};
              {| role := "user"; content := "What is alpha?" |}]] |}).
Proof.
  apply (chat_model_error_is_reported
           (Example.env (Some "sk-test") "" Scenario.chat_down)
           Example.bound_world (Scenario.question None (Some false))
           {| RagChat.message := Some "What is alpha?";
              RagChat.conversation_id := None;
              RagChat.rag_enabled := Some false |}
           "Bearer token-1" "user-1" 
           {| ok := false; http_status := 503;
              json_embedding := Thrown Js.NonError;
              json_content := Thrown Js.NonError |}).
  - discriminate.
  - reflexivity.
  - reflexivity.
  - reflexivity.
  - reflexivity.
  - left. reflexivity.
  - reflexivity.
  - reflexivity.
  - reflexivity.
Defined.

(** X21.  A request whose body has no (or an empty) message is
    answered 500 with "Message is required" before anything else
    happens: not even the log line is written. *)
Theorem question_without_message_changes_nothing
        (env : Env) (w : World) (req : Request RagChat.Json)
        (payload : RagChat.Json) :
  method req <> "OPTIONS" ->
  json req = Returned payload ->
  Js.truthy (RagChat.message payload) = false ->
  RagChat.serve env req w
  = (Returned {| status := 500; body := Failed "Message is required" |}, w).
Proof.
  intros Hmethod Hjson Hmessage.
  unfold RagChat.serve.
  apply String.eqb_neq in Hmethod. rewrite Hmethod.
  unfold try_catch, RagChat.try_block.
  unfold bind at 1. unfold lift at 1. rewrite Hjson, Hmessage.
  reflexivity.
Qed.

Lemma question_without_message_changes_nothing_witness :
  RagChat.serve
    (Example.env (Some "sk-test") "" (Example.embedding_is [1%Q; 0%Q]))
    {| method := "POST"; authorization := Some "Bearer token-1";
       json := Returned {| RagChat.message := Some "";
                           RagChat.conversation_id := Some "conv-1";
                           RagChat.rag_enabled := None |} |}
    Example.bound_world
  = (Returned {| status := 500; body := Failed "Message is required" |},
     Example.bound_world).
Proof.
  apply (question_without_message_changes_nothing
           (Example.env (Some "sk-test") "" (Example.embedding_is [1%Q; 0%Q]))
           Example.bound_world
           {| method := "POST"; authorization := Some "Bearer token-1";
              json := Returned {| RagChat.message := Some "";
                                  RagChat.conversation_id := Some "conv-1";
                                  RagChat.rag_enabled := None |} |}
           {| RagChat.message := Some "";
              RagChat.conversation_id := Some "conv-1";
              RagChat.rag_enabled := None |}).
  - discriminate.
  - reflexivity.
  - reflexivity.
Defined.

(** X22.  A question that does not come from a signed-in user -- no
    authorization header, or a token the auth service does not know --
    is answered 500 (with "Unauthorized" for an unknown token) after
    the log line was written; no table is read and no request is
    sent. *)
Theorem question_from_a_stranger_is_refused
        (env : Env) (w : World) (req : Request RagChat.Json)
        (payload : RagChat.Json) :
  method req <> "OPTIONS" ->
  json req = Returned payload ->
  Js.truthy (RagChat.message payload) = true ->
  match authorization req with
  | Some authHeader => getUser env (Js.replace authHeader "Bearer " "") = None
  | None => True
  end ->
  RagChat.serve env req w
  = (Returned
       {| status := 500;
          body := Failed (match authorization req with
                          | Some _ => "Unauthorized"
                          | None => Js.message_of (null_dereference env)
                          end) |},
     {| db := RagChat.log_attempt (db w); calls := calls w |}).
Proof.
  intros Hmethod Hjson Hmessage Hstranger.
  unfold RagChat.serve.
  apply String.eqb_neq in Hmethod. rewrite Hmethod.
  unfold try_catch, RagChat.try_block.
  unfold bind at 1. unfold lift at 1. rewrite Hjson, Hmessage.
  cbn [negb]. cbv beta iota.
  unfold bind at 1. unfold modify_db at 1. cbv beta iota.
  destruct (authorization req) as [authHeader|]; [|reflexivity].
  cbv zeta. rewrite Hstranger. reflexivity.
Qed.

Lemma question_from_a_stranger_is_refused_witness :
  RagChat.serve
    (Example.env (Some "sk-test") "" (Example.embedding_is [1%Q; 0%Q]))
    {| method := "POST"; authorization := Some "Bearer token-2";
       json := json Example.ask |}
    Example.bound_world
  = (Returned {| status := 500; body := Failed "Unauthorized" |},
     {| db := RagChat.log_attempt Example.bound_database; calls := [] |}).
Proof.
  apply (question_from_a_stranger_is_refused
           (Example.env (Some "sk-test") "" (Example.embedding_is [1%Q; 0%Q]))
           Example.bound_world
           {| method := "POST"; authorization := Some "Bearer token-2";
              json := json Example.ask |}
           {| RagChat.message := Some "What is alpha?";
              RagChat.conversation_id := Some "conv-1";
              RagChat.rag_enabled := None |}).
  - discriminate.
  - reflexivity.
  - reflexivity.
  - reflexivity.
Defined.

(** ** The history *)

Lemma older_total (x y : Message.t) :
  RagChat.older x y = false -> RagChat.older y x = true.
Proof.
  unfold RagChat.older. intros H.
  apply Z.leb_gt in H. apply Z.leb_le. lia.
Qed.

Lemma older_transitive (x y z : Message.t) :
  RagChat.older x y = true -> RagChat.older y z = true ->
  RagChat.older x z = true.
Proof.
  unfold RagChat.older. intros H1 H2.
  apply Z.leb_le in H1, H2. apply Z.leb_le. lia.
Qed.

(** The messages of a conversation, the oldest first. *)
Lemma ordered_messages_sorted (id : string) (rows : list Message.t) :
  StronglySorted (fun a b => RagChat.older a b = true)
    (Query.order_by RagChat.older (Query.eq Message.conversation_id id rows)).
Proof.
  apply SearchOrderFacts.order_by_sorted with (P := fun _ => True).
  - intros x y _ _. apply older_total.
  - intros x y z _ _ _. apply older_transitive.
  - apply Forall_forall. auto.
Qed.

(** X23.  The history rag-chat puts into the prompt has at most ten
    messages, all of them stored messages of the conversation of the
    request, in the order of non-decreasing [created_at]. *)
Theorem history_is_bounded_and_ordered
        (db : Database) (payload : RagChat.Json) :
  let history := RagChat.conversationHistory db payload in
  List.length history <= 10
  /\ Forall (fun m =>
               In m (messages db)
               /\ RagChat.conversation_id payload
                  = Some (Message.conversation_id m)) history
  /\ StronglySorted
       (fun a b => (Message.created_at a <= Message.created_at b)%Z) history.
Proof.
  unfold RagChat.conversationHistory.
  destruct (Js.truthy (RagChat.conversation_id payload)) eqn:Hid.
  2: { split; [simpl; lia|]. split; constructor. }
  unfold Query.limit. split; [rewrite length_firstn; lia|]. split.
  - apply Forall_limit, Forall_order_by. unfold Query.eq.
    apply Forall_filter. intros m Hin Hm. split; [exact Hin|].
    apply String.eqb_eq in Hm.
    destruct (RagChat.conversation_id payload) as [id|]; [|discriminate].
    cbn [Js.value] in Hm. now rewrite Hm.
  - apply SearchOrderFacts.StronglySorted_firstn.
    pose proof (ordered_messages_sorted
                  (Js.value (RagChat.conversation_id payload)) (messages db))
      as Hsorted.
    induction Hsorted as [|x l Hs IH Hx]; constructor; [exact IH|].
    eapply Forall_impl; [|exact Hx].
    intros y Hy. unfold RagChat.older in Hy. now apply Z.leb_le.
Qed.

(** X24.  The history keeps the oldest messages: a stored message of
    the conversation is either part of the history, or the history is
    full (ten messages) and none of its messages is newer than that
    one.  Once a conversation has more than ten messages, a new one
    never reaches the prompt. *)
Theorem history_keeps_the_oldest_messages
        (db : Database) (payload : RagChat.Json) (m : Message.t) :
  let history := RagChat.conversationHistory db payload in
  In m (messages db) ->
  RagChat.conversation_id payload = Some (Message.conversation_id m) ->
  Message.conversation_id m <> "" ->
  In m history
  \/ (List.length history = 10
      /\ Forall (fun h => (Message.created_at h <= Message.created_at m)%Z)
                history).
Proof.
  intros history Hin Hid Hnonempty. subst history.
  unfold RagChat.conversationHistory. rewrite Hid.
  assert (Htruthy : Js.truthy (Some (Message.conversation_id m)) = true).
  { destruct (Message.conversation_id m); [now elim Hnonempty | reflexivity]. }
  rewrite Htruthy. cbn [Js.value]. unfold Query.limit.
  pose proof (ordered_messages_sorted (Message.conversation_id m)
                (messages db)) as Hsorted.
  set (ordered := Query.order_by _ _) in *.
  assert (Hordered : In m ordered).
  { apply SearchOrderFacts.In_order_by. unfold Query.eq.
    apply filter_In. split; [exact Hin | apply String.eqb_refl]. }
  rewrite <- (firstn_skipn 10 ordered) in Hordered.
  apply in_app_or in Hordered. destruct Hordered as [Hfirst | Hrest].
  - now left.
  - right. split.
    + rewrite length_firstn.
      assert (10 < List.length ordered); [|lia].
      destruct (Nat.lt_ge_cases 10 (List.length ordered)) as [H|H];
        [exact H|].
      rewrite skipn_all2 in Hrest by exact H. contradiction.
    + pose proof (SearchOrderFacts.StronglySorted_cut _ _ 10 _ Hsorted)
        as Hcut.
      rewrite Forall_forall in *. intros h Hh.
      specialize (Hcut h Hh). rewrite Forall_forall in Hcut.
      specialize (Hcut m Hrest). unfold RagChat.older in Hcut.
      now apply Z.leb_le.
Qed.

Lemma history_keeps_the_oldest_messages_witness :
  let history :=
    RagChat.conversationHistory Example.bound_database
      {| RagChat.message := Some "What is alpha?";
         RagChat.conversation_id := Some "conv-1";
         RagChat.rag_enabled := None |} in
  let newest := Example.said "user" "m11" 11 in
  In newest history
  \/ (List.length history = 10
      /\ Forall (fun h => (Message.created_at h
                           <= Message.created_at newest)%Z) history).
Proof.
  apply (history_keeps_the_oldest_messages Example.bound_database
           {| RagChat.message := Some "What is alpha?";
              RagChat.conversation_id := Some "conv-1";
              RagChat.rag_enabled := None |}
           (Example.said "user" "m11" 11)).
  - simpl. tauto.
  - reflexivity.
  - discriminate.
Defined.

(** ** The knowledge sources *)

Lemma single_In (A : Type) (rows : list A) (row : A) :
  Query.single rows = Some row -> In row rows.
Proof.
  destruct rows as [|r [|r' rows]]; try discriminate.
  intros [= ->]. now left.
Qed.

Lemma single_eq_In (A : Type) (column : A -> string) (value : string)
      (rows : list A) (row : A) :
  Query.single (Query.eq column value rows) = Some row ->
  In row rows /\ column row = value.
Proof.
  intros H. apply single_In in H. unfold Query.eq in H.
  apply filter_In in H. destruct H as [H1 H2].
  apply String.eqb_eq in H2. auto.
Qed.

Lemma with_agent_documents (db : Database) (conversation : Conversation.t)
      (k : RagChat.Knowledge) :
  RagChat.documentIds (RagChat.with_agent db conversation k)
  = RagChat.documentIds k
  \/ exists agent,
      In agent (agents db)
      /\ Conversation.agent_id conversation = Some (Agent.id agent)
      /\ RagChat.documentIds (RagChat.with_agent db conversation k)
         = RagChat.or_empty (Agent.document_ids agent).
Proof.
  unfold RagChat.with_agent.
  destruct (Js.truthy (Conversation.agent_id conversation)) eqn:Hid;
    [|now left].
  destruct (Query.single _) as [agent|] eqn:Hagent; [|now left].
  right. exists agent. apply single_eq_In in Hagent.
  destruct Hagent as [Hin Heq]. split; [exact Hin|].
  split; [|reflexivity].
  destruct (Conversation.agent_id conversation); [|discriminate].
  cbn [Js.value] in Heq. now rewrite Heq.
Qed.

Lemma with_context_documents (db : Database) (conversation : Conversation.t)
      (k : RagChat.Knowledge) :
  RagChat.documentIds (RagChat.with_context db conversation k)
  = RagChat.documentIds k
  \/ exists context,
      In context (contexts db)
      /\ Conversation.context_id conversation = Some (Context.id context)
      /\ RagChat.documentIds (RagChat.with_context db conversation k)
         = RagChat.or_empty (Context.document_ids context).
Proof.
  unfold RagChat.with_context.
  destruct (_ && _ && Js.truthy (Conversation.context_id conversation))
    eqn:Hid; [|now left].
  apply andb_true_iff in Hid. destruct Hid as [_ Hid].
  destruct (Query.single _) as [context|] eqn:Hcontext; [|now left].
  right. exists context. apply single_eq_In in Hcontext.
  destruct Hcontext as [Hin Heq]. split; [exact Hin|].
  split; [|reflexivity].
  destruct (Conversation.context_id conversation); [|discriminate].
  cbn [Js.value] in Heq. now rewrite Heq.
Qed.

(** The user's completed documents. *)
Lemma completed_documents_of (db : Database) (user_id : string) (n : nat) :
  Forall (fun d =>
            In d (documents db)
            /\ Document.user_id d = user_id
            /\ Document.status d = Some "completed")
         (Query.limit n
            (Query.eq (fun d => Js.value (Document.status d)) "completed"
               (Query.eq Document.user_id user_id (documents db)))).
Proof.
  apply Forall_limit. unfold Query.eq.
  apply Forall_filter. intros d Hin Hstatus.
  apply filter_In in Hin. destruct Hin as [Hin Huser].
  apply String.eqb_eq in Huser, Hstatus.
  split; [exact Hin|]. split; [exact Huser|].
  destruct (Document.status d) as [status|]; [|discriminate].
  cbn [Js.value] in Hstatus. now rewrite Hstatus.
Qed.

Lemma with_user_documents_documents (db : Database) (user_id : string)
      (k : RagChat.Knowledge) :
  RagChat.documentIds (RagChat.with_user_documents db user_id k)
  = RagChat.documentIds k
  \/ exists docs : list Document.t,
      RagChat.documentIds (RagChat.with_user_documents db user_id k)
      = map Document.id docs
      /\ List.length docs <= 100
      /\ Forall (fun d =>
                   In d (documents db)
                   /\ Document.user_id d = user_id
                   /\ Document.status d = Some "completed") docs.
Proof.
  unfold RagChat.with_user_documents.
  destruct (_ && _); [|now left].
  cbv zeta. destruct (0 <? _); [|now left].
  right. eexists. split; [reflexivity|]. split.
  - unfold Query.limit. rewrite length_firstn. lia.
  - apply completed_documents_of.
Qed.

(** X25.  The documents rag-chat searches have one origin: they are
    the document list of the agent of the request's conversation, or
    the document list of that conversation's context, or (at most 100)
    completed documents of the signed-in user.  The lists are never
    mixed, and no other user's document gets in through the
    fallback. *)
Theorem sources_have_one_origin
        (db : Database) (payload : RagChat.Json) (user_id : string) :
  let k := RagChat.resolve db payload user_id in
  (exists conversation agent,
      In conversation (conversations db)
      /\ RagChat.conversation_id payload
         = Some (Conversation.id conversation)
      /\ In agent (agents db)
      /\ Conversation.agent_id conversation = Some (Agent.id agent)
      /\ RagChat.documentIds k = RagChat.or_empty (Agent.document_ids agent))
  \/ (exists conversation context,
         In conversation (conversations db)
         /\ RagChat.conversation_id payload
            = Some (Conversation.id conversation)
         /\ In context (contexts db)
         /\ Conversation.context_id conversation = Some (Context.id context)
         /\ RagChat.documentIds k
            = RagChat.or_empty (Context.document_ids context))
  \/ (exists docs : list Document.t,
         RagChat.documentIds k = map Document.id docs
         /\ List.length docs <= 100
         /\ Forall (fun d =>
                      In d (documents db)
                      /\ Document.user_id d = user_id
                      /\ Document.status d = Some "completed") docs).
Proof.
  unfold RagChat.resolve. cbv zeta.
  set (k0 := {| RagChat.systemPrompt := "You are a helpful AI assistant.";
                RagChat.ragEnabledForConversation := _;
                RagChat.documentIds := [] |}).
  set (k1 := if Js.truthy (RagChat.conversation_id payload) then _ else _).
  assert (Hk1 :
            RagChat.documentIds k1 = []
            \/ (exists conversation agent,
                   In conversation (conversations db)
                   /\ RagChat.conversation_id payload
                      = Some (Conversation.id conversation)
                   /\ In agent (agents db)
                   /\ Conversation.agent_id conversation
                      = Some (Agent.id agent)
                   /\ RagChat.documentIds k1
                      = RagChat.or_empty (Agent.document_ids agent))
            \/ (exists conversation context,
                   In conversation (conversations db)
                   /\ RagChat.conversation_id payload
                      = Some (Conversation.id conversation)
                   /\ In context (contexts db)
                   /\ Conversation.context_id conversation
                      = Some (Context.id context)
                   /\ RagChat.documentIds k1
                      = RagChat.or_empty (Context.document_ids context))).
  { subst k1.
    destruct (Js.truthy (RagChat.conversation_id payload)) eqn:Hid;
      [|now left].
    destruct (Query.single _) as [conversation|] eqn:Hconversation;
      [|now left].
    apply single_eq_In in Hconversation.
    destruct Hconversation as [Hin Heq].
    assert (Hbound : RagChat.conversation_id payload
                     = Some (Conversation.id conversation)).
    { destruct (RagChat.conversation_id payload); [|discriminate].
      cbn [Js.value] in Heq. now rewrite Heq. }
    cbv zeta.
    match goal with
    | |- context [RagChat.with_agent db conversation ?start] =>
        set (k := start)
    end.
    destruct (with_context_documents db conversation
                (RagChat.with_agent db conversation k))
      as [Hsame | (context & Hcontext & Hcid & Hdocs)].
    - rewrite Hsame.
      destruct (with_agent_documents db conversation k)
        as [Hsame' | (agent & Hagent & Haid & Hdocs)].
      + left. rewrite Hsame'. reflexivity.
      + right. left. exists conversation, agent. auto.
    - right. right. exists conversation, context. auto. }
  destruct (with_user_documents_documents db user_id k1)
    as [Hsame | (docs & Hdocs & Hlen & Howned)].
  - rewrite Hsame.
    destruct Hk1 as [Hnone | [Hagent | Hcontext]].
    + right. right. exists []. rewrite Hnone.
      split; [reflexivity|]. split; [simpl; lia | constructor].
    + left. exact Hagent.
    + right. left. exact Hcontext.
  - right. right. exists docs. auto.
Qed.

(** Once the conversation of the request is stored, the
    [rag_enabled] flag of the request has no influence: the RAG
    setting, the system prompt and the documents are the same whatever
    the client sends. *)
Lemma stored_conversation_overrides_the_request_flag
        (db : Database) (payload : RagChat.Json) (user_id : string)
        (conversation : Conversation.t) (flag : option bool) :
  Js.truthy (RagChat.conversation_id payload) = true ->
  Query.single
    (Query.eq Conversation.id (Js.value (RagChat.conversation_id payload))
              (conversations db))
  = Some conversation ->
  RagChat.resolve db
    {| RagChat.message := RagChat.message payload;
       RagChat.conversation_id := RagChat.conversation_id payload;
       RagChat.rag_enabled := flag |} user_id
  = RagChat.resolve db payload user_id.
Proof.
  intros Hid Hconversation. unfold RagChat.resolve.
  cbn [RagChat.conversation_id RagChat.rag_enabled
       RagChat.systemPrompt RagChat.documentIds].
  rewrite Hid, Hconversation. reflexivity.
Qed.

End ChatFacts.

(* ================================================================== *)
(** * chat-search: what a search reads, sends and returns *)

Module SearchHandlerFacts.

Import QueryFacts SearchFacts SearchOrderFacts.

(** The [try] block: what it leaves and what it returns. *)
Lemma try_block_outcome (env : Env) (faults : ChatSearch.Faults)
      (req : Request ChatSearch.Json) (w : World) :
  exists (o : Outcome Response) (w' : World),
    ChatSearch.try_block env faults req w = (o, w')
    /\ db w' = db w
    /\ (calls w' = calls w
        \/ exists query,
            calls w'
            = (calls w
               ++ [EmbeddingsRequest
                     ("Bearer " ++ Js.value (OPENAI_API_KEY env))
                     "text-embedding-3-small" query])%list)
    /\ (Service.settles env -> json req <> Diverged -> o <> Diverged)
    /\ forall r, o = Returned r ->
       status r = 200%Z
       /\ exists payload user_id,
           json req = Returned payload
           /\ ChatSearch.user_id payload = Some user_id
           /\ ChatSearch.docsError faults user_id = false
           /\ (body r = Results []
               \/ exists embedding,
                   body r
                   = Results
                       (map (fun chunk => (Search.content chunk,
                                           Search.similarity chunk))
                          (Search.match_document_chunks env
                             (document_chunks (db w)) embedding (3 # 10) 5
                             (map Document.id
                                (Query.eq
                                   (fun d => Js.value (Document.status d))
                                   "completed"
                                   (Query.eq Document.user_id user_id
                                      (documents (db w)))))))).
Proof.
  unfold ChatSearch.try_block.
  unfold bind at 1. unfold lift at 1.
  destruct (json req) as [payload|e|].
  2: { eexists _, _. split; [reflexivity|]. split; [reflexivity|].
       split; [now left|]. split; discriminate. }
  2: { eexists _, _. split; [reflexivity|]. split; [reflexivity|].
       split; [now left|]. split; [|discriminate].
       intros _ H. now elim H. }
  destruct (Js.truthy (ChatSearch.user_id payload)) eqn:Huser; cbn [negb orb].
  2: { eexists _, _. split; [reflexivity|]. split; [reflexivity|].
       split; [now left|]. split; discriminate. }
  destruct (Js.truthy (ChatSearch.search_query payload)); cbn [negb].
  2: { eexists _, _. split; [reflexivity|]. split; [reflexivity|].
       split; [now left|]. split; discriminate. }
  destruct (ChatSearch.user_id payload) as [user_id|] eqn:Hid;
    [|discriminate Huser].
  cbn [Js.value].
  unfold bind at 1. unfold get_db at 1. cbv beta iota zeta.
  destruct (ChatSearch.docsError faults user_id) eqn:Hread.
  { eexists _, _. split; [reflexivity|]. split; [reflexivity|].
    split; [now left|]. split; discriminate. }
  destruct (List.length _ =? 0).
  { eexists _, _. split; [reflexivity|]. split; [reflexivity|].
    split; [now left|]. split; [discriminate|].
    intros r [= <-]. split; [reflexivity|].
    exists payload, user_id. split; [reflexivity|]. split; [exact Hid|].
    split; [exact Hread | now left]. }
  destruct (Js.truthy (OPENAI_API_KEY env)); cbn [negb].
  2: { eexists _, _. split; [reflexivity|]. split; [reflexivity|].
       split; [now left|]. split; discriminate. }
  unfold bind at 1. unfold fetch at 1.
  match goal with
  | |- context [http env _ ?request] =>
      destruct (http env (List.length (calls w)) request)
        as [e|response] eqn:Hhttp
  end.
  { eexists _, _. split; [reflexivity|]. cbn [db calls].
    split; [reflexivity|]. split; [right; eauto|]. split; discriminate. }
  destruct (ok response); cbn [negb].
  2: { eexists _, _. split; [reflexivity|]. cbn [db calls].
       split; [reflexivity|]. split; [right; eauto|]. split; discriminate. }
  unfold bind at 1. unfold lift at 1.
  destruct (json_embedding response) as [embedding|e|] eqn:Hembedding.
  2: { eexists _, _. split; [reflexivity|]. cbn [db calls].
       split; [reflexivity|]. split; [right; eauto|]. split; discriminate. }
  2: { eexists _, _. split; [reflexivity|]. cbn [db calls].
       split; [reflexivity|]. split; [right; eauto|].
       split; [|discriminate].
       intros (_ & _ & Hbody) _.
       destruct (Hbody _ _ _ Hhttp) as [H _]. now elim H. }
  destruct (ChatSearch.searchError faults embedding _).
  { eexists _, _. split; [reflexivity|]. cbn [db calls].
    split; [reflexivity|]. split; [right; eauto|]. split; discriminate. }
  eexists _, _. split; [reflexivity|]. cbn [db calls].
  split; [reflexivity|]. split; [right; eauto|]. split; [discriminate|].
  intros r [= <-]. split; [reflexivity|].
  exists payload, user_id. split; [reflexivity|]. split; [exact Hid|].
  split; [exact Hread|].
  right. exists embedding. reflexivity.
Qed.

(** X26.  Whatever the request, whatever the embedding service answers
    and whichever of its reads reports an error, chat-search writes
    nothing, sends at most one request (the embedding of the query,
    with the credential as configured) and never throws; when the
    request body and the response body it waits for settle, it
    answers; and it answers 200 with results or 500 with a message and
    an empty result list. *)
Theorem search_reads_and_asks_at_most_once
        (env : Env) (faults : ChatSearch.Faults)
        (req : Request ChatSearch.Json) (w : World) :
  exists (o : Outcome Response) (w' : World),
    ChatSearch.serve env faults req w = (o, w')
    /\ db w' = db w
    /\ (calls w' = calls w
        \/ exists query,
            calls w'
            = (calls w
               ++ [EmbeddingsRequest
                     ("Bearer " ++ Js.value (OPENAI_API_KEY env))
                     "text-embedding-3-small" query])%list)
    /\ (forall e, o <> Thrown e)
    /\ (Service.settles env -> json req <> Diverged ->
        exists r, o = Returned r)
    /\ forall r, o = Returned r ->
       (status r = 200%Z
        /\ (body r = NoBody \/ exists results, body r = Results results))
       \/ (status r = 500%Z
           /\ exists message, body r = FailedResults message []).
Proof.
  unfold ChatSearch.serve.
  destruct (method req =? "OPTIONS")%string.
  { eexists _, _. split; [reflexivity|]. split; [reflexivity|].
    split; [now left|]. split; [discriminate|].
    split; [intros _ _; eexists; reflexivity|].
    intros r [= <-]. left. split; [reflexivity | now left]. }
  unfold try_catch.
  destruct (try_block_outcome env faults req w)
    as (o & w1 & -> & Hdb & Hcalls & Hsettles & Hreturned).
  destruct o as [r|e|].
  - exists (Returned r), w1. split; [reflexivity|].
    split; [exact Hdb|]. split; [exact Hcalls|]. split; [discriminate|].
    split; [intros _ _; eexists; reflexivity|].
    intros r' [= <-]. left.
    destruct (Hreturned r eq_refl)
      as (Hstatus & payload & user_id & _ & _ & _ & Hbody).
    split; [exact Hstatus|]. right.
    destruct Hbody as [Hbody | (embedding & Hbody)]; eauto.
  - eexists _, w1. split; [reflexivity|].
    split; [exact Hdb|]. split; [exact Hcalls|]. split; [discriminate|].
    split; [intros _ _; eexists; reflexivity|].
    intros r' [= <-]. right. split; [reflexivity|]. eexists. reflexivity.
  - exists Diverged, w1. split; [reflexivity|].
    split; [exact Hdb|]. split; [exact Hcalls|]. split; [discriminate|].
    split; [|discriminate].
    intros Hs Hjson. now elim (Hsettles Hs Hjson).
Qed.

Lemma search_reads_and_asks_at_most_once_witness :
  exists r,
    fst (ChatSearch.serve
           (Example.env (Some "sk-test") "" (Example.embedding_is [1%Q; 0%Q]))
           {| ChatSearch.docsError := fun _ => false;
              ChatSearch.searchError := fun _ _ => true |}
           (Scenario.search "user-1") Example.bound_world)
    = Returned r
    /\ status r = 500%Z.
Proof.
  destruct (search_reads_and_asks_at_most_once
              (Example.env (Some "sk-test") ""
                 (Example.embedding_is [1%Q; 0%Q]))
              {| ChatSearch.docsError := fun _ => false;
                 ChatSearch.searchError := fun _ _ => true |}
              (Scenario.search "user-1") Example.bound_world)
    as (o & w' & Hrun & _ & _ & _ & Hanswers & _).
  destruct Hanswers as [r ->].
  - split; [discriminate|]. split; [discriminate|].
    intros callno [a m i|a m ms] response; unfold Example.env, http,
      Example.embedding_is, Example.embedded, Example.completed;
      intros [= <-]; split; discriminate.
  - discriminate.
  - rewrite Hrun. exists r. split; [reflexivity|].
    revert Hrun. vm_compute. intros [= <- _]. reflexivity.
Defined.

(** X27.  The results of chat-search are at most five, each the content
    of a stored chunk of a completed document of the user the request
    names, each with a score that is a number above 0.3 or NaN (a zero
    vector), in the order of the search: the numbers first, not
    increasing, NaN last. *)
Theorem search_results_belong_to_the_user
        (env : Env) (faults : ChatSearch.Faults)
        (req : Request ChatSearch.Json)
        (payload : ChatSearch.Json) (w w' : World) (r : Response)
        (results : list (string * Float8.t)) :
  json req = Returned payload ->
  ChatSearch.serve env faults req w = (Returned r, w') ->
  body r = Results results ->
  List.length results <= 5
  /\ Forall (fun result =>
               match snd result with
               | Float8.Num score => (3 # 10 < score)%Q
               | Float8.NaN => True
               end
               /\ exists (c : Chunk.t) (d : Document.t),
                   In c (document_chunks (db w))
                   /\ Chunk.content c = fst result
                   /\ In d (documents (db w))
                   /\ Document.id d = Chunk.document_id c
                   /\ ChatSearch.user_id payload
                      = Some (Document.user_id d)
                   /\ Document.status d = Some "completed") results
  /\ StronglySorted
       (fun a b =>
          match snd a, snd b with
          | Float8.Num x, Float8.Num y => (y <= x)%Q
          | _, Float8.NaN => True
          | Float8.NaN, Float8.Num _ => False
          end) results.
Proof.
  intros Hjson Hrun Hbody.
  unfold ChatSearch.serve in Hrun.
  destruct (method req =? "OPTIONS")%string.
  { injection Hrun as <- <-. discriminate Hbody. }
  unfold try_catch in Hrun.
  destruct (try_block_outcome env faults req w)
    as (o & w1 & Htry & _ & _ & _ & Hreturned).
  rewrite Htry in Hrun.
  destruct o as [r1|e|]; [| |discriminate Hrun].
  2: { unfold ChatSearch.catch_block, ret in Hrun.
       injection Hrun as <- <-. discriminate Hbody. }
  injection Hrun as -> ->.
  destruct (Hreturned r eq_refl)
    as (_ & payload' & user_id & Hjson' & Huser & _ & Hresults).
  rewrite Hjson in Hjson'. injection Hjson' as <-.
  destruct Hresults as [Hnone | (embedding & Hsome)].
  { rewrite Hbody in Hnone. injection Hnone as ->.
    split; [simpl; lia|]. split; constructor. }
  rewrite Hbody in Hsome. injection Hsome as ->.
  split; [|split].
  - unfold Search.match_document_chunks, Query.limit.
    rewrite !length_map, length_firstn. lia.
  - unfold Search.match_document_chunks.
    apply Forall_map, Forall_map, Forall_limit, Forall_order_by,
      Forall_filter.
    intros c Hin Hselected.
    cbn [fst snd Search.content Search.similarity Search.to_match].
    destruct (selected_distance env embedding (3 # 10) _ c Hselected)
      as (distance & Hdistance & Hlt).
    rewrite Hdistance. split; [exact Hlt|].
    apply selected_allowed in Hselected.
    apply in_map_iff in Hselected. destruct Hselected as (d & Hd & Hdocs).
    unfold Query.eq in Hdocs.
    apply filter_In in Hdocs. destruct Hdocs as [Hdocs Hstatus].
    apply filter_In in Hdocs. destruct Hdocs as [Hdocs Howner].
    apply String.eqb_eq in Hstatus, Howner.
    exists c, d. split; [exact Hin|]. split; [reflexivity|].
    split; [exact Hdocs|]. split; [exact Hd|].
    split; [now rewrite Huser, Howner|].
    destruct (Document.status d) as [status|]; [|discriminate].
    cbn [Js.value] in Hstatus. now rewrite Hstatus.
  - apply StronglySorted_map. cbn [snd].
    apply (matches_sorted env (document_chunks (db w)) embedding (3 # 10) 5).
Qed.

Lemma search_results_belong_to_the_user_witness :
  let results := [("Alpha", Float8.Num 1); ("Null", Float8.NaN)] in
  List.length results <= 5
  /\ Forall (fun result =>
               match snd result with
               | Float8.Num score => (3 # 10 < score)%Q
               | Float8.NaN => True
               end
               /\ exists (c : Chunk.t) (d : Document.t),
                   In c (document_chunks Scenario.zero_database)
                   /\ Chunk.content c = fst result
                   /\ In d (documents Scenario.zero_database)
                   /\ Document.id d = Chunk.document_id c
                   /\ ChatSearch.user_id
                        {| ChatSearch.user_id := Some "user-1";
                           ChatSearch.search_query := Some "alpha" |}
                      = Some (Document.user_id d)
                   /\ Document.status d = Some "completed") results
  /\ StronglySorted
       (fun a b =>
          match snd a, snd b with
          | Float8.Num x, Float8.Num y => (y <= x)%Q
          | _, Float8.NaN => True
          | Float8.NaN, Float8.Num _ => False
          end) results.
Proof.
  apply (search_results_belong_to_the_user
           (Example.env (Some "sk-test") "" (Example.embedding_is [1%Q; 0%Q]))
           Scenario.no_faults
           (Scenario.search "user-1")
           {| ChatSearch.user_id := Some "user-1";
              ChatSearch.search_query := Some "alpha" |}
           {| db := Scenario.zero_database; calls := [] |}
           {| db := Scenario.zero_database;
              calls := [EmbeddingsRequest "Bearer sk-test"
                                          "text-embedding-3-small" "alpha"] |}
           {| status := 200;
              body := Results [("Alpha", Float8.Num 1);
                               ("Null", Float8.NaN)] |}
           [("Alpha", Float8.Num 1); ("Null", Float8.NaN)]).
  - reflexivity.
  - vm_compute. reflexivity.
  - reflexivity.
Defined.

End SearchHandlerFacts.

(* ================================================================== *)
(** * gemini-realtime: what a voice session gets to read *)

Module VoiceFacts.

Import QueryFacts SearchOrderFacts.

Lemma newer_total (x y : Document.t) :
  GeminiRealtime.newer x y = false -> GeminiRealtime.newer y x = true.
Proof.
  unfold GeminiRealtime.newer. intros H.
  apply Z.leb_gt in H. apply Z.leb_le. lia.
Qed.

Lemma newer_transitive (x y z : Document.t) :
  GeminiRealtime.newer x y = true -> GeminiRealtime.newer y z = true ->
  GeminiRealtime.newer x z = true.
Proof.
  unfold GeminiRealtime.newer. intros H1 H2.
  apply Z.leb_le in H1, H2. apply Z.leb_le. lia.
Qed.

Lemma newest_first_sorted (rows : list Document.t) :
  StronglySorted (fun a b => GeminiRealtime.newer a b = true)
    (Query.order_by GeminiRealtime.newer rows).
Proof.
  apply order_by_sorted with (P := fun _ => True).
  - intros x y _ _. apply newer_total.
  - intros x y z _ _ _. apply newer_transitive.
  - apply Forall_forall. auto.
Qed.

Lemma conversation_stored (db : Database) (body : GeminiRealtime.Json)
      (c : Conversation.t) :
  Query.single
    (Query.eq Conversation.id
              (Js.value (GeminiRealtime.conversation_id body))
              (conversations db))
  = Some c ->
  Js.truthy (GeminiRealtime.conversation_id body) = true ->
  In c (conversations db)
  /\ GeminiRealtime.conversation_id body = Some (Conversation.id c).
Proof.
  intros H Hid. apply ChatFacts.single_eq_In in H. destruct H as [Hin Heq].
  split; [exact Hin|].
  destruct (GeminiRealtime.conversation_id body); [|discriminate].
  cbn [Js.value] in Heq. now rewrite Heq.
Qed.

Section Sources.

Variable db : Database.
Variable conversation_id : option string.
Variable conversation : option Conversation.t.

Hypothesis Hstored :
  forall c, conversation = Some c ->
            In c (conversations db)
            /\ conversation_id = Some (Conversation.id c).

Lemma add_agent_documents_bound (ids : list string) :
  Forall (Origin.bound db conversation_id) ids ->
  Forall (Origin.bound db conversation_id)
         (GeminiRealtime.add_agent_documents db conversation ids).
Proof.
  intros Hids. unfold GeminiRealtime.add_agent_documents.
  destruct conversation as [c|]; [|exact Hids].
  destruct (Hstored c eq_refl) as [Hin Hbound].
  destruct (Js.truthy (Conversation.agent_id c)) eqn:Hagent_id;
    [|exact Hids].
  destruct (Query.single (Query.eq Agent.id _ _)) as [agent|] eqn:Hagent;
    [|exact Hids].
  destruct (GeminiRealtime.non_empty _); [|exact Hids].
  apply Forall_app. split; [exact Hids|].
  apply ChatFacts.single_eq_In in Hagent. destruct Hagent as [Hagent Heq].
  apply Forall_forall. intros id Hdoc.
  exists c. split; [exact Hin|]. split; [exact Hbound|].
  left. exists agent. split; [exact Hagent|]. split; [|exact Hdoc].
  destruct (Conversation.agent_id c); [|discriminate].
  cbn [Js.value] in Heq. now rewrite Heq.
Qed.

Lemma add_context_documents_bound (ids : list string) :
  Forall (Origin.bound db conversation_id) ids ->
  Forall (Origin.bound db conversation_id)
         (GeminiRealtime.add_context_documents db conversation ids).
Proof.
  intros Hids. unfold GeminiRealtime.add_context_documents.
  destruct conversation as [c|]; [|exact Hids].
  destruct (Hstored c eq_refl) as [Hin Hbound].
  destruct (Js.truthy (Conversation.context_id c)) eqn:Hcontext_id;
    [|exact Hids].
  destruct (Query.single (Query.eq Context.id _ _)) as [context|]
    eqn:Hcontext; [|exact Hids].
  destruct (GeminiRealtime.non_empty _); [|exact Hids].
  apply Forall_app. split; [exact Hids|].
  apply ChatFacts.single_eq_In in Hcontext.
  destruct Hcontext as [Hcontext Heq].
  apply Forall_forall. intros id Hdoc.
  exists c. split; [exact Hin|]. split; [exact Hbound|].
  right. exists context. split; [exact Hcontext|]. split; [|exact Hdoc].
  destruct (Conversation.context_id c); [|discriminate].
  cbn [Js.value] in Heq. now rewrite Heq.
Qed.

End Sources.

(** The fallback selects completed documents of the user. *)
Lemma user_documents_owned (db : Database) (userId : string) (n : nat) :
  Forall (fun d =>
            In d (documents db)
            /\ Document.user_id d = userId
            /\ Document.status d = Some "completed")
         (Query.limit n
            (Query.order_by GeminiRealtime.newer
               (Query.eq (fun d => Js.value (Document.status d)) "completed"
                  (Query.eq Document.user_id userId (documents db))))).
Proof.
  apply Forall_limit, Forall_order_by. unfold Query.eq.
  apply Forall_filter. intros d Hin Hstatus.
  apply filter_In in Hin. destruct Hin as [Hin Huser].
  apply String.eqb_eq in Huser, Hstatus.
  split; [exact Hin|]. split; [exact Huser|].
  destruct (Document.status d) as [status|]; [|discriminate].
  cbn [Js.value] in Hstatus. now rewrite Hstatus.
Qed.

(** Where the documents of a voice session come from. *)
Lemma resolve_origin (db : Database) (body : GeminiRealtime.Json)
      (userId : string) :
  Forall (fun id =>
            Origin.bound db (GeminiRealtime.conversation_id body) id
            \/ Origin.owned db userId id)
         (GeminiRealtime.resolve db body userId).
Proof.
  unfold GeminiRealtime.resolve. cbv zeta.
  set (ids := if Js.truthy (GeminiRealtime.conversation_id body)
              then _ else _).
  assert (Hids : Forall (Origin.bound db
                           (GeminiRealtime.conversation_id body)) ids).
  { subst ids.
    destruct (Js.truthy (GeminiRealtime.conversation_id body)) eqn:Hid;
      [|constructor].
    assert (Hstored :
              forall c,
                Query.single
                  (Query.eq Conversation.id
                     (Js.value (GeminiRealtime.conversation_id body))
                     (conversations db)) = Some c ->
                In c (conversations db)
                /\ GeminiRealtime.conversation_id body
                   = Some (Conversation.id c)).
    { intros c Hc. now apply conversation_stored. }
    apply add_context_documents_bound; [exact Hstored|].
    apply add_agent_documents_bound; [exact Hstored | constructor]. }
  assert (Hsame : Forall (fun id =>
                            Origin.bound db
                              (GeminiRealtime.conversation_id body) id
                            \/ Origin.owned db userId id) ids).
  { eapply Forall_impl; [|exact Hids]. intros id H. now left. }
  unfold GeminiRealtime.with_user_documents.
  destruct (List.length ids =? 0); [|exact Hsame].
  cbv zeta. destruct (0 <? _); [|exact Hsame].
  apply Forall_map.
  eapply Forall_impl; [|apply user_documents_owned].
  intros d (Hin & Huser & Hstatus). right. exists d. auto.
Qed.

(** X28.  The chunks a voice session reads are at most 100 stored
    chunks, each of a document listed by the agent or the context of
    the stored conversation of the request, or of a completed document
    of the signed-in user. *)
Theorem voice_chunks_have_an_origin
        (db : Database) (body : GeminiRealtime.Json)
        (userId : option string) :
  let chunks := GeminiRealtime.rag_chunks db body userId in
  List.length chunks <= 100
  /\ Forall (fun c =>
               In c (document_chunks db)
               /\ (Origin.bound db (GeminiRealtime.conversation_id body)
                                (Chunk.document_id c)
                   \/ exists user,
                       userId = Some user
                       /\ Origin.owned db user (Chunk.document_id c)))
            chunks.
Proof.
  unfold GeminiRealtime.rag_chunks.
  destruct (GeminiRealtime.rag_active body userId) eqn:Hactive.
  2: { split; [simpl; lia | constructor]. }
  assert (Huser : exists user, userId = Some user).
  { unfold GeminiRealtime.rag_active in Hactive.
    destruct (GeminiRealtime.rag_enabled body) as [[|]|]; try discriminate.
    destruct userId as [user|]; [eauto | discriminate]. }
  destruct Huser as [user ->]. cbn [Js.value]. cbv zeta.
  destruct (0 <? _).
  2: { split; [simpl; lia | constructor]. }
  unfold GeminiRealtime.fetch_chunks, Query.limit. split.
  - rewrite length_firstn. lia.
  - apply Forall_limit, Forall_filter. intros c Hin Hc.
    split; [exact Hin|].
    apply is_in_spec in Hc.
    pose proof (resolve_origin db body user) as Horigin.
    rewrite Forall_forall in Horigin.
    destruct (Horigin _ Hc) as [Hbound | Howned]; [now left|].
    right. exists user. auto.
Qed.

(** X29.  Without a conversation in the request, the voice session
    falls back to the newest completed documents of the user: such a
    document is selected, or five are selected and none of them is
    older than that one. *)
Theorem voice_fallback_takes_the_newest_five
        (db : Database) (body : GeminiRealtime.Json) (userId : string)
        (d : Document.t) :
  let ids := GeminiRealtime.resolve db body userId in
  Js.truthy (GeminiRealtime.conversation_id body) = false ->
  In d (documents db) ->
  Document.user_id d = userId ->
  Document.status d = Some "completed" ->
  In (Document.id d) ids
  \/ exists docs : list Document.t,
      ids = map Document.id docs
      /\ List.length docs = 5
      /\ Forall (fun h =>
                   In h (documents db)
                   /\ (Document.created_at d <= Document.created_at h)%Z)
                docs.
Proof.
  intros ids Hid Hin Huser Hstatus. subst ids.
  unfold GeminiRealtime.resolve. rewrite Hid. cbv zeta.
  unfold GeminiRealtime.with_user_documents.
  cbn [List.length Nat.eqb]. cbv zeta. unfold Query.limit.
  set (completed := Query.eq _ "completed" _).
  pose proof (newest_first_sorted completed) as Hsorted.
  pose proof (user_documents_owned db userId (List.length (documents db)))
    as Howned.
  assert (Hall : Forall (fun h => In h (documents db))
                        (Query.order_by GeminiRealtime.newer completed)).
  { apply Forall_order_by. subst completed. unfold Query.eq.
    apply Forall_filter. intros h Hh _.
    apply filter_In in Hh. tauto. }
  clear Howned.
  set (ordered := Query.order_by GeminiRealtime.newer completed) in *.
  assert (Hordered : In d ordered).
  { apply In_order_by. subst completed. unfold Query.eq.
    apply filter_In. split.
    - apply filter_In. split; [exact Hin|].
      rewrite Huser. apply String.eqb_refl.
    - rewrite Hstatus. reflexivity. }
  assert (Hsome : (0 <? List.length (firstn 5 ordered)) = true).
  { destruct ordered; [contradiction | reflexivity]. }
  rewrite Hsome.
  rewrite <- (firstn_skipn 5 ordered) in Hordered.
  apply in_app_or in Hordered. destruct Hordered as [Hfirst | Hrest].
  - left. now apply in_map.
  - right. exists (firstn 5 ordered). split; [reflexivity|]. split.
    + rewrite length_firstn.
      assert (5 < List.length ordered); [|lia].
      destruct (Nat.lt_ge_cases 5 (List.length ordered)) as [H|H];
        [exact H|].
      rewrite skipn_all2 in Hrest by exact H. contradiction.
    + pose proof (StronglySorted_cut _ _ 5 _ Hsorted) as Hcut.
      rewrite Forall_forall in *. intros h Hh. split.
      * apply Hall. eapply In_firstn_incl; exact Hh.
      * specialize (Hcut h Hh). rewrite Forall_forall in Hcut.
        specialize (Hcut d Hrest). unfold GeminiRealtime.newer in Hcut.
        now apply Z.leb_le.
Qed.

Lemma voice_fallback_takes_the_newest_five_witness :
  let d := Example.completed_document "doc-1" 1 in
  let ids :=
    GeminiRealtime.resolve Scenario.library
      {| GeminiRealtime.conversation_id := None;
         GeminiRealtime.rag_enabled := Some true |} "user-1" in
  ids = ["doc-7"; "doc-6"; "doc-5"; "doc-4"; "doc-3"]
  /\ ~ In (Document.id d) ids
  /\ (In (Document.id d) ids
      \/ exists docs : list Document.t,
          ids = map Document.id docs
          /\ List.length docs = 5
          /\ Forall (fun h =>
                       In h (documents Scenario.library)
                       /\ (Document.created_at d
                           <= Document.created_at h)%Z)
                    docs).
Proof.
  intros d ids.
  assert (Hids : ids = ["doc-7"; "doc-6"; "doc-5"; "doc-4"; "doc-3"])
    by (vm_compute; reflexivity).
  split; [exact Hids|]. split.
  - rewrite Hids. simpl.
    intros [H|[H|[H|[H|[H|[]]]]]]; discriminate H.
  - apply (voice_fallback_takes_the_newest_five Scenario.library
             {| GeminiRealtime.conversation_id := None;
                GeminiRealtime.rag_enabled := Some true |}
             "user-1" (Example.completed_document "doc-1" 1)).
    + reflexivity.
    + simpl. tauto.
    + reflexivity.
    + reflexivity.
Defined.

(** X30.  A caller who is not signed in, or who does not ask for RAG,
    still gets a session: the reply carries the configured Gemini
    credential and the base instruction alone, without any stored
    content. *)
Theorem anonymous_voice_session_gets_the_key
        (env : Env) (GEMINI_API_KEY : option string)
        (req : Request GeminiRealtime.Json) (body : GeminiRealtime.Json)
        (db : Database) :
  method req <> "OPTIONS" ->
  json req = Returned body ->
  Js.truthy GEMINI_API_KEY = true ->
  VoiceSession.userId env req = None
  \/ GeminiRealtime.rag_enabled body <> Some true ->
  VoiceSession.serve env GEMINI_API_KEY req db
  = Returned
      {| VoiceSession.code := 200;
         VoiceSession.reply :=
           VoiceSession.Session (Js.value GEMINI_API_KEY)
             "You are a helpful assistant and answer in a friendly tone."
             VoiceSession.model_name |}.
Proof.
  intros Hmethod Hjson Hkey Hanonymous.
  unfold VoiceSession.serve.
  apply String.eqb_neq in Hmethod. rewrite Hmethod, Hjson, Hkey.
  cbn [negb]. cbv zeta.
  assert (Hactive : GeminiRealtime.rag_active body
                      (VoiceSession.userId env req) = false).
  { unfold GeminiRealtime.rag_active.
    destruct Hanonymous as [-> | Hflag].
    - destruct (GeminiRealtime.rag_enabled body) as [[|]|]; reflexivity.
    - destruct (GeminiRealtime.rag_enabled body) as [[|]|];
        [now elim Hflag | reflexivity | reflexivity]. }
  unfold VoiceSession.systemInstruction. rewrite Hactive. reflexivity.
Qed.

Lemma anonymous_voice_session_gets_the_key_witness :
  VoiceSession.serve
    (Example.env (Some "sk-test") "" (Example.embedding_is [1%Q; 0%Q]))
    (Some "gemini-key")
    {| method := "POST"; authorization := None;
       json := Returned {| GeminiRealtime.conversation_id := Some "conv-1";
                           GeminiRealtime.rag_enabled := Some true |} |}
    Example.bound_database
  = Returned
      {| VoiceSession.code := 200;
         VoiceSession.reply :=
           VoiceSession.Session "gemini-key"
             "You are a helpful assistant and answer in a friendly tone."
             VoiceSession.model_name |}.
Proof.
  apply (anonymous_voice_session_gets_the_key
           (Example.env (Some "sk-test") "" (Example.embedding_is [1%Q; 0%Q]))
           (Some "gemini-key")
           {| method := "POST"; authorization := None;
              json := Returned
                        {| GeminiRealtime.conversation_id := Some "conv-1";
                           GeminiRealtime.rag_enabled := Some true |} |}
           {| GeminiRealtime.conversation_id := Some "conv-1";
              GeminiRealtime.rag_enabled := Some true |}
           Example.bound_database).
  - discriminate.
  - reflexivity.
  - reflexivity.
  - left. reflexivity.
Defined.

End VoiceFacts.
